(** * DocuChat AI backend ([backend/app.py]): session-scoped retrieval and
    indexing manager.

    A shallow embedding of the Flask backend.  Pure helpers
    ([generate_chat_name], [format_citation_text], [allowed_file]) are Rocq
    functions on strings; the module-level globals ([vector_store],
    [qa_chain], [document_metadata], [all_documents], [active_session_id])
    and the two JSON files form an explicit [State] record threaded through
    a small state-and-exception monad, so that a Python assignment made
    before a raising call stays visible afterwards, exactly as in the
    source.  The external collaborators (Chroma, Ollama, the loaders, the
    text splitter, werkzeug) are section variables.

    Conventions: a Python [str] is a [string]; one [ascii] stands for one
    character (a code point below 256).  [uuid.uuid4()] and
    [datetime.now()] are arguments of the operation that calls them.
    Writing a file (an upload, [history.json], [session.json]) and
    deleting one are taken to succeed.  A member of a JSON object that a
    route reads as text is a string. *)

From Stdlib Require Import String Ascii List NArith Bool Lia Sorted.
From stdpp Require Import gmap strings pretty.
Import ListNotations.
Local Open Scope string_scope.

(** ** Python string primitives *)

Module PyStr.

(** [str.isspace] on one character: the ASCII table of CPython
    (TAB..CR, FS..US, space) and the two Latin-1 spaces NEL and NBSP.
    [str.strip()] and the regular-expression class [\s] both use it. *)
Definition is_space (c : ascii) : bool :=
  let n := N_of_ascii c in
  ((9 <=? n) && (n <=? 13) || (28 <=? n) && (n <=? 32)
   || (n =? 133) || (n =? 160))%N.

Fixpoint lstrip (s : string) : string :=
  match s with
  | String c r => if is_space c then lstrip r else s
  | EmptyString => EmptyString
  end.

Fixpoint rstrip (s : string) : string :=
  match s with
  | String c r =>
      match rstrip r with
      | EmptyString => if is_space c then EmptyString else String c EmptyString
      | r' => String c r'
      end
  | EmptyString => EmptyString
  end.

(** [s.strip()] *)
Definition strip (s : string) : string := rstrip (lstrip s).

(** [s[:n]] *)
Fixpoint prefix (n : nat) (s : string) : string :=
  match n, s with
  | S k, String c r => String c (prefix k r)
  | _, _ => EmptyString
  end.

(** [sep.join(l)] *)
Fixpoint join (sep : string) (l : list string) : string :=
  match l with
  | [] => EmptyString
  | [x] => x
  | x :: r => x ++ sep ++ join sep r
  end.

(** [str.lower()] on one character (ASCII and Latin-1 capitals). *)
Definition lower (c : ascii) : ascii :=
  let n := N_of_ascii c in
  if ((65 <=? n) && (n <=? 90)
      || (192 <=? n) && (n <=? 222) && negb (n =? 215))%N
  then ascii_of_N (n + 32) else c.

Fixpoint lower_str (s : string) : string :=
  match s with
  | String c r => String (lower c) (lower_str r)
  | EmptyString => EmptyString
  end.

Fixpoint contains_char (c : ascii) (s : string) : bool :=
  match s with
  | String d r => Ascii.eqb c d || contains_char c r
  | EmptyString => false
  end.

(** [s.rsplit(c, 1)[1]] when [c] occurs in [s]: the text after the last
    occurrence of [c].  Without an occurrence Python raises [IndexError]:
    [None]. *)
Fixpoint after_last (c : ascii) (s : string) : option string :=
  match s with
  | String d r =>
      match after_last c r with
      | Some t => Some t
      | None => if Ascii.eqb c d then Some r else None
      end
  | EmptyString => None
  end.

End PyStr.

(** ** [generate_chat_name] (app.py, lines 95-101) *)

Definition generate_chat_name (question : string) : string :=
  let name := PyStr.strip question in
  if (50 <? String.length name)%nat then PyStr.prefix 47 name ++ "..." else name.

(** ** [format_citation_text] (app.py, lines 529-551) *)

Definition is_sentence_end (c : ascii) : bool :=
  Ascii.eqb c "." || Ascii.eqb c "!" || Ascii.eqb c "?".

(** [re.split(r'(?<=[.!?])\s+', s)].  The scanner returns the piece being
    read and the pieces after it.  [after_end] says that the previous
    character is one of [.!?] (the look-behind); [in_sep] says that the
    scanner is inside a run of whitespace that already matched. *)
Fixpoint split_from (after_end in_sep : bool) (s : string)
  : string * list string :=
  match s with
  | EmptyString => (EmptyString, [])
  | String c r =>
      if PyStr.is_space c && in_sep then split_from false true r
      else if PyStr.is_space c && after_end then
        let '(p, ps) := split_from false true r in (EmptyString, p :: ps)
      else
        let '(p, ps) := split_from (is_sentence_end c) false r in
        (String c p, ps)
  end.

Definition split_sentences (s : string) : list string :=
  let '(p, ps) := split_from false false s in p :: ps.

Definition format_citation_text (text : string) (max_sentences : nat)
  : string :=
  let sentences := split_sentences (PyStr.strip text) in
  let selected := firstn max_sentences sentences in
  let result := PyStr.join " " selected in
  let result :=
    if (max_sentences <? List.length sentences)%nat then result ++ "..."
    else result in
  if (300 <? String.length result)%nat then PyStr.prefix 297 result ++ "..."
  else result.

(** ** Data model *)

(** A langchain [Document]: a page as loaded, or a chunk after splitting.
    The metadata dictionary is read only at the keys ['source'],
    ['file_id'] and ['page']. *)
Record Document := {
  page_content : string;
  source : option string;
  file_id : option string;
  page : option nat
}.

(** A value of [document_metadata]. *)
Record DocMeta := {
  filename : string;
  chunks : nat;
  pages : nat
}.

Record Citation := {
  cit_id : nat;
  cit_content : string;
  cit_source : string;          (* ['Unknown'] when the chunk has none *)
  cit_page : option nat         (* [None] is ['N/A'] *)
}.

Record Message := {
  msg_id : string;
  timestamp : string;
  msg_question : string;
  answer : string;
  citations : list Citation
}.

Record ChatSession := {
  id : string;
  name : string;
  created_at : string;
  updated_at : string;
  messages : list Message;
  documents : option (gmap string DocMeta)   (* the key may be missing *)
}.

(** The root object of [history.json]. *)
Record SessionsData := {
  sessions : gmap string ChatSession;
  active_session : option string
}.

(** What [history.json] holds: nothing (or nothing readable), the old
    list-shaped history, or a sessions object. *)
Inductive HistoryFile :=
| NoFile
| OldList
| Stored (d : SessionsData).

(** The root object of [session.json]. *)
Record SessionFile := {
  sf_document_metadata : gmap string DocMeta;
  last_updated : string
}.

(** The result of a call that may raise: a value, or the text [str(e)] of
    the exception. *)
Inductive exc (A : Type) :=
| Val (a : A)
| Exc (e : string).
Arguments Val {A} a.
Arguments Exc {A} e.

(** The external collaborators. *)
Class Backend := {
  Store : Type;                                   (* a Chroma vector store *)
  Chain : Type;                                   (* a RetrievalQA chain *)
  (* [Chroma.from_documents(documents, embedding, collection_name, ...)] *)
  Chroma_from_documents : list Document -> string -> exc Store;
  (* [vector_store.add_documents(chunks)] *)
  add_documents : Store -> list Document -> exc Store;
  (* [Chroma(collection_name, embedding_function, persist_directory)] *)
  Chroma : string -> exc Store;
  (* [Ollama(...)], [PromptTemplate(...)], [RetrievalQA.from_chain_type] *)
  RetrievalQA_from_chain_type : Store -> exc Chain;
  (* [qa_chain({"query": question})]: ['result'] and ['source_documents'] *)
  invoke : Chain -> string -> exc (string * list Document);
  PyPDFLoader_load : string -> exc (list Document);
  UnstructuredWordDocumentLoader_load : string -> exc (list Document);
  (* [docx.Document(path).paragraphs], the text of each paragraph *)
  docx_paragraphs : string -> exc (list string);
  (* [RecursiveCharacterTextSplitter(...).split_documents] *)
  split_documents : nat -> nat -> list Document -> list Document;
  (* [werkzeug.utils.secure_filename] *)
  secure_filename : string -> string
}.

(** The body of a JSON response; a response is a body and a status code. *)
Inductive Body :=
| Error (error : string)
| Uploaded (message file_id filename : string)
           (chunks pages total_documents : nat)
| Answer (answer : string) (citations : list Citation) (question : string)
| Removed (message : string) (remaining_documents : nat)
| Session (message : option string) (session : ChatSession)
| Message_ (message : string).

Definition Response : Type := Body * nat.

Record UploadRequest := {
  upload_file : option string;           (* [request.files['file'].filename] *)
  add_to_existing_field : option string  (* [request.form['add_to_existing']] *)
}.

Definition ALLOWED_EXTENSIONS : list string := ["pdf"; "docx"; "doc"].

Definition str_in (x : string) (l : list string) : bool :=
  existsb (String.eqb x) l.

(** [allowed_file] (app.py, lines 65-67) *)
Definition allowed_file (filename : string) : bool :=
  PyStr.contains_char "." filename &&
  match PyStr.after_last "." filename with
  | Some ext => str_in (PyStr.lower_str ext) ALLOWED_EXTENSIONS
  | None => false
  end.

(** ** Request bodies

    What the routes read of a request.  [request.get_json()] raises for a
    request that does not carry JSON (415 Unsupported Media Type, 400 Bad
    Request), and what it returns need not be an object; [request.files]
    raises for a body longer than [MAX_CONTENT_LENGTH]. *)

(** A JSON value as [request.get_json()] returns it, by its Python type;
    [JNumber] is an integer.  An object is given by the member that the
    route reads in it, when it has that member. *)
#[warnings="-register-all"] Inductive Json (A : Type) :=
| JNull
| JBool (b : bool)
| JNumber (n : Z)
| JString (s : string)
| JArray (items : list (Json A))
| JObject (member : option A).

Arguments JNull {A}.
Arguments JBool {A} b.
Arguments JNumber {A} n.
Arguments JString {A} s.
Arguments JArray {A} items.
Arguments JObject {A} member.

(** [sub in s] on strings *)
Fixpoint str_contains (sub s : string) : bool :=
  String.prefix sub s
  || match s with
     | String _ r => str_contains sub r
     | EmptyString => false
     end.

(** [item == t] for a string [t] *)
Definition is_string {A} (t : string) (item : Json A) : bool :=
  match item with
  | JString s => String.eqb s t
  | _ => false
  end.

(** [not data or 'question' not in data] (line 569), for [data] with the
    member ['question'] of its object, a string.  What is falsy ([None],
    [False], [0], and the empty string, list and object) holds no
    ['question'].  [in] looks for a substring in a string, for an equal
    item in a list and for a key in an object, and raises [TypeError] on
    [True] and on a number. *)
Definition no_question (data : Json string) : exc bool :=
  match data with
  | JNull => Val true
  | JBool b =>
      if b then Exc "argument of type 'bool' is not iterable" else Val true
  | JNumber n =>
      if (n =? 0)%Z then Val true
      else Exc "argument of type 'int' is not iterable"
  | JString s => Val (negb (str_contains "question" s))
  | JArray items => Val (negb (existsb (is_string "question") items))
  | JObject member => Val (negb (bool_decide (is_Some member)))
  end.

(** [data['question']] (line 572) *)
Definition question_of (data : Json string) : exc string :=
  match data with
  | JNull => Exc "'NoneType' object is not subscriptable"
  | JBool _ => Exc "'bool' object is not subscriptable"
  | JNumber _ => Exc "'int' object is not subscriptable"
  | JString _ => Exc "string indices must be integers, not 'str'"
  | JArray _ => Exc "list indices must be integers or slices, not str"
  | JObject (Some question) => Val question
  | JObject None => Exc "'question'"
  end.

(** [(request.get_json() or {}).get('clear_history', True)] (lines
    794-795) as the truth value that line 813 tests, for [data] with
    the truth value of the member ['clear_history'] of its object.
    What is falsy is replaced by the empty object, where the member is
    missing; [True], a number other than [0] and a string or list that is
    not empty have no [get]. *)
Definition clear_history_of (data : Json bool) : exc bool :=
  match data with
  | JNull => Val true
  | JBool b =>
      if b then Exc "'bool' object has no attribute 'get'" else Val true
  | JNumber n =>
      if (n =? 0)%Z then Val true
      else Exc "'int' object has no attribute 'get'"
  | JString s =>
      if String.eqb s "" then Val true
      else Exc "'str' object has no attribute 'get'"
  | JArray items =>
      match items with
      | [] => Val true
      | _ => Exc "'list' object has no attribute 'get'"
      end
  | JObject member => Val (default true member)
  end.

(** [app.config['MAX_CONTENT_LENGTH']] (line 56), in bytes *)
Definition MAX_CONTENT_LENGTH : N := 50 * 1024 * 1024.

Section Application.

Context `{B : Backend}.

(** ** The process state: the module globals and the files on disk *)

Record State := {
  vector_store : option Store;
  qa_chain : option Chain;
  document_metadata : gmap string DocMeta;
  all_documents : list Document;
  active_session_id : option string;
  history_file : HistoryFile;            (* chat_history/history.json *)
  session_file : option SessionFile;     (* chat_history/session.json *)
  uploads : gset string                  (* the names in uploads/ *)
}.

Definition set_vector_store (v : option Store) (s : State) : State :=
  {| vector_store := v; qa_chain := qa_chain s;
     document_metadata := document_metadata s;
     all_documents := all_documents s;
     active_session_id := active_session_id s;
     history_file := history_file s; session_file := session_file s;
     uploads := uploads s |}.

Definition set_qa_chain (c : option Chain) (s : State) : State :=
  {| vector_store := vector_store s; qa_chain := c;
     document_metadata := document_metadata s;
     all_documents := all_documents s;
     active_session_id := active_session_id s;
     history_file := history_file s; session_file := session_file s;
     uploads := uploads s |}.

Definition set_document_metadata (m : gmap string DocMeta) (s : State)
  : State :=
  {| vector_store := vector_store s; qa_chain := qa_chain s;
     document_metadata := m;
     all_documents := all_documents s;
     active_session_id := active_session_id s;
     history_file := history_file s; session_file := session_file s;
     uploads := uploads s |}.

Definition set_all_documents (l : list Document) (s : State) : State :=
  {| vector_store := vector_store s; qa_chain := qa_chain s;
     document_metadata := document_metadata s;
     all_documents := l;
     active_session_id := active_session_id s;
     history_file := history_file s; session_file := session_file s;
     uploads := uploads s |}.

Definition set_active_session_id (a : option string) (s : State) : State :=
  {| vector_store := vector_store s; qa_chain := qa_chain s;
     document_metadata := document_metadata s;
     all_documents := all_documents s;
     active_session_id := a;
     history_file := history_file s; session_file := session_file s;
     uploads := uploads s |}.

Definition set_history_file (h : HistoryFile) (s : State) : State :=
  {| vector_store := vector_store s; qa_chain := qa_chain s;
     document_metadata := document_metadata s;
     all_documents := all_documents s;
     active_session_id := active_session_id s;
     history_file := h; session_file := session_file s;
     uploads := uploads s |}.

Definition set_session_file (f : option SessionFile) (s : State) : State :=
  {| vector_store := vector_store s; qa_chain := qa_chain s;
     document_metadata := document_metadata s;
     all_documents := all_documents s;
     active_session_id := active_session_id s;
     history_file := history_file s; session_file := f;
     uploads := uploads s |}.

Definition set_uploads (u : gset string) (s : State) : State :=
  {| vector_store := vector_store s; qa_chain := qa_chain s;
     document_metadata := document_metadata s;
     all_documents := all_documents s;
     active_session_id := active_session_id s;
     history_file := history_file s; session_file := session_file s;
     uploads := u |}.

(** ** Statements: state passing with exceptions

    A statement maps the state to a value or an exception, and to the
    state reached; the state reached by a raising statement is kept. *)

Definition M (A : Type) : Type := State -> exc A * State.

Definition ret {A} (a : A) : M A := fun s => (Val a, s).

Definition raise {A} (e : string) : M A := fun s => (Exc e, s).

Definition bind {A C} (m : M A) (k : A -> M C) : M C :=
  fun s =>
    match m s with
    | (Val a, s') => k a s'
    | (Exc e, s') => (Exc e, s')
    end.

(** [try: m  except Exception as e: handler e] *)
Definition try {A} (m : M A) (handler : string -> M A) : M A :=
  fun s =>
    match m s with
    | (Val a, s') => (Val a, s')
    | (Exc e, s') => handler e s'
    end.

Definition get : M State := fun s => (Val s, s).

Definition modify (f : State -> State) : M unit := fun s => (Val tt, f s).

(** A call to a collaborator. *)
Definition call {A} (r : exc A) : M A := fun s => (r, s).

Notation "'let*' x ':=' m 'in' k" := (bind m (fun x => k))
  (at level 10, x pattern, m at level 100, k at level 200).
Notation "m ';;' k" := (bind m (fun _ => k))
  (at level 100, k at level 200, right associativity).

(** ** The session store *)

Definition no_sessions : SessionsData :=
  {| sessions := ∅; active_session := None |}.

(** [load_chat_sessions] (lines 69-84).  The old list-shaped file is
    read as an object without sessions. *)
Definition read_sessions (s : State) : SessionsData :=
  match history_file s with
  | Stored d => d
  | OldList => no_sessions
  | NoFile => no_sessions
  end.

Definition load_chat_sessions : M SessionsData :=
  let* s := get in ret (read_sessions s).

(** [save_chat_sessions] (lines 86-93) *)
Definition save_chat_sessions (data : SessionsData) : M unit :=
  modify (set_history_file (Stored data)).

(** [dict(document_metadata) if document_metadata else {}] *)
Definition docs_snapshot : M (gmap string DocMeta) :=
  let* s := get in ret (document_metadata s).

(** [create_new_session] (lines 103-138).  [session_id] is the fresh
    uuid, [t_created] and [t_updated] the two readings of the clock. *)
Definition create_new_session (first_question : option string)
    (session_id t_created t_updated : string) : M string :=
  try
    (let* sessions_data := load_chat_sessions in
     let name :=
       match first_question with
       | Some (String c q) => generate_chat_name (String c q)
       | _ => "New Chat " ++ pretty (size (sessions sessions_data) + 1)
       end in
     let* snapshot := docs_snapshot in
     let session :=
       {| id := session_id; name := name;
          created_at := t_created; updated_at := t_updated;
          messages := []; documents := Some snapshot |} in
     save_chat_sessions
       {| sessions := <[session_id := session]> (sessions sessions_data);
          active_session := Some session_id |};;
     ret session_id)
    (fun e => raise e).

Definition with_messages (l : list Message) (t : string) (c : ChatSession)
  : ChatSession :=
  {| id := id c; name := name c; created_at := created_at c;
     updated_at := t; messages := l; documents := documents c |}.

Definition with_name (n : string) (c : ChatSession) : ChatSession :=
  {| id := id c; name := n; created_at := created_at c;
     updated_at := updated_at c; messages := messages c;
     documents := documents c |}.

Definition with_updated_at (t : string) (c : ChatSession) : ChatSession :=
  {| id := id c; name := name c; created_at := created_at c;
     updated_at := t; messages := messages c; documents := documents c |}.

Definition with_documents (d : gmap string DocMeta) (c : ChatSession)
  : ChatSession :=
  {| id := id c; name := name c; created_at := created_at c;
     updated_at := updated_at c; messages := messages c;
     documents := Some d |}.

(** [add_message_to_session] (lines 140-182).  [message_id] is the fresh
    uuid, [t_message] and [t_updated] the two readings of the clock. *)
Definition add_message_to_session (session_id question answer : string)
    (citations : list Citation) (message_id t_message t_updated : string)
  : M bool :=
  try
    (let* sessions_data := load_chat_sessions in
     match sessions sessions_data !! session_id with
     | None => ret false
     | Some session =>
         let message :=
           {| msg_id := message_id; timestamp := t_message;
              msg_question := question; answer := answer;
              citations := citations |} in
         let session :=
           with_messages (messages session ++ [message]) t_updated session in
         let session :=
           if (List.length (messages session) =? 1)%nat
           then with_name (generate_chat_name question) session
           else session in
         let* session :=
           match documents session with
           | Some _ => ret session
           | None =>
               let* snapshot := docs_snapshot in
               ret (with_documents snapshot session)
           end in
         save_chat_sessions
           {| sessions := <[session_id := session]> (sessions sessions_data);
              active_session := active_session sessions_data |};;
         ret true
     end)
    (fun _ => ret false).

(** [save_session_state] (lines 184-195) *)
Definition save_session_state (now : string) : M unit :=
  let* s := get in
  modify (set_session_file
            (Some {| sf_document_metadata := document_metadata s;
                     last_updated := now |})).

(** ** Loading and chunking *)

Definition nonblank (p : string) : bool :=
  negb (String.eqb (PyStr.strip p) "").

(** [load_document] (lines 261-293) *)
Definition load_document (file_path : string) : M (list Document) :=
  match PyStr.after_last "." file_path with
  | None => raise "list index out of range"
  | Some ext =>
      let file_extension := PyStr.lower_str ext in
      try
        (if String.eqb file_extension "pdf" then
           call (PyPDFLoader_load file_path)
         else if str_in file_extension ["docx"; "doc"] then
           try
             (call (UnstructuredWordDocumentLoader_load file_path))
             (fun _ =>
                let* paragraphs := call (docx_paragraphs file_path) in
                let text :=
                  PyStr.join (String "010" (String "010" EmptyString))
                             (List.filter nonblank paragraphs) in
                ret [ {| page_content := text; source := Some file_path;
                         file_id := None; page := None |} ])
         else raise ("Unsupported file type: " ++ file_extension))
        (fun e => raise e)
  end.

(** [chunk_documents] (lines 295-309), with its default sizes. *)
Definition chunk_documents (documents : list Document) : list Document :=
  split_documents 1000 200 documents.

(** ** The vector index slot *)

(** [active_session_id == session_id] *)
Definition same_session (a b : option string) : bool :=
  match a, b with
  | Some x, Some y => String.eqb x y
  | None, None => true
  | _, _ => false
  end.

(** [if session_id: collection_name = f"session_{session_id}"] *)
Definition collection_for (collection_name : string)
    (session_id : option string) : string :=
  match session_id with
  | Some (String c r) => "session_" ++ String c r
  | _ => collection_name
  end.

(** [create_vector_store] (lines 311-350).  The first branch is taken when
    [add_to_existing and vector_store is not None and
     active_session_id == session_id]. *)
Definition create_vector_store (chunks : list Document)
    (collection_name : string) (add_to_existing : bool)
    (session_id : option string) : M Store :=
  try
    (let collection_name := collection_for collection_name session_id in
     let* s := get in
     match
       (if add_to_existing && same_session (active_session_id s) session_id
        then vector_store s else None)
     with
     | Some store =>
         modify (set_all_documents (all_documents s ++ chunks));;
         let* store := call (add_documents store chunks) in
         modify (set_vector_store (Some store));;
         ret store
     | None =>
         modify (set_all_documents chunks);;
         modify (set_active_session_id session_id);;
         let* store := call (Chroma_from_documents chunks collection_name) in
         modify (set_vector_store (Some store));;
         ret store
     end)
    (fun e => raise e).

(** [initialize_qa_chain] (lines 391-442) *)
Definition initialize_qa_chain : M Chain :=
  let* s := get in
  match vector_store s with
  | None => raise "Vector store not initialized"
  | Some store =>
      try
        (let* chain := call (RetrievalQA_from_chain_type store) in
         modify (set_qa_chain (Some chain));;
         ret chain)
        (fun e => raise e)
  end.

(** [load_session_vector_store] (lines 352-389) *)
Definition load_session_vector_store (session_id : string) : M bool :=
  try
    (let* s := get in
     if same_session (active_session_id s) (Some session_id)
        && bool_decide (is_Some (vector_store s))
     then ret true
     else
       let collection_name := "session_" ++ session_id in
       let* store := call (Chroma collection_name) in
       modify (set_vector_store (Some store));;
       modify (set_active_session_id (Some session_id));;
       initialize_qa_chain;;
       ret true)
    (fun _ => ret false).

(** ** Endpoints *)

Definition tag_document (filename file_id' : string) (d : Document)
  : Document :=
  {| page_content := page_content d; source := Some filename;
     file_id := Some file_id'; page := page d |}.

(** [upload_document] (lines 452-527), for a request whose form could
    be read; [upload_document_request] below starts at the reading.
    [file_id] is the fresh uuid. *)
Definition upload_document (request : UploadRequest)
    (file_id now : string) : M Response :=
  match upload_file request with
  | None => ret (Error "No file provided", 400)
  | Some "" => ret (Error "No file selected", 400)
  | Some file_name =>
      if negb (allowed_file file_name) then
        ret (Error "Invalid file type. Only PDF and DOCX files are allowed",
             400)
      else
        let add_to_existing :=
          String.eqb
            (PyStr.lower_str
               (default "false" (add_to_existing_field request)))
            "true" in
        try
          (let filename := secure_filename file_name in
           let stored := file_id ++ "_" ++ filename in
           let file_path := "uploads/" ++ stored in
           let* s := get in
           modify (set_uploads ({[ stored ]} ∪ uploads s));;
           let* documents := load_document file_path in
           let documents := map (tag_document filename file_id) documents in
           let chunks := chunk_documents documents in
           create_vector_store chunks "docuchat" add_to_existing None;;
           initialize_qa_chain;;
           let* s := get in
           modify (set_document_metadata
                     (<[file_id := {| filename := filename;
                                      chunks := List.length chunks;
                                      pages := List.length documents |}]>
                        (document_metadata s)));;
           save_session_state now;;
           let* s := get in
           ret (Uploaded
                  (if add_to_existing then "Document added to collection"
                   else "Document uploaded and processed successfully")
                  file_id filename (List.length chunks)
                  (List.length documents) (size (document_metadata s)),
                200))
          (fun e => ret (Error ("Failed to process document: " ++ e), 500))
  end.

Definition citation_of (i : nat) (doc : Document) : Citation :=
  {| cit_id := i + 1;
     cit_content := format_citation_text (page_content doc) 3;
     cit_source := default "Unknown" (source doc);
     cit_page := page doc |}.

(** [chat] (lines 553-603), for a request whose body is a JSON object:
    [question] is its member ['question'], a string, and [None] when the
    object has none.  [chat_request] below takes every body and includes
    the lines 568 to 572, which read it. *)
Definition chat (question : option string) : M Response :=
  let* s := get in
  match qa_chain s with
  | None =>
      ret (Error "No document uploaded yet. Please upload a document first.",
           400)
  | Some chain =>
      match question with
      | None => ret (Error "No question provided", 400)
      | Some question =>
          try
            (let* result := call (invoke chain question) in
             let '(answer, source_docs) := result in
             let citations := imap citation_of source_docs in
             ret (Answer answer citations question, 200))
            (fun e =>
               ret (Error ("Failed to process question: " ++ e), 500))
      end
  end.

(** [doc.metadata.get('file_id') != file_id] *)
Definition other_document (file_id' : string) (doc : Document) : bool :=
  match file_id doc with
  | Some f => negb (String.eqb f file_id')
  | None => true
  end.

Definition starts_with (p f : string) : bool := String.prefix p f.

(** [remove_document] (lines 612-661) *)
Definition remove_document (file_id now : string) : M Response :=
  let* s := get in
  match document_metadata s !! file_id with
  | None => ret (Error "Document not found", 404)
  | Some meta =>
      try
        (let filename := filename meta in
         modify (set_document_metadata (delete file_id (document_metadata s)));;
         modify (set_uploads
                   (filter (fun f => starts_with file_id f = false)
                           (uploads s)));;
         let remaining_docs :=
           List.filter (other_document file_id) (all_documents s) in
         match remaining_docs with
         | _ :: _ =>
             modify (set_all_documents remaining_docs);;
             create_vector_store remaining_docs "docuchat_multi" false None;;
             initialize_qa_chain;;
             ret tt
         | [] =>
             modify (set_vector_store None);;
             modify (set_qa_chain None);;
             modify (set_all_documents [])
         end;;
         save_session_state now;;
         let* s := get in
         ret (Removed ("Document '" ++ filename ++ "' removed successfully")
                      (size (document_metadata s)),
              200))
        (fun e => ret (Error ("Failed to remove document: " ++ e), 500))
  end.

(** [get_session] (lines 690-715) *)
Definition get_session (session_id : string) : M Response :=
  try
    (let* sessions_data := load_chat_sessions in
     match sessions sessions_data !! session_id with
     | None => ret (Error "Session not found", 404)
     | Some session =>
         save_chat_sessions
           {| sessions := sessions sessions_data;
              active_session := Some session_id |};;
         (if bool_decide (0 < size (default ∅ (documents session)))
          then load_session_vector_store session_id
          else ret true);;
         ret (Session None session, 200)
     end)
    (fun e => ret (Error ("Failed to retrieve session: " ++ e), 500)).

(** [new_session] (lines 717-728) *)
Definition new_session (session_id t_created t_updated : string)
  : M Response :=
  try
    (let* session_id := create_new_session None session_id
                                           t_created t_updated in
     let* sessions_data := load_chat_sessions in
     match sessions sessions_data !! session_id with
     | Some session => ret (Session None session, 201)
     | None => raise session_id
     end)
    (fun e => ret (Error ("Failed to create session: " ++ e), 500)).

(** [rename_session] (lines 730-757).  [name_field] is [None] when the
    request has no JSON object or the object has no ['name']. *)
Definition rename_session (session_id : string) (name_field : option string)
    (now : string) : M Response :=
  try
    (match name_field with
     | None => ret (Error "New name required", 400)
     | Some raw =>
         let new_name := PyStr.strip raw in
         if String.eqb new_name "" || (100 <? String.length new_name)%nat
         then ret (Error "Invalid name length", 400)
         else
           let* sessions_data := load_chat_sessions in
           match sessions sessions_data !! session_id with
           | None => ret (Error "Session not found", 404)
           | Some session =>
               let session :=
                 with_updated_at now (with_name new_name session) in
               save_chat_sessions
                 {| sessions :=
                      <[session_id := session]> (sessions sessions_data);
                    active_session := active_session sessions_data |};;
               ret (Session (Some "Session renamed successfully") session,
                    200)
           end
     end)
    (fun e => ret (Error ("Failed to rename session: " ++ e), 500)).

(** [delete_session] (lines 759-782) *)
Definition delete_session (session_id : string) : M Response :=
  try
    (let* sessions_data := load_chat_sessions in
     match sessions sessions_data !! session_id with
     | None => ret (Error "Session not found", 404)
     | Some session =>
         save_chat_sessions
           {| sessions := delete session_id (sessions sessions_data);
              active_session :=
                if same_session (active_session sessions_data)
                                (Some session_id)
                then None else active_session sessions_data |};;
         ret (Message_ ("Session '" ++ name session
                        ++ "' deleted successfully"), 200)
     end)
    (fun e => ret (Error ("Failed to delete session: " ++ e), 500)).

(** [clear_database] (lines 784-827), for a request whose body is a
    JSON object: [clear_history] is the truth value of its member
    ['clear_history'], [True] when it is missing.
    [clear_database_request] below takes every body and includes the
    lines 794 and 795, which read it. *)
Definition clear_database (clear_history : bool) (now : string)
  : M Response :=
  try
    (modify (set_vector_store None);;
     modify (set_qa_chain None);;
     modify (set_document_metadata ∅);;
     modify (set_all_documents []);;
     modify (set_uploads ∅);;
     save_session_state now;;
     if clear_history then
       save_chat_sessions no_sessions;;
       ret (Message_ "Database and chat history cleared successfully", 200)
     else
       ret (Message_ "Database cleared successfully. Chat history preserved.",
            200))
    (fun e => ret (Error ("Failed to clear database: " ++ e), 500)).

(** ** Restoring the registry and listing the sessions *)

(** [load_session_state] (lines 197-206): the object of [session.json],
    the empty object when the file is missing. *)
Definition load_session_state : M (option SessionFile) :=
  let* s := get in ret (session_file s).

(** The loop of [restore_session] (lines 231-246) over the items of the
    registry: the first name of [listing] that starts with the id is
    loaded, tagged and chunked; an id without a file contributes nothing.
    The items and [listing] come in the order in which the map and the
    folder enumerate them. *)
Fixpoint reload_documents (items : list (string * DocMeta))
    (listing : list string) : M (list Document) :=
  match items with
  | [] => ret []
  | (file_id, metadata) :: items =>
      let* chunks :=
        match List.find (starts_with file_id) listing with
        | Some stored =>
            let* documents := load_document ("uploads/" ++ stored) in
            let documents :=
              map (tag_document (filename metadata) file_id) documents in
            ret (chunk_documents documents)
        | None => ret []
        end in
      let* all_chunks := reload_documents items listing in
      ret (chunks ++ all_chunks)%list
  end.

(** [restore_session] (lines 208-259) *)
Definition restore_session : M bool :=
  try
    (let* session_data := load_session_state in
     match session_data with
     | None => ret false
     | Some session_data =>
         modify (set_document_metadata (sf_document_metadata session_data));;
         if bool_decide (sf_document_metadata session_data = ∅) then
           ret false
         else
           let* s := get in
           let* all_chunks :=
             reload_documents (map_to_list (document_metadata s))
                              (elements (uploads s)) in
           match all_chunks with
           | _ :: _ =>
               create_vector_store all_chunks "docuchat_multi" false None;;
               initialize_qa_chain;;
               ret true
           | [] => ret false
           end
     end)
    (fun _ => ret false).

(** An entry of the sidebar list. *)
Record SessionSummary := {
  summary_id : string;
  summary_name : string;
  summary_created_at : string;
  summary_updated_at : string;
  message_count : nat
}.

Definition summary (c : ChatSession) : SessionSummary :=
  {| summary_id := id c; summary_name := name c;
     summary_created_at := created_at c;
     summary_updated_at := updated_at c;
     message_count := List.length (messages c) |}.

(** [sessions_list.sort(key=lambda x: x['updated_at'], reverse=True)]:
    the stable sort, newest first; sessions with equal [updated_at] keep
    their order. *)
Fixpoint insert_newest_first (x : ChatSession) (l : list ChatSession)
  : list ChatSession :=
  match l with
  | [] => [x]
  | y :: r =>
      if String.ltb (updated_at x) (updated_at y)
      then y :: insert_newest_first x r
      else x :: l
  end.

Definition sort_newest_first (l : list ChatSession) : list ChatSession :=
  fold_right insert_newest_first [] l.

Inductive SessionsBody :=
| SessionList (sessions : list SessionSummary)
              (active_session : option string) (count : nat)
| SessionsError (error : string).

(** [get_chat_sessions] (lines 663-688).  The sessions are taken in the
    order in which the map enumerates them. *)
Definition get_chat_sessions : M (SessionsBody * nat) :=
  try
    (let* sessions_data := load_chat_sessions in
     let sessions_list :=
       map snd (map_to_list (sessions sessions_data)) in
     let sessions_list := sort_newest_first sessions_list in
     let sidebar_sessions := map summary sessions_list in
     ret (SessionList sidebar_sessions (active_session sessions_data)
                      (List.length sidebar_sessions), 200))
    (fun e => ret (SessionsError ("Failed to retrieve sessions: " ++ e), 500)).

(** ** The routes on the request *)

(** [chat] (lines 553-603) on the request.  [body] is what
    [request.get_json()] does: it raises, or returns a value.  The lines
    568 to 572 stand before the [try]. *)
Definition chat_request (body : exc (Json string)) : M Response :=
  let* s := get in
  match qa_chain s with
  | None =>
      ret (Error "No document uploaded yet. Please upload a document first.",
           400)
  | Some chain =>
      let* data := call body in
      let* missing := call (no_question data) in
      if missing then ret (Error "No question provided", 400)
      else
        let* question := call (question_of data) in
        try
          (let* result := call (invoke chain question) in
           let '(answer, source_docs) := result in
           let citations := imap citation_of source_docs in
           ret (Answer answer citations question, 200))
          (fun e => ret (Error ("Failed to process question: " ++ e), 500))
  end.

(** [clear_database] (lines 784-827) on the request: the body is read
    inside the [try], before anything is reset. *)
Definition clear_database_request (body : exc (Json bool)) (now : string)
  : M Response :=
  try
    (let* data := call body in
     let* clear_history := call (clear_history_of data) in
     modify (set_vector_store None);;
     modify (set_qa_chain None);;
     modify (set_document_metadata ∅);;
     modify (set_all_documents []);;
     modify (set_uploads ∅);;
     save_session_state now;;
     if clear_history then
       save_chat_sessions no_sessions;;
       ret (Message_ "Database and chat history cleared successfully", 200)
     else
       ret (Message_ "Database cleared successfully. Chat history preserved.",
            200))
    (fun e => ret (Error ("Failed to clear database: " ++ e), 500)).

(** [upload_document] (lines 452-527) on the request.  Its first line
    reads [request.files], which parses the form and raises 413 Request
    Entity Too Large when the request announces a body of more than
    [MAX_CONTENT_LENGTH] bytes; this stands before the [try].
    [content_length] is the Content-Length of the request, [request]
    the form that it carries; the form of a request within the limit is
    taken to parse. *)
Definition upload_document_request (content_length : N)
    (request : UploadRequest) (file_id now : string) : M Response :=
  if (MAX_CONTENT_LENGTH <? content_length)%N then
    raise ("413 Request Entity Too Large: "
           ++ "The data value transmitted exceeds the capacity limit.")
  else upload_document request file_id now.

(** ** The routes

    A request to one of the routes, with the fresh identifiers and the
    clock readings it consumes, and the state it leaves.  The routes
    [/health] and [/documents] only read and are left out. *)
Inductive Request :=
| Upload (request : UploadRequest) (file_id now : string)
| Chat (question : option string)
| RemoveDocument (file_id now : string)
| ListSessions
| GetSession (session_id : string)
| NewSession (session_id t_created t_updated : string)
| RenameSession (session_id : string) (name_field : option string)
                (now : string)
| DeleteSession (session_id : string)
| Clear (clear_history : bool) (now : string)
| Restore.

Definition handle (r : Request) (s : State) : State :=
  match r with
  | Upload request file_id now => snd (upload_document request file_id now s)
  | Chat question => snd (chat question s)
  | RemoveDocument file_id now => snd (remove_document file_id now s)
  | ListSessions => snd (get_chat_sessions s)
  | GetSession session_id => snd (get_session session_id s)
  | NewSession session_id t_created t_updated =>
      snd (new_session session_id t_created t_updated s)
  | RenameSession session_id name_field now =>
      snd (rename_session session_id name_field now s)
  | DeleteSession session_id => snd (delete_session session_id s)
  | Clear clear_history now => snd (clear_database clear_history now s)
  | Restore => snd (restore_session s)
  end.

(** The state after a sequence of requests, the first one first. *)
Definition handle_all (rs : list Request) (s : State) : State :=
  fold_left (fun s r => handle r s) rs s.

End Application.

Arguments State : clear implicits.
Arguments State {B}.

(** The vector index slot of the specification: index handle, chunks and
    bound session id. *)
Definition slot `{B : Backend} (s : State)
  : option Store * list Document * option string :=
  (vector_store s, all_documents s, active_session_id s).

(** ** What the specification says, for comparison *)

Module Spec.

(** Session store, [create_session]: the name of the new session, for [n]
    sessions in the store. *)
Definition session_name (first_question : option string) (n : nat) : string :=
  match first_question with
  | Some q =>
      if (50 <? String.length q)%nat then PyStr.prefix 47 q ++ "..." else q
  | None => "New Chat " ++ pretty (n + 1)
  end.

(** Vector index slot, [clear]: drops the index handle and the chunks and
    sets the bound session id to null. *)
Definition cleared_slot `{B : Backend}
  : option Store * list Document * option string :=
  (None, [], None).

(** Citation formatting: a sentence boundary is one of [.], [!], [?]
    followed by whitespace. *)
Definition ends_sentence (c : ascii) : Prop :=
  c = "."%char \/ c = "!"%char \/ c = "?"%char.

(** Whitespace only. *)
Fixpoint blank (w : string) : Prop :=
  match w with
  | String c r => PyStr.is_space c = true /\ blank r
  | EmptyString => True
  end.

(** Nowhere in [t] is one of [.], [!], [?] followed by whitespace. *)
Fixpoint unbroken (t : string) : Prop :=
  match t with
  | String c r =>
      match r with
      | String d _ => ends_sentence c -> PyStr.is_space d = false
      | EmptyString => True
      end
      /\ unbroken r
  | EmptyString => True
  end.

(** [sentences t l]: [l] lists the sentences of [t].  A text without
    boundary is one sentence.  Otherwise the first sentence [p ++ c] runs
    up to the first [c] of [.], [!], [?] that is followed by whitespace,
    all the whitespace [w] that follows is the separator, and the
    sentences of the text [rest] after it come next. *)
Inductive sentences : string -> list string -> Prop :=
| sentences_last (t : string) :
    unbroken t -> sentences t [t]
| sentences_next (p : string) (c : ascii) (w rest : string)
    (l : list string) :
    unbroken (p ++ String c "") ->
    ends_sentence c ->
    w <> "" ->
    blank w ->
    (forall d r, rest = String d r -> PyStr.is_space d = false) ->
    sentences rest l ->
    sentences (p ++ String c (w ++ rest)) ((p ++ String c "") :: l).

End Spec.

(** ** Concrete backends

    [Sim.make] keeps an index as the list of its documents.  [building]
    says for which collection names an index can be built, [adding] and
    [opening] whether an index can be extended and opened; what cannot be
    done raises.  [Sim.backend up] is the backend whose embedding service
    is reachable ([up = true]) or not; [Sim.corrupt] cannot build the
    collection "docuchat". *)

Module Sim.

Definition refused {A} : exc A := Exc "connection refused".

Definition one_page (path : string) : list Document :=
  [ {| page_content := "Refunds are made within 30 days. Keep the receipt.";
       source := Some path; file_id := None; page := Some 0 |} ].

Definition make (building : string -> bool) (adding opening : bool)
  : Backend :=
  {| Store := list Document;
     Chain := list Document;
     Chroma_from_documents := fun docs collection =>
       if building collection then Val docs else refused;
     add_documents := fun store docs =>
       if adding then Val (store ++ docs)%list else refused;
     Chroma := fun _ => if opening then Val [] else refused;
     RetrievalQA_from_chain_type := fun store => Val store;
     invoke := fun chain _ => Val ("See the cited passages.", firstn 4 chain);
     PyPDFLoader_load := fun path => Val (one_page path);
     UnstructuredWordDocumentLoader_load := fun path => Val (one_page path);
     docx_paragraphs := fun _ => Val [];
     split_documents := fun _ _ docs => docs;
     secure_filename := fun f => f |}.

Definition backend (up : bool) : Backend := make (fun _ => up) up up.

Definition corrupt : Backend :=
  make (fun collection => negb (String.eqb collection "docuchat")) true true.

(** A freshly started process with empty folders. *)
Definition fresh (up : bool) : @State (backend up) :=
  {| vector_store := None; qa_chain := None; document_metadata := ∅;
     all_documents := []; active_session_id := None;
     history_file := NoFile; session_file := None; uploads := ∅ |}.

Definition chunk (text doc : string) : Document :=
  {| page_content := text; source := Some "a.pdf"; file_id := Some doc;
     page := Some 0 |}.

(** A process that has indexed document [d1] in ungrouped mode. *)
Definition indexed_in (building : string -> bool) (adding opening : bool)
  : @State (make building adding opening) :=
  {| vector_store :=
       Some ([chunk "Refunds are made within 30 days." "d1"]
             : @Store (make building adding opening));
     qa_chain :=
       Some ([chunk "Refunds are made within 30 days." "d1"]
             : @Chain (make building adding opening));
     document_metadata :=
       {[ "d1" := {| filename := "a.pdf"; chunks := 1; pages := 1 |} ]};
     all_documents := [chunk "Refunds are made within 30 days." "d1"];
     active_session_id := None;
     history_file := NoFile; session_file := None;
     uploads := {[ "d1_a.pdf" ]} |}.

Definition indexed (up : bool) : @State (backend up) :=
  indexed_in (fun _ => up) up up.

(** ... and then, the collection "docuchat" being corrupt, failed to
    replace it by document [d2]. *)
Definition upload_failed : @State corrupt :=
  snd (upload_document
         {| upload_file := Some "b.pdf"; add_to_existing_field := None |}
         "d2" "t2"
         (indexed_in (fun collection => negb (String.eqb collection "docuchat"))
                     true true)).

Definition upload_a : UploadRequest :=
  {| upload_file := Some "a.pdf"; add_to_existing_field := None |}.

Definition upload_b : UploadRequest :=
  {| upload_file := Some "b.pdf"; add_to_existing_field := Some "true" |}.

(** The state after two requests to a fresh process: upload [a.pdf],
    create a session. *)
Definition session_created : @State (backend true) :=
  let s1 := snd (upload_document upload_a "d1" "t1" (fresh true)) in
  snd (new_session "s1" "t2" "t2" s1).

(** ... and after a third request that opens that session. *)
Definition session_opened : @State (backend true) :=
  snd (get_session "s1" session_created).

(** The state after two uploads to a fresh process, the second one added
    to the first. *)
Definition two_documents : @State (backend true) :=
  let s1 := snd (upload_document upload_a "d1" "t1" (fresh true)) in
  snd (upload_document upload_b "d2" "t2" s1).

End Sim.

(** ** Auxiliary definitions *)

(** The backstop of [format_citation_text]: [r] cut to 297 characters
    and an ellipsis when it is longer than 300. *)
Definition capped (r : string) : string :=
  if (300 <? String.length r)%nat then PyStr.prefix 297 r ++ "..." else r.

(** The look-behind of [split_from] once it has read [pre]: whether the
    last character read is one of [.!?]. *)
Fixpoint ends_with_end (pre : string) : bool :=
  match pre with
  | EmptyString => false
  | String c EmptyString => is_sentence_end c
  | String _ r => ends_with_end r
  end.

(** A text of [n] letters without a sentence boundary. *)
Fixpoint letters (n : nat) : string :=
  match n with
  | O => ""
  | S k => String "a" (letters k)
  end.

(** The name that [create_new_session] gives: the question with its
    surrounding whitespace removed, cut by the 50-character rule. *)
Definition new_session_name (first_question : option string) (n : nat)
  : string :=
  match first_question with
  | Some (String c q) =>
      let t := PyStr.strip (String c q) in
      if (50 <? String.length t)%nat then PyStr.prefix 47 t ++ "..." else t
  | _ => "New Chat " ++ pretty (n + 1)
  end.

(** The two branches of [create_vector_store], as state transformers. *)
Definition extended `{B : Backend} (store : Store)
    (chunks : list Document) (s : State) : exc Store * State :=
  let s := set_all_documents (all_documents s ++ chunks) s in
  match add_documents store chunks with
  | Val store => (Val store, set_vector_store (Some store) s)
  | Exc e => (Exc e, s)
  end.

Definition rebuilt `{B : Backend} (chunks : list Document)
    (collection : string) (session_id : option string) (s : State)
  : exc Store * State :=
  let s := set_active_session_id session_id (set_all_documents chunks s) in
  match Chroma_from_documents chunks collection with
  | Val store => (Val store, set_vector_store (Some store) s)
  | Exc e => (Exc e, s)
  end.

Ltac run :=
  cbv [bind ret try get modify call raise
       load_chat_sessions save_chat_sessions docs_snapshot
       save_session_state].

(** A process that has just started: no index, no chain, an empty
    registry, and whatever the disk holds. *)
Definition started `{B : Backend} (history : HistoryFile)
    (saved : option SessionFile) (files : gset string) : State :=
  {| vector_store := None; qa_chain := None; document_metadata := ∅;
     all_documents := []; active_session_id := None;
     history_file := history; session_file := saved; uploads := files |}.

(** A QA chain exists only together with an index. *)
Definition chain_has_store `{B : Backend} (s : State) : Prop :=
  is_Some (qa_chain s) -> is_Some (vector_store s).

(** Every session is stored under its own id, and the active session, if
    any, is a stored one. *)
Definition sessions_well_formed (d : SessionsData) : Prop :=
  (forall k c, sessions d !! k = Some c -> id c = k)
  /\ (forall k, active_session d = Some k -> is_Some (sessions d !! k)).

(** The splitter copies the [file_id] of the document it splits. *)
Definition splitter_keeps_file_id `{B : Backend} : Prop :=
  forall size overlap documents chunk,
    In chunk (split_documents size overlap documents) ->
    exists document, In document documents /\ file_id chunk = file_id document.

(** A string that is empty or starts with a character that is no
    whitespace. *)
Definition no_space_ahead (s : string) : Prop :=
  match s with
  | String c _ => PyStr.is_space c = false
  | EmptyString => True
  end.

(** ** More concrete backends *)

Module Sim2.

(** [Sim.chainless]: indexes can be built and opened, but no QA chain can
    be made (the language model is unreachable). *)
Definition chainless : Backend :=
  {| Store := list Document;
     Chain := list Document;
     Chroma_from_documents := fun docs _ => Val docs;
     add_documents := fun store docs => Val (store ++ docs)%list;
     Chroma := fun _ => Val [];
     RetrievalQA_from_chain_type := fun _ => Exc "connection refused";
     invoke := fun chain _ => Val ("See the cited passages.", firstn 4 chain);
     PyPDFLoader_load := fun path => Exc "file not found";
     UnstructuredWordDocumentLoader_load := fun path =>
       Exc "unstructured is not installed";
     docx_paragraphs := fun _ =>
       Val ["Refunds are made within 30 days."; "   "; "Keep the receipt."];
     split_documents := fun _ _ docs => docs;
     secure_filename := fun f => f |}.

(** A process on [chainless] that still holds the index and chain of
    document [d1]. *)
Definition chainless_indexed : @State chainless :=
  {| vector_store :=
       Some ([ {| page_content := "Refunds are made within 30 days.";
                  source := Some "a.pdf"; file_id := Some "d1";
                  page := Some 0 |} ] : @Store chainless);
     qa_chain :=
       Some ([ {| page_content := "Refunds are made within 30 days.";
                  source := Some "a.pdf"; file_id := Some "d1";
                  page := Some 0 |} ] : @Chain chainless);
     document_metadata :=
       {[ "d1" := {| filename := "a.pdf"; chunks := 1; pages := 1 |} ]};
     all_documents :=
       [ {| page_content := "Refunds are made within 30 days.";
            source := Some "a.pdf"; file_id := Some "d1"; page := Some 0 |} ];
     active_session_id := None;
     history_file := NoFile; session_file := None;
     uploads := {[ "d1_a.pdf" ]} |}.

(** [Sim2.persisted disk]: a backend over the persist directory [disk],
    the collections kept there, by name.  [Chroma(name)] opens the
    collection of that name and creates it, empty, when the directory
    has none, as chromadb does. *)
Definition persisted (disk : gmap string (list Document)) : Backend :=
  {| Store := list Document;
     Chain := list Document;
     Chroma_from_documents := fun docs _ => Val docs;
     add_documents := fun store docs => Val (store ++ docs)%list;
     Chroma := fun collection => Val (default [] (disk !! collection));
     RetrievalQA_from_chain_type := fun store => Val store;
     invoke := fun chain _ => Val ("See the cited passages.", firstn 4 chain);
     PyPDFLoader_load := fun path => Val (Sim.one_page path);
     UnstructuredWordDocumentLoader_load := fun path =>
       Val (Sim.one_page path);
     docx_paragraphs := fun _ => Val [];
     split_documents := fun _ _ docs => docs;
     secure_filename := fun f => f |}.

End Sim2.

(** What [upload_document] reads from the form field [add_to_existing]. *)
Definition wants_add (request : UploadRequest) : bool :=
  String.eqb
    (PyStr.lower_str (default "false" (add_to_existing_field request)))
    "true".

(** The name under which [upload_document] saves a file in uploads/. *)
Definition stored_name `{B : Backend} (file_id file_name : string) : string :=
  file_id ++ "_" ++ secure_filename file_name.

(** The chunks [upload_document] makes of the pages it loaded. *)
Definition upload_chunks `{B : Backend} (file_id file_name : string)
    (pages : list Document) : list Document :=
  chunk_documents
    (map (tag_document (secure_filename file_name) file_id) pages).

(** The registry record [upload_document] writes. *)
Definition upload_record `{B : Backend} (file_id file_name : string)
    (pages : list Document) : DocMeta :=
  {| filename := secure_filename file_name;
     chunks := List.length (upload_chunks file_id file_name pages);
     pages := List.length pages |}.

(** The checks [upload_document] makes before it touches anything: a file
    part with a non-empty name of an allowed type. *)
Definition acceptable (request : UploadRequest) : bool :=
  match upload_file request with
  | Some (String c f) => allowed_file (String c f)
  | _ => false
  end.

(** What [load_document] makes of a Word file: the pages of the
    unstructured loader or, when that loader fails, one page with the
    non-blank paragraphs separated by blank lines. *)
Definition word_pages `{B : Backend} (path : string)
  : exc (list Document) :=
  match UnstructuredWordDocumentLoader_load path with
  | Val pages => Val pages
  | Exc _ =>
      match docx_paragraphs path with
      | Val paragraphs =>
          Val [ {| page_content :=
                     PyStr.join (String "010" (String "010" EmptyString))
                                (List.filter nonblank paragraphs);
                   source := Some path; file_id := None; page := None |} ]
      | Exc e => Exc e
      end
  end.

(** In a list sorted newest first, [a] may stand before [b]. *)
Definition not_older (a b : SessionSummary) : Prop :=
  String.le (summary_updated_at b) (summary_updated_at a).

(** The requests on which [chat] raises when a QA chain is in place,
    by what [request.get_json()] does: it raises, or returns [True], a
    number other than [0], a string with the substring ['question'] or a
    list with the item ['question']. *)
Definition chat_raises (body : exc (Json string)) : bool :=
  match body with
  | Exc _ => true
  | Val (JBool b) => b
  | Val (JNumber n) => negb (n =? 0)%Z
  | Val (JString s) => str_contains "question" s
  | Val (JArray items) => existsb (is_string "question") items
  | Val _ => false
  end.

(** The requests that [clear_database] can read: [request.get_json()]
    returns an object, or what is falsy. *)
Definition clear_readable (body : exc (Json bool)) : bool :=
  match body with
  | Val JNull | Val (JBool false) | Val (JString "") | Val (JArray [])
  | Val (JObject _) => true
  | Val (JNumber n) => (n =? 0)%Z
  | _ => false
  end.

(** What such a request says of the chat history: the truth value of
    ['clear_history'], [True] when it is missing. *)
Definition clear_flag (body : exc (Json bool)) : bool :=
  match body with
  | Val (JObject (Some b)) => b
  | _ => true
  end.

(** * Properties *)

(** ** Strings *)

Lemma append_cons (x : ascii) (a b : string) :
  String x a ++ b = String x (a ++ b).
Proof. reflexivity. Qed.

Lemma append_nil (b : string) : "" ++ b = b.
Proof. reflexivity. Qed.

Lemma length_append (a b : string) :
  String.length (a ++ b) = (String.length a + String.length b)%nat.
Proof.
  induction a as [|c a IH]; [reflexivity|].
  rewrite append_cons. simpl. now rewrite IH.
Qed.

Lemma append_assoc (a b c : string) : (a ++ b) ++ c = a ++ b ++ c.
Proof.
  induction a as [|x a IH]; [reflexivity|].
  rewrite !append_cons. now rewrite IH.
Qed.

Lemma append_empty_r (a : string) : a ++ "" = a.
Proof.
  induction a as [|x a IH]; [reflexivity|].
  rewrite append_cons. now rewrite IH.
Qed.

Lemma length_prefix (n : nat) (s : string) :
  String.length (PyStr.prefix n s) = Nat.min n (String.length s).
Proof.
  revert s; induction n as [|n IH]; intros [|c s]; simpl; auto.
Qed.

Lemma prefix_all (n : nat) (s : string) :
  (String.length s <= n)%nat -> PyStr.prefix n s = s.
Proof.
  revert s; induction n as [|n IH]; intros [|c s]; simpl; auto; try lia.
  intros H. f_equal. apply IH. lia.
Qed.

Lemma length_capped (r : string) : (String.length (capped r) <= 300)%nat.
Proof.
  unfold capped. destruct (Nat.ltb_spec 300 (String.length r)) as [H|H].
  - rewrite length_append, length_prefix.
    change (String.length "...") with 3%nat. lia.
  - exact H.
Qed.

Lemma format_citation_text_unfold (text : string) (n : nat) :
  format_citation_text text n =
  let sentences := split_sentences (PyStr.strip text) in
  capped (PyStr.join " " (firstn n sentences)
          ++ (if (n <? List.length sentences)%nat then "..." else "")).
Proof.
  unfold format_citation_text, capped. cbv zeta.
  destruct (n <? List.length _)%nat; [reflexivity|].
  now rewrite append_empty_r.
Qed.

(** The name rule of [generate_chat_name]: never more than 50
    characters. *)
Lemma generate_chat_name_length (q : string) :
  (String.length (generate_chat_name q) <= 50)%nat.
Proof.
  unfold generate_chat_name. cbv zeta.
  destruct (Nat.ltb_spec 50 (String.length (PyStr.strip q))) as [H|H].
  - rewrite length_append, length_prefix.
    change (String.length "...") with 3%nat. lia.
  - exact H.
Qed.

Lemma generate_chat_name_short (q : string) :
  (String.length (PyStr.strip q) <= 50)%nat ->
  generate_chat_name q = PyStr.strip q.
Proof.
  intros H. unfold generate_chat_name. cbv zeta.
  destruct (Nat.ltb_spec 50 (String.length (PyStr.strip q))); [lia | easy].
Qed.

Lemma generate_chat_name_long (q : string) :
  (50 < String.length (PyStr.strip q))%nat ->
  generate_chat_name q = PyStr.prefix 47 (PyStr.strip q) ++ "...".
Proof.
  intros H. unfold generate_chat_name. cbv zeta.
  destruct (Nat.ltb_spec 50 (String.length (PyStr.strip q))); [easy | lia].
Qed.

(** ** Sentences *)

Lemma is_sentence_end_spec (c : ascii) :
  is_sentence_end c = true <-> Spec.ends_sentence c.
Proof.
  unfold is_sentence_end, Spec.ends_sentence.
  rewrite !orb_true_iff, !Ascii.eqb_eq. tauto.
Qed.

Lemma ends_with_end_snoc (pre : string) (c : ascii) :
  ends_with_end (pre ++ String c "") = is_sentence_end c.
Proof.
  induction pre as [|x pre IH]; [reflexivity|].
  rewrite append_cons. cbn [ends_with_end]. rewrite IH.
  destruct pre; reflexivity.
Qed.

Lemma ends_with_end_inv (pre : string) :
  ends_with_end pre = true ->
  exists q e, pre = q ++ String e "" /\ Spec.ends_sentence e.
Proof.
  induction pre as [|x pre IH]; [discriminate|].
  destruct pre as [|y pre].
  - intros H. exists "", x. split; [reflexivity|].
    now apply is_sentence_end_spec.
  - intros H. destruct (IH H) as (q & e & -> & He).
    exists (String x q), e. now split.
Qed.

Lemma unbroken_snoc (pre : string) (c : ascii) :
  Spec.unbroken pre ->
  (ends_with_end pre = true -> PyStr.is_space c = false) ->
  Spec.unbroken (pre ++ String c "").
Proof.
  induction pre as [|x pre IH]; [now split|].
  intros [H1 H2] Hc. rewrite append_cons.
  destruct pre as [|y pre].
  - split; [|now split]. intros He. apply Hc.
    now apply is_sentence_end_spec.
  - split; [exact H1|]. now apply IH.
Qed.

Lemma unbroken_middle (pre : string) (c : ascii) (r : string) :
  Spec.unbroken (pre ++ String c r) ->
  ends_with_end pre = true -> PyStr.is_space c = false.
Proof.
  induction pre as [|x pre IH]; [discriminate|].
  rewrite append_cons. intros [H1 H2].
  destruct pre as [|y pre].
  - intros He. apply H1. now apply is_sentence_end_spec.
  - now apply IH.
Qed.

Lemma append_snoc (pre : string) (c : ascii) (r : string) :
  (pre ++ String c "") ++ r = pre ++ String c r.
Proof. now rewrite append_assoc. Qed.

(** [split_from] follows the boundary rule: reading a sentence after
    [pre], and inside a separator. *)
Lemma split_from_sound (s : string) :
  (forall pre p ps,
     Spec.unbroken pre ->
     split_from (ends_with_end pre) false s = (p, ps) ->
     Spec.sentences (pre ++ s) ((pre ++ p) :: ps))
  /\ (forall p ps,
        split_from false true s = (p, ps) ->
        exists w rest,
          s = w ++ rest /\ Spec.blank w
          /\ (forall d r, rest = String d r -> PyStr.is_space d = false)
          /\ Spec.sentences rest (p :: ps)).
Proof.
  induction s as [|c s [IH1 IH2]].
  - split.
    + intros pre p ps Hu [= <- <-]. rewrite append_empty_r.
      now apply Spec.sentences_last.
    + intros p ps [= <- <-]. exists "", "". repeat split; [discriminate|].
      now apply Spec.sentences_last.
  - split.
    + intros pre p ps Hu. cbn [split_from]. rewrite andb_false_r.
      destruct (PyStr.is_space c && ends_with_end pre) eqn:E.
      * apply andb_true_iff in E as [Ec Ee].
        destruct (split_from false true s) as [p' ps'] eqn:E'.
        intros [= <- <-].
        destruct (IH2 _ _ eq_refl) as (w & rest & -> & Hw & Hr & Hs).
        destruct (ends_with_end_inv pre Ee) as (q & e & -> & He).
        rewrite append_empty_r, append_snoc.
        apply (Spec.sentences_next q e (String c w) rest);
          [exact Hu | exact He | discriminate | now split | exact Hr
          | exact Hs].
      * destruct (split_from (is_sentence_end c) false s) as [p' ps'] eqn:E'.
        intros [= <- <-].
        rewrite <- ends_with_end_snoc with (pre := pre) in E'.
        apply IH1 in E'.
        -- now rewrite !append_snoc in E'.
        -- apply unbroken_snoc; [exact Hu|]. intros Ee.
           rewrite Ee, andb_true_r in E. exact E.
    + intros p ps. cbn [split_from]. rewrite andb_true_r, andb_false_r.
      destruct (PyStr.is_space c) eqn:Ec.
      * intros E. destruct (IH2 _ _ E) as (w & rest & -> & Hw & Hr & Hs).
        exists (String c w), rest. now repeat split.
      * destruct (split_from (is_sentence_end c) false s) as [p' ps'] eqn:E'.
        intros [= <- <-].
        change (is_sentence_end c) with (ends_with_end (String c "")) in E'.
        apply IH1 in E'; [|now split].
        exists "", (String c s). repeat split; [|exact E'].
        now intros d r [= <- <-].
Qed.

Lemma split_sentences_sound (t : string) :
  Spec.sentences t (split_sentences t).
Proof.
  unfold split_sentences.
  destruct (split_from false false t) as [p ps] eqn:E.
  now apply (proj1 (split_from_sound t) "" p ps I).
Qed.

Lemma split_from_piece (q pre s : string) :
  Spec.unbroken (pre ++ q) ->
  split_from (ends_with_end pre) false (q ++ s)
  = let '(x, xs) := split_from (ends_with_end (pre ++ q)) false s in
    (q ++ x, xs).
Proof.
  revert pre. induction q as [|c q IH]; intros pre Hu.
  - rewrite append_empty_r, append_nil.
    destruct (split_from (ends_with_end pre) false s) as [x xs].
    now rewrite append_nil.
  - rewrite append_cons. cbn [split_from]. rewrite andb_false_r.
    assert (E : PyStr.is_space c && ends_with_end pre = false).
    { destruct (ends_with_end pre) eqn:Ee; [|apply andb_false_r].
      now rewrite (unbroken_middle pre c q Hu Ee). }
    rewrite E. rewrite <- (append_snoc pre c q) in Hu |- *.
    rewrite <- (ends_with_end_snoc pre c). rewrite (IH _ Hu).
    now destruct (split_from _ false s).
Qed.

Lemma split_from_blank (w rest : string) :
  Spec.blank w ->
  split_from false true (w ++ rest) = split_from false true rest.
Proof.
  induction w as [|c w IH]; [reflexivity|].
  intros [Hc Hw]. rewrite append_cons. cbn [split_from].
  rewrite Hc. cbn [andb]. now apply IH.
Qed.

Lemma split_from_restart (rest : string) :
  (forall d r, rest = String d r -> PyStr.is_space d = false) ->
  split_from false true rest = split_from false false rest.
Proof.
  destruct rest as [|d r]; [reflexivity|].
  intros H. cbn [split_from]. now rewrite (H d r eq_refl).
Qed.

Lemma split_sentences_complete (t : string) (l : list string) :
  Spec.sentences t l -> l = split_sentences t.
Proof.
  induction 1 as [t Hu | p c w rest l Hu He Hn Hw Hr _ IH].
  - unfold split_sentences.
    pose proof (split_from_piece t "" "" Hu) as E.
    rewrite append_empty_r in E. cbn [ends_with_end] in E.
    rewrite E. cbn. now rewrite append_empty_r.
  - unfold split_sentences in *.
    rewrite <- (append_snoc p c (w ++ rest)).
    pose proof (split_from_piece (p ++ String c "") "" (w ++ rest) Hu) as E.
    cbn [ends_with_end] in E. rewrite E. clear E.
    change ("" ++ (p ++ String c "")) with (p ++ String c "").
    rewrite ends_with_end_snoc.
    apply is_sentence_end_spec in He. rewrite He.
    destruct w as [|d w]; [contradiction|]. destruct Hw as [Hd Hw].
    rewrite append_cons. cbn [split_from]. rewrite Hd. cbn [andb].
    rewrite (split_from_blank w rest Hw), (split_from_restart rest Hr).
    destruct (split_from false false rest) as [p' ps'].
    rewrite append_empty_r. now rewrite IH.
Qed.

(** What [format_citation_text] returns, by the number of sentences
    and the length of the kept ones. *)
Lemma format_citation_text_cases (text : string) :
  let sentences := split_sentences (PyStr.strip text) in
  let kept := PyStr.join " " (firstn 3 sentences) in
  (String.length (format_citation_text text 3) <= 300)%nat
  /\ ((List.length sentences <= 3)%nat ->
      (String.length kept <= 300)%nat ->
      format_citation_text text 3 = PyStr.join " " sentences)
  /\ ((3 < List.length sentences)%nat ->
      (String.length kept <= 297)%nat ->
      format_citation_text text 3 = kept ++ "...")
  /\ ((3 < List.length sentences)%nat ->
      (297 < String.length kept)%nat ->
      format_citation_text text 3 = PyStr.prefix 297 kept ++ "...")
  /\ ((List.length sentences <= 3)%nat ->
      (300 < String.length kept)%nat ->
      format_citation_text text 3 = PyStr.prefix 297 kept ++ "...")
  /\ (forall a b c d e,
        sentences = [a; b; c; d; e] ->
        (String.length (a ++ " " ++ b ++ " " ++ c) <= 297)%nat ->
        format_citation_text text 3 = a ++ " " ++ b ++ " " ++ c ++ "...")
  /\ (sentences = [PyStr.strip text] ->
      String.length (PyStr.strip text) = 400%nat ->
      format_citation_text text 3 = PyStr.prefix 297 (PyStr.strip text) ++ "..."
      /\ String.length (format_citation_text text 3) = 300%nat).
Proof.
  intros sentences kept.
  assert (E : format_citation_text text 3 =
              capped (kept ++ (if (3 <? List.length sentences)%nat
                               then "..." else "")))
    by apply format_citation_text_unfold.
  assert (Hfew : (List.length sentences <= 3)%nat ->
                 format_citation_text text 3 = capped kept
                 /\ kept = PyStr.join " " sentences).
  { intros H. rewrite E.
    destruct (Nat.ltb_spec 3 (List.length sentences)); [lia|].
    rewrite append_empty_r. split; [reflexivity|].
    unfold kept. now rewrite firstn_all2. }
  assert (Hmany : (3 < List.length sentences)%nat ->
                  format_citation_text text 3 = capped (kept ++ "...")).
  { intros H. rewrite E.
    now destruct (Nat.ltb_spec 3 (List.length sentences)); [|lia]. }
  assert (Hcut : forall r, (297 < String.length r)%nat ->
                 PyStr.prefix 297 (r ++ "...") = PyStr.prefix 297 r).
  { intros r. generalize 297%nat. induction r as [|x r IH]; simpl; [lia|].
    intros [|n] H; [reflexivity|]. rewrite append_cons. simpl.
    f_equal. destruct n as [|n]; [now destruct (r ++ "...")|].
    apply IH. lia. }
  split; [rewrite E; apply length_capped|].
  split.
  { intros H L. destruct (Hfew H) as [-> <-]. unfold capped.
    now destruct (Nat.ltb_spec 300 (String.length kept)); [lia|]. }
  split.
  { intros H L. rewrite (Hmany H). unfold capped.
    rewrite length_append. change (String.length "...") with 3%nat.
    now destruct (Nat.ltb_spec 300 (String.length kept + 3)); [lia|]. }
  split.
  { intros H L. rewrite (Hmany H). unfold capped.
    rewrite length_append. change (String.length "...") with 3%nat.
    destruct (Nat.ltb_spec 300 (String.length kept + 3)); [|lia].
    now rewrite Hcut. }
  split.
  { intros H L. destruct (Hfew H) as [-> _]. unfold capped.
    now destruct (Nat.ltb_spec 300 (String.length kept)); [|lia]. }
  split.
  { intros a b c d e Hs L.
    assert (K : kept = a ++ " " ++ b ++ " " ++ c)
      by (unfold kept; rewrite Hs; reflexivity).
    rewrite Hmany by (rewrite Hs; simpl; lia).
    rewrite K. unfold capped. rewrite length_append.
    change (String.length "...") with 3%nat.
    destruct (Nat.ltb_spec 300
                (String.length (a ++ " " ++ b ++ " " ++ c) + 3)); [lia|].
    now rewrite !append_assoc. }
  intros Hs L.
  assert (K : kept = PyStr.strip text)
    by (unfold kept; rewrite Hs; reflexivity).
  destruct Hfew as [F _]; [rewrite Hs; simpl; lia|].
  rewrite F, K. unfold capped. rewrite L.
  change (300 <? 400)%nat with true. cbv iota.
  split; [reflexivity|].
  rewrite length_append, length_prefix, L. reflexivity.
Qed.

(** C4.  The sentences of the stripped text are its pieces between
    sentence boundaries, a boundary being the whitespace that follows one
    of [.], [!], [?]; every text has such a list.  The citation text is at
    most 300 characters long.  With at most 3 sentences and no more than
    300 characters the sentences come back joined by single spaces; with
    more than 3 sentences the first 3 are kept and an ellipsis is
    appended; a result longer than 300 characters is then cut to its first
    297 characters and an ellipsis.  So 5 sentences whose first 3, joined,
    take at most 297 characters give the first 3 and an ellipsis, and a
    single sentence of 400 characters gives its first 297 characters and
    an ellipsis. *)
Theorem format_citation_text_spec (text : string) :
  (exists sentences, Spec.sentences (PyStr.strip text) sentences)
  /\ forall sentences,
       Spec.sentences (PyStr.strip text) sentences ->
       let kept := PyStr.join " " (firstn 3 sentences) in
       (String.length (format_citation_text text 3) <= 300)%nat
       /\ ((List.length sentences <= 3)%nat ->
           (String.length kept <= 300)%nat ->
           format_citation_text text 3 = PyStr.join " " sentences)
       /\ ((3 < List.length sentences)%nat ->
           (String.length kept <= 297)%nat ->
           format_citation_text text 3 = kept ++ "...")
       /\ ((3 < List.length sentences)%nat ->
           (297 < String.length kept)%nat ->
           format_citation_text text 3 = PyStr.prefix 297 kept ++ "...")
       /\ ((List.length sentences <= 3)%nat ->
           (300 < String.length kept)%nat ->
           format_citation_text text 3 = PyStr.prefix 297 kept ++ "...")
       /\ (forall a b c d e,
             sentences = [a; b; c; d; e] ->
             (String.length (a ++ " " ++ b ++ " " ++ c) <= 297)%nat ->
             format_citation_text text 3
             = a ++ " " ++ b ++ " " ++ c ++ "...")
       /\ (sentences = [PyStr.strip text] ->
           String.length (PyStr.strip text) = 400%nat ->
           format_citation_text text 3
           = PyStr.prefix 297 (PyStr.strip text) ++ "..."
           /\ String.length (format_citation_text text 3) = 300%nat).
Proof.
  split; [eexists; apply split_sentences_sound|].
  intros sentences Hs kept.
  apply split_sentences_complete in Hs.
  destruct (format_citation_text_cases text)
    as (H1 & H2 & H3 & H4 & H5 & _).
  cbv zeta in H2, H3, H4, H5. rewrite <- Hs in H2, H3, H4, H5.
  fold kept in H2, H3, H4, H5.
  repeat (split; [assumption|]). split.
  - intros a b c d e E L.
    assert (K : kept = a ++ " " ++ b ++ " " ++ c)
      by (unfold kept; rewrite E; reflexivity).
    rewrite H3; [| rewrite E; simpl; lia | now rewrite K].
    rewrite K. now rewrite !append_assoc.
  - intros E L.
    assert (K : kept = PyStr.strip text)
      by (unfold kept; rewrite E; reflexivity).
    rewrite H5; [| rewrite E; simpl; lia | rewrite K, L; lia].
    rewrite K. split; [reflexivity|].
    rewrite length_append, length_prefix, L. reflexivity.
Qed.

Lemma format_citation_text_spec_witness :
  Spec.sentences (PyStr.strip "One. Two!  Three? Four. Five.")
    ["One."; "Two!"; "Three?"; "Four."; "Five."]
  /\ format_citation_text "One. Two!  Three? Four. Five." 3
     = "One. Two! Three?..."
  /\ Spec.sentences (PyStr.strip (letters 400)) [letters 400]
  /\ format_citation_text (letters 400) 3
     = PyStr.prefix 297 (letters 400) ++ "...".
Proof.
  assert (S5 : Spec.sentences (PyStr.strip "One. Two!  Three? Four. Five.")
                 ["One."; "Two!"; "Three?"; "Four."; "Five."])
    by apply (split_sentences_sound "One. Two!  Three? Four. Five.").
  assert (S1 : Spec.sentences (PyStr.strip (letters 400)) [letters 400]).
  { replace [letters 400] with (split_sentences (PyStr.strip (letters 400)))
      by (vm_compute; reflexivity).
    apply split_sentences_sound. }
  split; [exact S5|]. split; [|split; [exact S1|]].
  - destruct (format_citation_text_spec "One. Two!  Three? Four. Five.")
      as [_ H].
    destruct (H _ S5) as (_ & _ & _ & _ & _ & H5 & _).
    apply (H5 "One." "Two!" "Three?" "Four." "Five.");
      [reflexivity | vm_compute; lia].
  - destruct (format_citation_text_spec (letters 400)) as [_ H].
    destruct (H _ S1) as (_ & _ & _ & _ & _ & _ & H1).
    apply H1; vm_compute; reflexivity.
Defined.

(** C4, as stated, fails for long sentences: of five sentences, the
    first three of 120 characters each, the citation is not the first
    three and an ellipsis but their first 297 characters and an
    ellipsis. *)
Lemma format_citation_text_long_sentences :
  let a := letters 119 ++ "." in
  let text := a ++ " " ++ a ++ " " ++ a ++ " Four. Five." in
  Spec.sentences (PyStr.strip text) [a; a; a; "Four."; "Five."]
  /\ format_citation_text text 3
     = PyStr.prefix 297 (a ++ " " ++ a ++ " " ++ a) ++ "..."
  /\ format_citation_text text 3 <> a ++ " " ++ a ++ " " ++ a ++ "...".
Proof.
  cbv zeta. split; [|split].
  - match goal with |- Spec.sentences ?t ?l =>
      replace l with (split_sentences t) by (vm_compute; reflexivity)
    end.
    apply split_sentences_sound.
  - vm_compute; reflexivity.
  - intros H. vm_compute in H. discriminate H.
Qed.

(** ** The session store *)

Section SessionStore.

Context `{B : Backend}.

Lemma read_sessions_stored (d : SessionsData) (s : State) :
  read_sessions (set_history_file (Stored d) s) = d.
Proof. reflexivity. Qed.

(** C5 (as amended).  The new session is named after [first_question]
    with its surrounding whitespace removed: the first 47 characters plus
    an ellipsis when what remains is longer than 50 characters, what
    remains itself otherwise; and "New Chat n+1", for [n] sessions in the
    store, when no question or an empty one is given.  A question of 60
    characters after trimming gets a name of 47 characters plus "...". *)
Theorem create_new_session_name (first_question : option string)
    (session_id t_created t_updated : string) (s : State) :
  let n := size (sessions (read_sessions s)) in
  exists s',
    create_new_session first_question session_id t_created t_updated s
      = (Val session_id, s')
    /\ name <$> sessions (read_sessions s') !! session_id
       = Some (new_session_name first_question n)
    /\ active_session (read_sessions s') = Some session_id
    /\ (forall q, first_question = Some q ->
          String.length (PyStr.strip q) = 60%nat ->
          new_session_name first_question n
            = PyStr.prefix 47 (PyStr.strip q) ++ "..."
          /\ String.length (new_session_name first_question n) = 50%nat).
Proof.
  intros n. unfold create_new_session. run.
  eexists. split; [reflexivity|].
  rewrite read_sessions_stored. cbn [sessions active_session].
  rewrite lookup_insert_eq. cbn [fmap option_fmap option_map name].
  split.
  { unfold new_session_name, generate_chat_name.
    destruct first_question as [[|c q]|]; reflexivity. }
  split; [reflexivity|].
  intros q -> L. unfold new_session_name.
  destruct q as [|c q]; [discriminate L|].
  cbv zeta. rewrite L. change (50 <? 60)%nat with true. cbv iota.
  split; [reflexivity|].
  rewrite length_append, length_prefix, L. reflexivity.
Qed.


(** C9.  [rename_session] answers 400 "Invalid name length", changing
    nothing, for every name that is empty or longer than 100 characters
    after trimming.  Any other name, so also one of exactly 100
    characters, is accepted: the answer is 404 "Session not found",
    changing nothing, when the session is absent, and otherwise 200 with
    the session stored under the trimmed name and the new [updated_at]. *)
Theorem rename_session_spec (session_id raw now : string) (s : State) :
  let new_name := PyStr.strip raw in
  ((new_name = "" \/ (100 < String.length new_name)%nat) ->
   rename_session session_id (Some raw) now s
     = (Val (Error "Invalid name length", 400), s))
  /\ (new_name <> "" -> (String.length new_name <= 100)%nat ->
      sessions (read_sessions s) !! session_id = None ->
      rename_session session_id (Some raw) now s
        = (Val (Error "Session not found", 404), s))
  /\ (forall session,
        new_name <> "" -> (String.length new_name <= 100)%nat ->
        sessions (read_sessions s) !! session_id = Some session ->
        exists s' session',
          rename_session session_id (Some raw) now s
            = (Val (Session (Some "Session renamed successfully") session',
                    200), s')
          /\ sessions (read_sessions s') !! session_id = Some session'
          /\ name session' = new_name
          /\ updated_at session' = now
          /\ messages session' = messages session
          /\ (forall other, other <> session_id ->
                sessions (read_sessions s') !! other
                = sessions (read_sessions s) !! other)).
Proof.
  intros new_name. unfold rename_session. run. fold new_name.
  destruct (String.eqb_spec new_name "") as [E|E];
    destruct (Nat.ltb_spec 100 (String.length new_name)) as [L|L];
    cbn [orb]; (split; [|split]); try (intros; (lia || easy)).
  - intros [?|?]; [easy | lia].
  - intros _ _ H. now rewrite H.
  - intros session _ _ H. rewrite H.
    eexists _, _. split; [reflexivity|].
    rewrite read_sessions_stored. cbn [sessions].
    rewrite lookup_insert_eq. repeat split.
    intros other Hne. now rewrite lookup_insert_ne.
Qed.

End SessionStore.

(** ** The vector index slot *)

Section IndexSlot.

Context `{B : Backend}.

Lemma same_session_eq (a b : option string) :
  same_session a b = true <-> a = b.
Proof.
  destruct a as [x|], b as [y|]; simpl; try easy.
  rewrite String.eqb_eq. split; congruence.
Qed.

Lemma create_vector_store_step (chunks : list Document)
    (collection_name : string) (add_to_existing : bool)
    (session_id : option string) (s : State) :
  create_vector_store chunks collection_name add_to_existing session_id s =
  match (if add_to_existing && same_session (active_session_id s) session_id
         then vector_store s else None) with
  | Some store => extended store chunks s
  | None =>
      rebuilt chunks (collection_for collection_name session_id) session_id s
  end.
Proof.
  unfold create_vector_store, extended, rebuilt. run.
  destruct (if add_to_existing && _ then vector_store s else None)
    as [store|].
  - now destruct (add_documents store chunks).
  - now destruct (Chroma_from_documents chunks _).
Qed.

Lemma create_vector_store_rebuild (chunks : list Document)
    (collection_name : string) (session_id : option string) (s : State) :
  create_vector_store chunks collection_name false session_id s =
  rebuilt chunks (collection_for collection_name session_id) session_id s.
Proof. now rewrite create_vector_store_step. Qed.

Lemma initialize_qa_chain_step (s : State) :
  initialize_qa_chain s =
  match vector_store s with
  | None => (Exc "Vector store not initialized", s)
  | Some store =>
      match RetrievalQA_from_chain_type store with
      | Val chain => (Val chain, set_qa_chain (Some chain) s)
      | Exc e => (Exc e, s)
      end
  end.
Proof.
  unfold initialize_qa_chain. run.
  destruct (vector_store s) as [store|]; [|reflexivity].
  now destruct (RetrievalQA_from_chain_type store).
Qed.

Lemma load_document_state (path : string) (s : State) :
  snd (load_document path s) = s.
Proof.
  unfold load_document. destruct (PyStr.after_last _ _); [|reflexivity].
  run. destruct (String.eqb _ "pdf").
  - now destruct (PyPDFLoader_load path).
  - destruct (str_in _ _); [|reflexivity].
    destruct (UnstructuredWordDocumentLoader_load path); [reflexivity|].
    now destruct (docx_paragraphs path).
Qed.

Lemma load_document_value (path : string) (s1 s2 : State) :
  fst (load_document path s1) = fst (load_document path s2).
Proof.
  unfold load_document. destruct (PyStr.after_last _ _); [|reflexivity].
  run. destruct (String.eqb _ "pdf").
  - now destruct (PyPDFLoader_load path).
  - destruct (str_in _ _); [|reflexivity].
    destruct (UnstructuredWordDocumentLoader_load path); [reflexivity|].
    now destruct (docx_paragraphs path).
Qed.

Lemma initialize_qa_chain_slot (s : State) :
  slot (snd (initialize_qa_chain s)) = slot s.
Proof.
  rewrite initialize_qa_chain_step.
  destruct (vector_store s) as [store|]; [|reflexivity].
  now destruct (RetrievalQA_from_chain_type store).
Qed.

(** A call for the ungrouped mode ([session_id = None]) leaves the slot
    unbound; unless the slot was unbound before, it is a rebuild. *)
Lemma create_vector_store_ungrouped (chunks : list Document)
    (collection_name : string) (add_to_existing : bool) (s : State) :
  let r := create_vector_store chunks collection_name add_to_existing
             None s in
  active_session_id (snd r) = None
  /\ (forall store, fst r = Val store -> vector_store (snd r) = Some store)
  /\ (active_session_id s <> None ->
      all_documents (snd r) = chunks
      /\ forall store, fst r = Val store ->
           Chroma_from_documents chunks collection_name = Val store).
Proof.
  cbv zeta. rewrite create_vector_store_step.
  destruct (active_session_id s) as [a|] eqn:Ea; cbn [same_session].
  - rewrite andb_false_r. unfold rebuilt. cbn [collection_for].
    destruct (Chroma_from_documents chunks collection_name) as [st|e];
      simpl; repeat split; intros; congruence.
  - destruct (if add_to_existing && true then vector_store s else None)
      as [store|].
    + unfold extended.
      destruct (add_documents store chunks) as [st|e];
        simpl; repeat split; intros; congruence.
    + unfold rebuilt. cbn [collection_for].
      destruct (Chroma_from_documents chunks collection_name) as [st|e];
        simpl; repeat split; intros; congruence.
Qed.

(** C1 (as amended).  When building the index fails in the rebuild path
    of [create_vector_store], the exception propagates and the index
    handle is the one from before the call, as are the QA chain, the
    registry and the files; the chunk list and the bound session id are
    already those of the failed call. *)
Theorem create_vector_store_rebuild_failure (chunks : list Document)
    (collection_name : string) (session_id : option string) (e : string)
    (s : State) :
  Chroma_from_documents chunks (collection_for collection_name session_id)
    = Exc e ->
  exists s',
    create_vector_store chunks collection_name false session_id s
      = (Exc e, s')
    /\ vector_store s' = vector_store s
    /\ all_documents s' = chunks
    /\ active_session_id s' = session_id
    /\ qa_chain s' = qa_chain s
    /\ document_metadata s' = document_metadata s
    /\ history_file s' = history_file s.
Proof.
  intros H. rewrite create_vector_store_rebuild. unfold rebuilt.
  rewrite H. eexists. split; [reflexivity|]. now repeat split.
Qed.

(** C8 (as amended).  [create_vector_store] with [add_to_existing] adds
    the new chunks to the existing index and to the chunk list exactly
    when there is an index handle and the bound session id equals the
    target session ([None] equals [None]); the binding stays as it is.
    In every other case it does not fail with a mismatch: it does what the
    call without [add_to_existing] does, a rebuild from the new chunks
    alone bound to the target session. *)
Theorem create_vector_store_add_to_existing (chunks : list Document)
    (collection_name : string) (session_id : option string) (s : State) :
  (forall store,
     vector_store s = Some store -> active_session_id s = session_id ->
     create_vector_store chunks collection_name true session_id s
       = extended store chunks s
     /\ all_documents
          (snd (create_vector_store chunks collection_name true session_id s))
        = (all_documents s ++ chunks)%list
     /\ active_session_id
          (snd (create_vector_store chunks collection_name true session_id s))
        = active_session_id s
     /\ (forall store',
           add_documents store chunks = Val store' ->
           vector_store
             (snd (create_vector_store chunks collection_name true
                     session_id s))
           = Some store'))
  /\ ((vector_store s = None \/ active_session_id s <> session_id) ->
      create_vector_store chunks collection_name true session_id s
        = create_vector_store chunks collection_name false session_id s
      /\ (forall store,
            Chroma_from_documents chunks
              (collection_for collection_name session_id) = Val store ->
            fst (create_vector_store chunks collection_name true
                   session_id s) = Val store
            /\ slot (snd (create_vector_store chunks collection_name true
                            session_id s))
               = (Some store, chunks, session_id))).
Proof.
  split.
  - intros store Hv Ha. rewrite create_vector_store_step.
    apply same_session_eq in Ha. rewrite Ha, Hv. cbn [andb].
    unfold extended. cbv zeta.
    destruct (add_documents store chunks) as [store'|e];
      repeat split; try reflexivity.
    + intros ? [= <-]. reflexivity.
    + intros ? [=].
  - intros H. rewrite !create_vector_store_step. cbn [andb].
    assert (E : (if same_session (active_session_id s) session_id
                 then vector_store s else None) = None).
    { destruct H as [-> | H]; [now destruct (same_session _ _)|].
      destruct (same_session _ _) eqn:E; [|reflexivity].
      now apply same_session_eq in E. }
    rewrite E. split; [reflexivity|].
    intros store Hs. unfold rebuilt. rewrite Hs. now split.
Qed.

Lemma load_session_vector_store_step (session_id : string) (s : State) :
  load_session_vector_store session_id s =
  if same_session (active_session_id s) (Some session_id)
     && bool_decide (is_Some (vector_store s))
  then (Val true, s)
  else
    match Chroma ("session_" ++ session_id) with
    | Exc e => (Val false, s)
    | Val store =>
        let s1 := set_active_session_id (Some session_id)
                    (set_vector_store (Some store) s) in
        match RetrievalQA_from_chain_type store with
        | Val chain => (Val true, set_qa_chain (Some chain) s1)
        | Exc e => (Val false, s1)
        end
    end.
Proof.
  unfold load_session_vector_store. run.
  destruct (same_session _ _ && _); [reflexivity|].
  destruct (Chroma _) as [store|e]; [|reflexivity].
  rewrite initialize_qa_chain_step. cbn [vector_store set_vector_store
    set_active_session_id].
  now destruct (RetrievalQA_from_chain_type store).
Qed.

(** C7.  [load_session_vector_store] returns [True] and changes nothing
    when the slot is bound to the requested session and holds an index.
    Otherwise it asks Chroma for the collection of the session and makes
    no test of its own whether an index was persisted.  When that call
    raises, it returns [False] and the state, so the index handle, the
    chunks and the bound session id, is as before.  When the call
    returns, the slot takes the returned index and is bound to the
    session, the chunks stay, and the result is [True] exactly when the
    QA chain could be built. *)
Theorem load_session_vector_store_spec (session_id : string) (s : State) :
  (active_session_id s = Some session_id -> vector_store s <> None ->
   load_session_vector_store session_id s = (Val true, s))
  /\ ((active_session_id s <> Some session_id \/ vector_store s = None) ->
      (forall e,
         Chroma ("session_" ++ session_id) = Exc e ->
         load_session_vector_store session_id s = (Val false, s)
         /\ slot (snd (load_session_vector_store session_id s)) = slot s)
      /\ (forall store,
            Chroma ("session_" ++ session_id) = Val store ->
            let r := load_session_vector_store session_id s in
            slot (snd r) = (Some store, all_documents s, Some session_id)
            /\ (fst r = Val true
                <-> exists chain,
                      RetrievalQA_from_chain_type store = Val chain)
            /\ (fst r = Val false
                <-> exists e, RetrievalQA_from_chain_type store = Exc e))).
Proof.
  rewrite load_session_vector_store_step. split.
  - intros Ha Hv. apply same_session_eq in Ha. rewrite Ha.
    destruct (vector_store s); [reflexivity | congruence].
  - intros H.
    assert (E : same_session (active_session_id s) (Some session_id)
                && bool_decide (is_Some (vector_store s)) = false).
    { destruct H as [H | ->].
      - destruct (same_session _ _) eqn:E; [|reflexivity].
        now apply same_session_eq in E.
      - rewrite andb_false_r. reflexivity. }
    rewrite E. split.
    + intros e ->. now split.
    + intros store ->. cbv zeta.
      destruct (RetrievalQA_from_chain_type store) as [chain|e];
        (split; [reflexivity|]); split; split;
        try discriminate; try (intros [? [=]]); try reflexivity;
        intros _; eexists; reflexivity.
Qed.

End IndexSlot.

(** ** Endpoints *)

Section Endpoints.

Context `{B : Backend}.

(** C10.  After an upload that answers 200 the bound session id is
    [None].  When a session's index was loaded before the upload (the
    bound session id was not [None]), the slot has been rebuilt from the
    chunks of the uploaded file alone, in the collection "docuchat". *)
Theorem upload_document_unbinds (request : UploadRequest)
    (file_id now : string) (s : State) (body : Body) :
  fst (upload_document request file_id now s) = Val (body, 200) ->
  let s' := snd (upload_document request file_id now s) in
  active_session_id s' = None
  /\ (active_session_id s <> None ->
      exists file_name documents store,
        upload_file request = Some file_name
        /\ fst (load_document
                  ("uploads/" ++ file_id ++ "_" ++ secure_filename file_name)
                  s) = Val documents
        /\ let chunks :=
             chunk_documents
               (map (tag_document (secure_filename file_name) file_id)
                    documents) in
           Chroma_from_documents chunks "docuchat" = Val store
           /\ vector_store s' = Some store
           /\ all_documents s' = chunks).
Proof.
  unfold upload_document.
  destruct (upload_file request) as [[|c f]|]; try discriminate.
  destruct (allowed_file (String c f)); try discriminate.
  cbn [negb]. run.
  set (add := String.eqb _ "true").
  set (path := "uploads/" ++ _).
  set (s0 := set_uploads _ s).
  pose proof (load_document_state path s0) as Hl.
  pose proof (load_document_value path s s0) as Hv.
  destruct (load_document path s0) as [[documents|e] s1];
    cbn [fst snd] in *; subst s1; [|discriminate].
  set (chunks := chunk_documents _).
  pose proof (create_vector_store_ungrouped chunks "docuchat" add s0)
    as (Ha & Hs & Hr).
  destruct (create_vector_store chunks "docuchat" add None s0)
    as [[store|e] s1]; cbn [fst snd] in *; [|discriminate].
  pose proof (initialize_qa_chain_slot s1) as Hi.
  destruct (initialize_qa_chain s1) as [[chain|e] s2];
    cbn [fst snd] in *; [|discriminate].
  intros _. unfold slot in Hi. injection Hi as Hi1 Hi2 Hi3.
  cbn [active_session_id vector_store all_documents
       set_session_file set_document_metadata].
  split; [congruence|].
  intros Hb. exists (String c f), documents, store.
  destruct (Hr Hb) as [Hd Hc].
  split; [reflexivity|]. split; [exact Hv|].
  split; [now apply Hc|].
  split; [rewrite Hi1; now apply Hs | rewrite Hi2; exact Hd].
Qed.

Lemma chat_state (question : option string) (s : State) :
  snd (chat question s) = s.
Proof.
  unfold chat. run. destruct (qa_chain s) as [chain|]; [|reflexivity].
  destruct question as [q|]; [|reflexivity].
  now destruct (invoke chain q) as [[answer docs]|e].
Qed.

Lemma chat_without_chain (question : option string) (s : State) :
  qa_chain s = None ->
  chat question s
  = (Val (Error "No document uploaded yet. Please upload a document first.",
          400), s).
Proof. intros H. unfold chat. run. now rewrite H. Qed.

Lemma other_document_spec (file_id' : string) (d : Document) :
  other_document file_id' d = true <-> file_id d <> Some file_id'.
Proof.
  unfold other_document. destruct (file_id d) as [f|]; [|easy].
  destruct (String.eqb_spec f file_id') as [->|N]; simpl; split;
    congruence.
Qed.

Lemma remaining_docs_spec (file_id' : string) (l : list Document)
    (d : Document) :
  In d (List.filter (other_document file_id') l)
  <-> In d l /\ file_id d <> Some file_id'.
Proof. now rewrite filter_In, other_document_spec. Qed.

(** When every chunk belongs to a registered document and [file_id'] is
    the only registered document, every chunk belongs to [file_id']. *)
Lemma last_document_no_chunk (file_id' : string) (s : State) :
  (forall d, In d (all_documents s) ->
     exists f, file_id d = Some f /\ is_Some (document_metadata s !! f)) ->
  delete file_id' (document_metadata s) = ∅ ->
  List.filter (other_document file_id') (all_documents s) = [].
Proof.
  intros Hreg Hlast.
  induction (all_documents s) as [|d l IH]; [reflexivity|].
  cbn [List.filter].
  destruct (Hreg d (or_introl eq_refl)) as (f & Hf & Hsome).
  assert (f = file_id') as ->.
  { destruct (decide (f = file_id')) as [|N]; [assumption|].
    assert (E : delete file_id' (document_metadata s) !! f
                = document_metadata s !! f)
      by (apply lookup_delete_ne; congruence).
    rewrite Hlast, lookup_empty in E. rewrite <- E in Hsome.
    now destruct Hsome. }
  unfold other_document at 1. rewrite Hf, String.eqb_refl. cbn [negb].
  apply IH. intros d' Hd'. apply Hreg. now right.
Qed.

(** C3 (as amended).  For a document id in the registry,
    [remove_document] deletes the record and takes as remaining chunks
    those of [all_documents] whose [file_id] is not the removed id.  When
    some remain and the index and the chain can be built, it answers 200
    with the slot rebuilt from exactly the remaining chunks, unbound.  When
    none remain it answers 200 with the index handle and the QA chain
    gone and the chunk list empty, while the bound session id stays what
    it was; a chat request then answers 400 "No document uploaded yet".
    Removing the last registered document leaves no chunk when every
    chunk of the slot belonged to a registered document. *)
Theorem remove_document_spec (file_id' now : string) (meta : DocMeta)
    (s : State) :
  document_metadata s !! file_id' = Some meta ->
  let remaining := List.filter (other_document file_id') (all_documents s) in
  let r := remove_document file_id' now s in
  let ok :=
    Val (Removed ("Document '" ++ filename meta ++ "' removed successfully")
                 (size (delete file_id' (document_metadata s))), 200) in
  document_metadata (snd r) = delete file_id' (document_metadata s)
  /\ (forall d, In d remaining <->
                In d (all_documents s) /\ file_id d <> Some file_id')
  /\ (remaining <> [] ->
      forall store chain,
        Chroma_from_documents remaining "docuchat_multi" = Val store ->
        RetrievalQA_from_chain_type store = Val chain ->
        fst r = ok
        /\ slot (snd r) = (Some store, remaining, None)
        /\ qa_chain (snd r) = Some chain)
  /\ (remaining = [] ->
      fst r = ok
      /\ vector_store (snd r) = None
      /\ qa_chain (snd r) = None
      /\ all_documents (snd r) = []
      /\ active_session_id (snd r) = active_session_id s
      /\ forall question,
           chat question (snd r)
           = (Val (Error
                "No document uploaded yet. Please upload a document first.",
                400), snd r))
  /\ ((forall d, In d (all_documents s) ->
         exists f, file_id d = Some f
                   /\ is_Some (document_metadata s !! f)) ->
      delete file_id' (document_metadata s) = ∅ ->
      remaining = []).
Proof.
  intros H. cbv zeta.
  pose proof (remaining_docs_spec file_id' (all_documents s)) as Hb.
  pose proof (last_document_no_chunk file_id' s) as He.
  unfold remove_document. run. rewrite H.
  set (remaining := List.filter (other_document file_id') (all_documents s))
    in *.
  clearbody remaining. destruct remaining as [|d l].
  - cbn [fst snd document_metadata vector_store qa_chain all_documents
         active_session_id set_session_file set_all_documents set_qa_chain
         set_vector_store set_uploads set_document_metadata].
    repeat split; try assumption; try apply Hb; try easy.
  - rewrite create_vector_store_rebuild. unfold rebuilt.
    cbn [collection_for].
    destruct (Chroma_from_documents (d :: l) "docuchat_multi")
      as [store|e].
    + rewrite initialize_qa_chain_step.
      cbn [vector_store set_vector_store].
      destruct (RetrievalQA_from_chain_type store) as [chain|e] eqn:Eq;
        (split; [reflexivity|]); (split; [exact Hb|]);
        (split; [|split; [easy | exact He]]).
      * intros _ ? ? [= <-] Hq. rewrite Eq in Hq.
        injection Hq as <-. now repeat split.
      * intros _ ? ? [= <-] Hq. rewrite Eq in Hq. discriminate Hq.
    + (split; [reflexivity|]); (split; [exact Hb|]);
        (split; [|split; [easy | exact He]]).
      intros _ ? ? [=].
Qed.

End Endpoints.

(** * Concrete runs *)

Example split_sentences_example :
  split_sentences "One. Two!  Three? Four. Five"
  = ["One."; "Two!"; "Three?"; "Four."; "Five"].
Proof. reflexivity. Qed.

Example generate_chat_name_example :
  generate_chat_name "What is the refund policy?"
  = "What is the refund policy?".
Proof. reflexivity. Qed.

Lemma create_new_session_name_witness :
  String.length (PyStr.strip (letters 60)) = 60%nat
  /\ new_session_name (Some (letters 60)) 0
     = PyStr.prefix 47 (PyStr.strip (letters 60)) ++ "...".
Proof.
  split; [reflexivity|].
  destruct (create_new_session_name (B := Sim.backend true)
              (Some (letters 60)) "s1" "t0" "t0" (Sim.fresh true))
    as (s' & _ & _ & _ & H).
  apply (H (letters 60)); reflexivity.
Defined.

(** C5, as stated, fails: the question " hi" gives the session name "hi",
    not the question verbatim, and the empty question gives "New Chat 1",
    not the empty name. *)
Lemma create_new_session_name_not_verbatim :
  let s := Sim.fresh true in
  let named q :=
    name <$> sessions (read_sessions
                         (snd (create_new_session q "s1" "t0" "t0" s)))
               !! "s1" in
  let n := size (sessions (read_sessions s)) in
  named (Some " hi") = Some "hi"
  /\ named (Some " hi") <> Some (Spec.session_name (Some " hi") n)
  /\ named (Some "") = Some "New Chat 1"
  /\ named (Some "") <> Some (Spec.session_name (Some "") n).
Proof.
  repeat split; intros H; vm_compute in H; discriminate H.
Qed.


Lemma rename_session_spec_witness :
  rename_session (B := Sim.backend true) "s1" (Some "   ") "t5"
    Sim.session_created
  = (Val (Error "Invalid name length", 400), Sim.session_created)
  /\ rename_session (B := Sim.backend true) "s1" (Some (letters 101)) "t5"
       Sim.session_created
     = (Val (Error "Invalid name length", 400), Sim.session_created)
  /\ rename_session (B := Sim.backend true) "s9" (Some (letters 100)) "t5"
       Sim.session_created
     = (Val (Error "Session not found", 404), Sim.session_created)
  /\ exists s' session',
       rename_session (B := Sim.backend true) "s1" (Some (letters 100))
         "t5" Sim.session_created
       = (Val (Session (Some "Session renamed successfully") session', 200),
          s')
       /\ name session' = letters 100.
Proof.
  split; [|split; [|split]].
  - apply rename_session_spec. left. reflexivity.
  - apply rename_session_spec. right. vm_compute. lia.
  - apply rename_session_spec;
      [discriminate | vm_compute; lia | reflexivity].
  - destruct (rename_session_spec (B := Sim.backend true) "s1"
                (letters 100) "t5" Sim.session_created) as (_ & _ & H).
    destruct (H _ ltac:(discriminate) ltac:(vm_compute; lia) eq_refl)
      as (s' & session' & E & _ & N & _).
    exists s', session'. split; [exact E | exact N].
Defined.

Lemma create_vector_store_rebuild_failure_witness :
  Chroma_from_documents (Backend := Sim.backend false)
    [Sim.chunk "Shipping takes 5 days." "d2"]
    (collection_for "docuchat" (Some "s1"))
  = Exc "connection refused"
  /\ exists s',
       create_vector_store (B := Sim.backend false)
         [Sim.chunk "Shipping takes 5 days." "d2"] "docuchat" false
         (Some "s1") (Sim.indexed false)
       = (Exc "connection refused", s')
       /\ vector_store s' = vector_store (Sim.indexed false)
       /\ all_documents s' = [Sim.chunk "Shipping takes 5 days." "d2"]
       /\ active_session_id s' = Some "s1".
Proof.
  split; [reflexivity|].
  destruct (create_vector_store_rebuild_failure (B := Sim.backend false)
              [Sim.chunk "Shipping takes 5 days." "d2"] "docuchat"
              (Some "s1") "connection refused" (Sim.indexed false) eq_refl)
    as (s' & E & V & D & A & _).
  exists s'. now repeat split.
Defined.

(** C1, as stated, fails: with the embedding service down, a rebuild for
    session "s1" raises, and the slot that held the index of document
    [d1] unbound now lists the new chunk and is bound to "s1". *)
Lemma create_vector_store_rebuild_not_atomic :
  let s := Sim.indexed false in
  let r := create_vector_store [Sim.chunk "Shipping takes 5 days." "d2"]
             "docuchat" false (Some "s1") s in
  fst r = Exc "connection refused"
  /\ slot (snd r) <> slot s.
Proof.
  split; [reflexivity|]. intros H. vm_compute in H. discriminate H.
Qed.

Lemma create_vector_store_add_to_existing_witness :
  all_documents
    (snd (create_vector_store (B := Sim.backend true)
            [Sim.chunk "Shipping takes 5 days." "d2"] "docuchat" true None
            (Sim.indexed true)))
  = (all_documents (Sim.indexed true)
     ++ [Sim.chunk "Shipping takes 5 days." "d2"])%list
  /\ create_vector_store (B := Sim.backend true)
       [Sim.chunk "Shipping takes 5 days." "d2"] "docuchat" true
       (Some "s1") (Sim.indexed true)
     = create_vector_store (B := Sim.backend true)
         [Sim.chunk "Shipping takes 5 days." "d2"] "docuchat" false
         (Some "s1") (Sim.indexed true).
Proof.
  split.
  - destruct (create_vector_store_add_to_existing (B := Sim.backend true)
                [Sim.chunk "Shipping takes 5 days." "d2"] "docuchat" None
                (Sim.indexed true)) as [H _].
    destruct (H _ eq_refl eq_refl) as (_ & E & _). exact E.
  - destruct (create_vector_store_add_to_existing (B := Sim.backend true)
                [Sim.chunk "Shipping takes 5 days." "d2"] "docuchat"
                (Some "s1") (Sim.indexed true)) as [_ H].
    assert (N : active_session_id (Sim.indexed true) <> Some "s1")
      by discriminate.
    destruct (H (or_intror N)) as [E _]. exact E.
Defined.

(** C8, as stated, fails: with [add_to_existing] and no index handle, or
    with a handle bound to another session, the call returns a store. *)
Lemma create_vector_store_no_state_mismatch :
  vector_store (Sim.fresh true) = None
  /\ fst (create_vector_store [Sim.chunk "Shipping takes 5 days." "d2"]
            "docuchat" true None (Sim.fresh true))
     = Val [Sim.chunk "Shipping takes 5 days." "d2"]
  /\ active_session_id (Sim.indexed true) <> Some "s1"
  /\ fst (create_vector_store [Sim.chunk "Shipping takes 5 days." "d2"]
            "docuchat" true (Some "s1") (Sim.indexed true))
     = Val [Sim.chunk "Shipping takes 5 days." "d2"].
Proof. repeat split. discriminate. Qed.

Lemma load_session_vector_store_spec_witness :
  load_session_vector_store (B := Sim.backend true) "s1" Sim.session_opened
  = (Val true, Sim.session_opened)
  /\ load_session_vector_store (B := Sim.backend false) "s1"
       (Sim.indexed false)
     = (Val false, Sim.indexed false)
  /\ slot (snd (load_session_vector_store (B := Sim.backend true) "s1"
                  Sim.session_created))
     = (Some [], all_documents Sim.session_created, Some "s1").
Proof.
  split; [|split].
  - apply load_session_vector_store_spec; [reflexivity | discriminate].
  - destruct (load_session_vector_store_spec (B := Sim.backend false) "s1"
                (Sim.indexed false)) as [_ H].
    assert (N : active_session_id (Sim.indexed false) <> Some "s1")
      by discriminate.
    destruct (H (or_introl N)) as [H1 _].
    now apply (H1 "connection refused").
  - destruct (load_session_vector_store_spec (B := Sim.backend true) "s1"
                Sim.session_created) as [_ H].
    assert (N : active_session_id Sim.session_created <> Some "s1")
      by discriminate.
    destruct (H (or_introl N)) as [_ H2].
    now apply (H2 []).
Defined.

(** C7, as stated, fails: in a process that has just started over an
    empty persist directory, where no index exists for session "s1", the
    call returns [True] and the slot holds a new, empty index bound to
    "s1". *)
Lemma load_session_vector_store_nothing_persisted :
  let disk : gmap string (list Document) := ∅ in
  let s := started (B := Sim2.persisted disk) NoFile None ∅ in
  let r := load_session_vector_store "s1" s in
  disk !! "session_s1" = None
  /\ fst r = Val true
  /\ slot (snd r) = (Some [], [], Some "s1")
  /\ slot (snd r) <> slot s.
Proof.
  cbv zeta. split; [reflexivity|]. split; [reflexivity|].
  split; [reflexivity|]. intros H. vm_compute in H. discriminate H.
Qed.

Lemma upload_document_unbinds_witness :
  active_session_id Sim.session_opened = Some "s1"
  /\ active_session_id
       (snd (upload_document Sim.upload_a "d2" "t3" Sim.session_opened))
     = None.
Proof.
  split; [reflexivity|].
  apply (upload_document_unbinds (B := Sim.backend true) Sim.upload_a "d2"
           "t3" Sim.session_opened
           (Uploaded "Document uploaded and processed successfully" "d2"
              "a.pdf" 1 1 2)).
  reflexivity.
Defined.

(** C2.  A question asked while session "s1" is active is answered with
    a citation, and the session has no message afterwards; no question
    ever changes the state. *)
Theorem chat_answer_not_recorded :
  let r := chat (Some "What is the refund policy?") Sim.session_created in
  fst r
  = Val (Answer "See the cited passages."
           [ {| cit_id := 1;
                cit_content :=
                  "Refunds are made within 30 days. Keep the receipt.";
                cit_source := "a.pdf"; cit_page := Some 0 |} ]
           "What is the refund policy?", 200)
  /\ active_session (read_sessions (snd r)) = Some "s1"
  /\ messages <$> sessions (read_sessions (snd r)) !! "s1" = Some []
  /\ forall (B : Backend) (question : option string) (s : @State B),
       snd (chat question s) = s.
Proof.
  repeat split. intros B question s. apply chat_state.
Qed.

Lemma remove_document_spec_witness :
  slot (snd (remove_document (B := Sim.backend true) "d1" "t3"
               Sim.two_documents))
  = (Some
       [ {| page_content :=
              "Refunds are made within 30 days. Keep the receipt.";
            source := Some "b.pdf"; file_id := Some "d2";
            page := Some 0 |} ],
     [ {| page_content :=
            "Refunds are made within 30 days. Keep the receipt.";
          source := Some "b.pdf"; file_id := Some "d2"; page := Some 0 |} ],
     None)
  /\ vector_store
       (snd (remove_document (B := Sim.backend true) "d1" "t3"
               (Sim.indexed true)))
     = None.
Proof.
  split.
  - destruct (remove_document_spec (B := Sim.backend true) "d1" "t3"
                {| filename := "a.pdf"; chunks := 1; pages := 1 |}
                Sim.two_documents eq_refl) as (_ & _ & H & _).
    assert (N : List.filter (other_document "d1")
                  (all_documents Sim.two_documents) <> [])
      by discriminate.
    destruct (H N _ _ eq_refl eq_refl) as (_ & E & _). exact E.
  - destruct (remove_document_spec (B := Sim.backend true) "d1" "t3"
                {| filename := "a.pdf"; chunks := 1; pages := 1 |}
                (Sim.indexed true) eq_refl) as (_ & _ & _ & H & _).
    destruct (H eq_refl) as (_ & E & _). exact E.
Defined.

(** C3, as stated, fails.  After upload, new session and opening the
    session, removing the only document leaves the slot bound to session
    "s1", which is not the cleared slot of the specification.  And after
    an upload of [d2] that failed while rebuilding, removing [d1], the
    last registered document, rebuilds the index from the chunk of [d2]:
    the index handle is present and a question is answered. *)
Lemma remove_document_not_cleared :
  (let s := Sim.session_opened in
   let r := remove_document "d1" "t4" s in
   is_Some (document_metadata s !! "d1")
   /\ List.filter (other_document "d1") (all_documents s) = []
   /\ fst r = Val (Removed "Document 'a.pdf' removed successfully" 0, 200)
   /\ slot (snd r) = (None, [], Some "s1")
   /\ slot (snd r) <> Spec.cleared_slot)
  /\ (let s := Sim.upload_failed in
      let r := remove_document "d1" "t4" s in
      is_Some (document_metadata s !! "d1")
      /\ fst r = Val (Removed "Document 'a.pdf' removed successfully" 0, 200)
      /\ document_metadata (snd r) = ∅
      /\ vector_store (snd r) <> None
      /\ exists answer citations,
           fst (chat (Some "What is the refund policy?") (snd r))
           = Val (Answer answer citations "What is the refund policy?",
                  200)).
Proof.
  split.
  - repeat split; [eexists; reflexivity|].
    intros H. vm_compute in H. discriminate H.
  - split; [eexists; reflexivity|]. split; [reflexivity|].
    split; [now vm_compute|]. split; [discriminate|].
    eexists _, _. reflexivity.
Qed.

(** * Further properties *)

(** ** File names and chat names *)

Lemma after_last_none (c : ascii) (s : string) :
  PyStr.after_last c s = None <-> PyStr.contains_char c s = false.
Proof.
  induction s as [|d r IH]; simpl; [easy|].
  destruct (PyStr.after_last c r) as [t|].
  - split; [discriminate|]. intros H. apply orb_false_elim in H as [_ H].
    apply IH in H. discriminate H.
  - destruct (Ascii.eqb c d); simpl; [split; discriminate|]. exact IH.
Qed.

Lemma after_last_some (c : ascii) (s t : string) :
  PyStr.after_last c s = Some t
  <-> exists base, s = base ++ String c t
                   /\ PyStr.contains_char c t = false.
Proof.
  revert t. induction s as [|d r IH]; intros t; simpl.
  - split; [discriminate|]. intros ([|x base] & H & _); discriminate H.
  - destruct (PyStr.after_last c r) as [t'|] eqn:E.
    + split.
      * intros [= <-]. destruct (proj1 (IH t') eq_refl) as (base & -> & N).
        exists (String d base). now split.
      * intros ([|x base] & H & N).
        -- injection H as <- <-. apply after_last_none in N. congruence.
        -- rewrite append_cons in H. injection H as <- ->.
           f_equal. symmetry.
           assert (Some t' = Some t) as [= ->]; [|reflexivity].
           apply IH. now exists base.
    + destruct (Ascii.eqb_spec c d) as [<-|N].
      * split.
        -- intros [= <-]. exists "". split; [reflexivity|].
           now apply after_last_none.
        -- intros ([|x base] & H & Nt).
           ++ now injection H as <-.
           ++ rewrite append_cons in H. injection H as <- ->.
              assert (None = Some t) as [=].
              apply IH. now exists base.
      * split; [discriminate|]. intros ([|x base] & H & Nt).
        -- injection H as <-. congruence.
        -- rewrite append_cons in H. injection H as <- ->.
           assert (None = Some t) as [=].
           apply IH. now exists base.
Qed.

Lemma contains_char_append (c : ascii) (a b : string) :
  PyStr.contains_char c (a ++ b)
  = PyStr.contains_char c a || PyStr.contains_char c b.
Proof.
  induction a as [|x a IH]; [reflexivity|].
  rewrite append_cons. simpl. now rewrite IH, orb_assoc.
Qed.

Lemma str_in_In (x : string) (l : list string) :
  str_in x l = true <-> In x l.
Proof.
  unfold str_in. rewrite existsb_exists. split.
  - intros (y & Hy & E). apply String.eqb_eq in E. now subst.
  - intros H. exists x. split; [exact H | apply String.eqb_refl].
Qed.

(** X1.  [allowed_file] accepts exactly the names [base.ext] in which
    [ext], the text after the last dot, is "pdf", "docx" or "doc" in any
    mix of upper and lower case; a name without a dot is refused. *)
Theorem allowed_file_spec (filename : string) :
  allowed_file filename = true
  <-> exists base ext,
        filename = base ++ "." ++ ext
        /\ PyStr.contains_char "." ext = false
        /\ In (PyStr.lower_str ext) ["pdf"; "docx"; "doc"].
Proof.
  unfold allowed_file. split.
  - intros H. apply andb_prop in H as [_ H].
    destruct (PyStr.after_last "." filename) as [ext|] eqn:E;
      [|discriminate].
    apply after_last_some in E as (base & -> & N).
    exists base, ext. split; [reflexivity|]. split; [exact N|].
    now apply str_in_In.
  - intros (base & ext & -> & N & H).
    assert (E : PyStr.after_last "." (base ++ "." ++ ext) = Some ext)
      by (apply after_last_some; now exists base).
    rewrite E, contains_char_append. apply andb_true_intro. split.
    + apply orb_true_intro. right. reflexivity.
    + now apply str_in_In.
Qed.

Lemma allowed_file_spec_witness : allowed_file "Report.v2.PDF" = true.
Proof.
  apply allowed_file_spec. exists "Report.v2", "PDF".
  split; [reflexivity|]. split; [reflexivity|]. left. reflexivity.
Defined.

Lemma lstrip_no_space_ahead (s : string) : no_space_ahead (PyStr.lstrip s).
Proof.
  induction s as [|c r IH]; simpl; [exact I|].
  destruct (PyStr.is_space c) eqn:E; [exact IH | exact E].
Qed.

Lemma lstrip_id (s : string) : no_space_ahead s -> PyStr.lstrip s = s.
Proof. destruct s as [|c r]; simpl; [easy|]. now intros ->. Qed.

Lemma rstrip_no_space_ahead (s : string) :
  no_space_ahead s -> no_space_ahead (PyStr.rstrip s).
Proof.
  destruct s as [|c r]; simpl; [easy|]. intros E.
  destruct (PyStr.rstrip r); [now rewrite E | exact E].
Qed.

Lemma rstrip_idempotent (s : string) :
  PyStr.rstrip (PyStr.rstrip s) = PyStr.rstrip s.
Proof.
  induction s as [|c r IH]; [reflexivity|]. simpl.
  destruct (PyStr.rstrip r) as [|d r'] eqn:E.
  - destruct (PyStr.is_space c) eqn:S; [reflexivity|]. simpl. now rewrite S.
  - simpl. simpl in IH. now rewrite IH.
Qed.

Lemma strip_no_space_ahead (s : string) : no_space_ahead (PyStr.strip s).
Proof. apply rstrip_no_space_ahead, lstrip_no_space_ahead. Qed.

Lemma strip_idempotent (s : string) :
  PyStr.strip (PyStr.strip s) = PyStr.strip s.
Proof.
  unfold PyStr.strip at 1. rewrite lstrip_id by apply strip_no_space_ahead.
  apply rstrip_idempotent.
Qed.

Lemma rstrip_append (a b : string) :
  PyStr.rstrip b <> "" -> PyStr.rstrip (a ++ b) = a ++ PyStr.rstrip b.
Proof.
  intros H. induction a as [|c a IH]; [reflexivity|].
  rewrite !append_cons. simpl. rewrite IH.
  destruct (a ++ PyStr.rstrip b) eqn:E; [|reflexivity].
  destruct a; [|discriminate E]. now rewrite append_nil in E.
Qed.

Lemma prefix_no_space_ahead (n : nat) (s : string) :
  no_space_ahead s -> no_space_ahead (PyStr.prefix n s ++ "...").
Proof. destruct n, s as [|c r]; simpl; easy. Qed.

(** X2.  A generated chat name has no whitespace at either end, and
    generating a name from a generated name gives it back. *)
Theorem generate_chat_name_idempotent (question : string) :
  PyStr.strip (generate_chat_name question) = generate_chat_name question
  /\ generate_chat_name (generate_chat_name question)
     = generate_chat_name question.
Proof.
  assert (T : PyStr.strip (generate_chat_name question)
              = generate_chat_name question).
  { unfold generate_chat_name. cbv zeta.
    destruct (Nat.ltb_spec 50 (String.length (PyStr.strip question)));
      [|apply strip_idempotent].
    unfold PyStr.strip at 1.
    rewrite lstrip_id by apply prefix_no_space_ahead, strip_no_space_ahead.
    now rewrite rstrip_append. }
  split; [exact T|].
  rewrite generate_chat_name_short; [exact T|].
  rewrite T. apply generate_chat_name_length.
Qed.

(** ** Citations and answers *)

Lemma split_sentences_head (c : ascii) (r : string) :
  PyStr.is_space c = false ->
  exists p ps, split_sentences (String c r) = String c p :: ps.
Proof.
  intros E. unfold split_sentences. simpl. rewrite E. simpl.
  destruct (split_from (is_sentence_end c) false r) as [p ps].
  now exists p, ps.
Qed.

Lemma join_head (sep : string) (c : ascii) (p : string) (l : list string) :
  exists t, PyStr.join sep (String c p :: l) = String c t.
Proof.
  destruct l as [|x l]; simpl; [now exists p|].
  rewrite append_cons. now eexists.
Qed.

Lemma capped_head (c : ascii) (t : string) :
  exists u, capped (String c t) = String c u.
Proof.
  unfold capped. destruct (300 <? String.length (String c t))%nat.
  - change (PyStr.prefix 297 (String c t))
      with (String c (PyStr.prefix 296 t)).
    rewrite append_cons. now eexists.
  - now eexists.
Qed.

(** X3.  For every number of sentences asked for, the citation text is
    at most 300 characters long.  Asking for no sentence gives "..." for
    every text.  Asking for at least one, the citation is empty exactly
    when the text is blank. *)
Theorem format_citation_text_edges (text : string) (max_sentences : nat) :
  (String.length (format_citation_text text max_sentences) <= 300)%nat
  /\ format_citation_text text 0 = "..."
  /\ ((1 <= max_sentences)%nat ->
      (format_citation_text text max_sentences = ""
       <-> PyStr.strip text = "")).
Proof.
  split; [rewrite format_citation_text_unfold; apply length_capped|].
  split.
  - rewrite format_citation_text_unfold. cbv zeta.
    unfold split_sentences.
    now destruct (split_from false false (PyStr.strip text)) as [p ps].
  - intros Hn. destruct max_sentences as [|k]; [lia|].
    rewrite format_citation_text_unfold. cbv zeta.
    pose proof (strip_no_space_ahead text) as Hs.
    destruct (PyStr.strip text) as [|c r].
    + split; [reflexivity|]. intros _.
      change (split_sentences "") with [""].
      now destruct k.
    + split; [|discriminate]. simpl in Hs.
      destruct (split_sentences_head c r Hs) as (p & ps & ->).
      cbn [firstn].
      destruct (join_head " " c p (firstn k ps)) as (t & ->).
      rewrite append_cons.
      destruct (capped_head c (t ++ (if (S k <? List.length (String c p :: ps))%nat
                                     then "..." else ""))) as (u & ->).
      discriminate.
Qed.

Section Answers.

Context `{B : Backend}.

Lemma chat_request_object (member : option string) (s : State) :
  chat_request (Val (JObject member)) s = chat member s.
Proof.
  unfold chat_request, chat. run.
  destruct (qa_chain s) as [chain|]; [|reflexivity].
  now destruct member.
Qed.

Lemma chat_request_state (body : exc (Json string)) (s : State) :
  snd (chat_request body s) = s.
Proof.
  unfold chat_request. run.
  destruct (qa_chain s) as [chain|]; [|reflexivity].
  destruct body as [data|e]; [|reflexivity].
  destruct (no_question data) as [[|]|e]; try reflexivity.
  destruct (question_of data) as [question|e]; [|reflexivity].
  now destruct (invoke chain question) as [[answer docs]|e].
Qed.

Lemma chat_request_raises (body : exc (Json string)) (chain : Chain)
    (s : State) :
  qa_chain s = Some chain ->
  (exists e, fst (chat_request body s) = Exc e) <-> chat_raises body = true.
Proof.
  intros H. unfold chat_request. run. rewrite H.
  destruct body as [data|e]; [|split; [reflexivity | now eexists]].
  destruct data as [|[|]|n|t|items|[question|]]; cbn;
    try (split; [now intros [? [=]] | discriminate]);
    try (split; [reflexivity | now eexists]).
  - destruct (n =? 0)%Z; cbn;
      [split; [now intros [? [=]] | discriminate]
      | split; [reflexivity | now eexists]].
  - destruct (str_contains "question" t); cbn;
      [split; [reflexivity | now eexists]
      | split; [now intros [? [=]] | discriminate]].
  - destruct (existsb (is_string "question") items); cbn;
      [split; [reflexivity | now eexists]
      | split; [now intros [? [=]] | discriminate]].
  - destruct (invoke chain question) as [[answer docs]|e];
      (split; [now intros [? [=]] | discriminate]).
Qed.

Lemma chat_request_no_question (body : exc (Json string)) (chain : Chain)
    (s : State) :
  qa_chain s = Some chain ->
  chat_raises body = false ->
  (forall question, body <> Val (JObject (Some question))) ->
  fst (chat_request body s) = Val (Error "No question provided", 400).
Proof.
  intros H Hr Hq. unfold chat_request. run. rewrite H.
  destruct body as [data|e]; [|discriminate].
  destruct data as [|[|]|n|t|items|[question|]]; cbn in Hr |- *;
    try discriminate; try reflexivity.
  - apply negb_false_iff in Hr. now rewrite Hr.
  - now rewrite Hr.
  - now rewrite Hr.
  - now destruct (Hq question).
Qed.

(** X4.  [chat] never changes the state, whether it answers or raises.
    Without QA chain it answers 400 and does not read the request.  With
    a chain it raises exactly when [request.get_json()] raises or returns
    [True], a number other than [0], a string containing ['question'] or
    a list with the item ['question']: these lines stand before the
    [try].  Every other body that is no object with a question is
    answered 400.  For an object with a question, a failure of the chain
    is answered 500 with the text of the exception; otherwise the answer
    comes with one citation per retrieved chunk, in retrieval order,
    numbered from 1, each with the chunk's text formatted to at most 3
    sentences and 300 characters, its source ("Unknown" when the chunk
    names none) and its page. *)
Theorem chat_spec (body : exc (Json string)) (s : State) :
  let r := chat_request body s in
  snd r = s
  /\ (qa_chain s = None ->
      fst r
      = Val (Error "No document uploaded yet. Please upload a document first.",
             400))
  /\ (forall chain,
        qa_chain s = Some chain ->
        ((exists e, fst r = Exc e) <-> chat_raises body = true)
        /\ (chat_raises body = false ->
            (forall question, body <> Val (JObject (Some question))) ->
            fst r = Val (Error "No question provided", 400))
        /\ (forall question,
              body = Val (JObject (Some question)) ->
              (forall e,
                 invoke chain question = Exc e ->
                 fst r
                 = Val (Error ("Failed to process question: " ++ e), 500))
              /\ (forall answer source_docs,
                    invoke chain question = Val (answer, source_docs) ->
                    exists citations,
                      fst r = Val (Answer answer citations question, 200)
                      /\ List.length citations = List.length source_docs
                      /\ (forall i doc,
                            source_docs !! i = Some doc ->
                            citations !! i
                            = Some {| cit_id := i + 1;
                                      cit_content :=
                                        format_citation_text
                                          (page_content doc) 3;
                                      cit_source :=
                                        default "Unknown" (source doc);
                                      cit_page := page doc |})
                      /\ Forall (fun c =>
                                   (String.length (cit_content c) <= 300)%nat)
                                citations))).
Proof.
  cbv zeta. split; [apply chat_request_state|]. split.
  { intros H. unfold chat_request. run. now rewrite H. }
  intros chain H.
  split; [now apply chat_request_raises with (chain := chain)|].
  split; [now apply chat_request_no_question with (chain := chain)|].
  intros question ->. rewrite chat_request_object.
  unfold chat. run. rewrite H. split.
  - now intros e ->.
  - intros answer source_docs ->.
    exists (imap citation_of source_docs). split; [reflexivity|].
    split; [apply length_imap|]. split.
    + intros i doc Hd. now rewrite list_lookup_imap, Hd.
    + apply Forall_lookup. intros i c. rewrite list_lookup_imap.
      destruct (source_docs !! i) as [doc|]; [|discriminate].
      intros [= <-]. unfold citation_of. cbn [cit_content].
      rewrite format_citation_text_unfold. apply length_capped.
Qed.

End Answers.

Lemma chat_spec_witness :
  (exists e,
     fst (chat_request (B := Sim.backend true)
            (Val (JArray [JString "question"])) Sim.session_created)
     = Exc e)
  /\ fst (chat_request (B := Sim.backend true)
            (Val (JString "What is the refund policy?")) Sim.session_created)
     = Val (Error "No question provided", 400)
  /\ exists citations,
       fst (chat_request (B := Sim.backend true)
              (Val (JObject (Some "What is the refund policy?")))
              Sim.session_created)
       = Val (Answer "See the cited passages." citations
                "What is the refund policy?", 200).
Proof.
  pose (chain := [ {| page_content :=
                        "Refunds are made within 30 days. Keep the receipt.";
                      source := Some "a.pdf"; file_id := Some "d1";
                      page := Some 0 |} ] : @Chain (Sim.backend true)).
  assert (Hc : qa_chain Sim.session_created = Some chain) by reflexivity.
  split; [|split].
  - destruct (chat_spec (B := Sim.backend true)
                (Val (JArray [JString "question"])) Sim.session_created)
      as (_ & _ & H).
    destruct (H chain Hc) as (H1 & _). now apply H1.
  - destruct (chat_spec (B := Sim.backend true)
                (Val (JString "What is the refund policy?"))
                Sim.session_created) as (_ & _ & H).
    destruct (H chain Hc) as (_ & H2 & _).
    apply H2; [reflexivity | discriminate].
  - destruct (chat_spec (B := Sim.backend true)
                (Val (JObject (Some "What is the refund policy?")))
                Sim.session_created) as (_ & _ & H).
    destruct (H chain Hc) as (_ & _ & H3).
    destruct (H3 _ eq_refl) as [_ H4].
    destruct (H4 _ _ eq_refl) as (citations & E & _).
    now exists citations.
Defined.

(** ** More on the session store *)

Section MoreSessions.

Context `{B : Backend}.

Lemma load_session_vector_store_keeps (session_id : string) (s : State) :
  let s' := snd (load_session_vector_store session_id s) in
  all_documents s' = all_documents s
  /\ document_metadata s' = document_metadata s
  /\ history_file s' = history_file s
  /\ session_file s' = session_file s
  /\ uploads s' = uploads s.
Proof.
  cbv zeta. rewrite load_session_vector_store_step.
  destruct (same_session _ _ && _); [easy|].
  destruct (Chroma _) as [store|e]; [|easy].
  now destruct (RetrievalQA_from_chain_type store).
Qed.

Lemma load_session_vector_store_returns (session_id : string) (s : State) :
  exists b, fst (load_session_vector_store session_id s) = Val b.
Proof.
  rewrite load_session_vector_store_step.
  destruct (same_session _ _ && _); [now eexists|].
  destruct (Chroma _) as [store|e]; [|now eexists].
  destruct (RetrievalQA_from_chain_type store); now eexists.
Qed.

(** X5.  [delete_session] answers 404 and changes nothing for an unknown
    id.  For a stored session it answers 200, removes that session and no
    other, and resets the active session exactly when it was the deleted
    one.  The vector index slot, the QA chain and the registry are never
    touched, also when the slot is bound to the deleted session.  Asking
    for the deleted session afterwards answers 404. *)
Theorem delete_session_spec (session_id : string) (s : State) :
  (sessions (read_sessions s) !! session_id = None ->
   delete_session session_id s
   = (Val (Error "Session not found", 404), s))
  /\ (forall session,
        sessions (read_sessions s) !! session_id = Some session ->
        exists s',
          delete_session session_id s
          = (Val (Message_ ("Session '" ++ name session
                            ++ "' deleted successfully"), 200), s')
          /\ sessions (read_sessions s')
             = delete session_id (sessions (read_sessions s))
          /\ active_session (read_sessions s')
             = (if decide (active_session (read_sessions s)
                           = Some session_id)
                then None else active_session (read_sessions s))
          /\ slot s' = slot s
          /\ qa_chain s' = qa_chain s
          /\ document_metadata s' = document_metadata s
          /\ get_session session_id s'
             = (Val (Error "Session not found", 404), s')).
Proof.
  split.
  - intros H. unfold delete_session. run. now rewrite H.
  - intros session H. unfold delete_session. run. rewrite H.
    eexists. split; [reflexivity|].
    rewrite read_sessions_stored. cbn [sessions active_session].
    split; [reflexivity|]. split.
    { destruct (decide _) as [E|N].
      - apply same_session_eq in E. now rewrite E.
      - destruct (same_session _ _) eqn:E; [|reflexivity].
        now apply same_session_eq in E. }
    repeat split.
    unfold get_session. run. rewrite read_sessions_stored.
    cbn [sessions]. now rewrite lookup_delete_eq.
Qed.

(** X6.  [get_session] answers 404 and changes nothing for an unknown
    id.  For a stored session it answers 200 with that session, whether
    or not an index could be loaded, and makes it the active session
    without changing the stored sessions; the chunk list and the registry
    stay as they were.  When the session has no document snapshot or an
    empty one, the vector index slot and the QA chain are untouched. *)
Theorem get_session_spec (session_id : string) (s : State) :
  (sessions (read_sessions s) !! session_id = None ->
   get_session session_id s = (Val (Error "Session not found", 404), s))
  /\ (forall session,
        sessions (read_sessions s) !! session_id = Some session ->
        exists s',
          get_session session_id s = (Val (Session None session, 200), s')
          /\ read_sessions s'
             = {| sessions := sessions (read_sessions s);
                  active_session := Some session_id |}
          /\ all_documents s' = all_documents s
          /\ document_metadata s' = document_metadata s
          /\ (default ∅ (documents session) = ∅ ->
              slot s' = slot s /\ qa_chain s' = qa_chain s)).
Proof.
  split.
  - intros H. unfold get_session. run. now rewrite H.
  - intros session H. unfold get_session. run. rewrite H.
    set (s1 := set_history_file _ s).
    destruct (bool_decide (0 < size (default ∅ (documents session))))
      eqn:E.
    + pose proof (load_session_vector_store_keeps session_id s1)
        as (Ha & Hd & Hh & _).
      destruct (load_session_vector_store_returns session_id s1)
        as (b & Hb).
      destruct (load_session_vector_store session_id s1) as [r s2];
        cbn [fst snd] in *. subst r.
      eexists. split; [reflexivity|]. split.
      { unfold read_sessions. now rewrite Hh. }
      split; [exact Ha|]. split; [exact Hd|].
      intros Hz. rewrite Hz, map_size_empty in E.
      apply bool_decide_eq_true in E. lia.
    + eexists. split; [reflexivity|]. now repeat split.
Qed.

End MoreSessions.

Section MoreSessions2.

Context `{B : Backend}.

(** X7.  [new_session] answers 201 with a session that has the default
    name "New Chat n+1", no message and the current registry as its
    document snapshot; it stores the session under its id, makes it the
    active one and changes nothing else.  With an id not yet in use the
    number of sessions grows by one and every other session is as
    before.  Asking for the session afterwards answers 200 with it. *)
Theorem new_session_spec (session_id t_created t_updated : string)
    (s : State) :
  let session :=
    {| id := session_id;
       name := "New Chat " ++ pretty (size (sessions (read_sessions s)) + 1);
       created_at := t_created; updated_at := t_updated;
       messages := []; documents := Some (document_metadata s) |} in
  let s' :=
    set_history_file
      (Stored {| sessions :=
                   <[session_id := session]> (sessions (read_sessions s));
                 active_session := Some session_id |}) s in
  new_session session_id t_created t_updated s
  = (Val (Session None session, 201), s')
  /\ (sessions (read_sessions s) !! session_id = None ->
      size (sessions (read_sessions s'))
      = S (size (sessions (read_sessions s))))
  /\ (forall other, other <> session_id ->
        sessions (read_sessions s') !! other
        = sessions (read_sessions s) !! other)
  /\ fst (get_session session_id s') = Val (Session None session, 200).
Proof.
  intros session s'. split.
  - unfold new_session, create_new_session. run.
    rewrite read_sessions_stored. cbn [sessions].
    now rewrite lookup_insert_eq.
  - unfold s'. rewrite read_sessions_stored. cbn [sessions]. split.
    + intros H. now apply map_size_insert_None.
    + split; [intros other N; now rewrite lookup_insert_ne|].
      unfold get_session. run. rewrite read_sessions_stored.
      cbn [sessions]. rewrite lookup_insert_eq.
      set (s1 := set_history_file _ _).
      destruct (bool_decide _); [|reflexivity].
      destruct (load_session_vector_store_returns session_id s1)
        as (b & Hb).
      destruct (load_session_vector_store session_id s1) as [r s2].
      cbn [fst] in Hb. now subst r.
Qed.

(** X8.  For a stored session, [add_message_to_session] adds one message
    and keeps the session's id, creation time and document snapshot; a
    session without snapshot receives the current registry.  The active
    session, the vector index slot, the QA chain and the registry are as
    before. *)
Theorem add_message_to_session_keeps (session_id question answer : string)
    (citations : list Citation) (message_id t_message t_updated : string)
    (session : ChatSession) (s : State) :
  sessions (read_sessions s) !! session_id = Some session ->
  let s' := snd (add_message_to_session session_id question answer
                   citations message_id t_message t_updated s) in
  exists session',
    sessions (read_sessions s') !! session_id = Some session'
    /\ List.length (messages session') = S (List.length (messages session))
    /\ documents session'
       = Some (default (document_metadata s) (documents session))
    /\ id session' = id session
    /\ created_at session' = created_at session
    /\ active_session (read_sessions s') = active_session (read_sessions s)
    /\ slot s' = slot s
    /\ qa_chain s' = qa_chain s
    /\ document_metadata s' = document_metadata s.
Proof.
  intros H. unfold add_message_to_session. run. rewrite H.
  set (appended := with_messages _ _ _).
  set (renamed := if (_ =? 1)%nat then _ else _).
  assert (Hm : List.length (messages renamed)
               = S (List.length (messages session))).
  { unfold renamed, appended. destruct (_ =? 1)%nat;
      cbn [messages with_name with_messages];
      rewrite length_app; cbn [List.length]; lia. }
  assert (Hk : documents renamed = documents session
               /\ id renamed = id session
               /\ created_at renamed = created_at session)
    by (unfold renamed; destruct (_ =? 1)%nat; now repeat split).
  destruct Hk as (Hd & Hi & Hc).
  destruct (documents renamed) as [d|] eqn:D; cbv zeta; cbn [snd];
    rewrite read_sessions_stored; cbn [sessions active_session];
    rewrite lookup_insert_eq; eexists; (split; [reflexivity|]);
    rewrite <- Hd; cbn [documents with_documents messages id created_at];
    repeat split; auto.
Qed.

End MoreSessions2.

Lemma add_message_to_session_keeps_witness :
  sessions (read_sessions Sim.session_created) !! "s1"
  = Some {| id := "s1"; name := "New Chat 1"; created_at := "t2";
            updated_at := "t2"; messages := [];
            documents := Some (document_metadata Sim.session_created) |}
  /\ exists session',
       sessions
         (read_sessions
            (snd (add_message_to_session (B := Sim.backend true) "s1"
                    "What is the refund policy?" "Within 30 days." [] "m1"
                    "t3" "t4" Sim.session_created))) !! "s1"
       = Some session'
       /\ List.length (messages session') = 1%nat.
Proof.
  split; [reflexivity|].
  destruct (add_message_to_session_keeps (B := Sim.backend true) "s1"
              "What is the refund policy?" "Within 30 days." [] "m1" "t3"
              "t4" _ Sim.session_created eq_refl)
    as (session' & L & M & _).
  exists session'. split; [exact L | exact M].
Defined.

(** ** More on the vector index slot *)

Section MoreIndex.

Context `{B : Backend}.

(** X9.  When the slot is not already holding an index bound to the
    requested session and the persisted index opens, the slot takes that
    index and is bound to the session before the QA chain is built, and
    the chunk list stays the one of the previous index.  If the chain is
    built the call returns [True]; if building it fails the call returns
    [False] with the slot already rebound and the previous chain still in
    place, and asking again returns [True] without doing anything. *)
Theorem load_session_vector_store_opened (session_id : string)
    (store : Store) (s : State) :
  (active_session_id s <> Some session_id \/ vector_store s = None) ->
  Chroma ("session_" ++ session_id) = Val store ->
  let r := load_session_vector_store session_id s in
  slot (snd r) = (Some store, all_documents s, Some session_id)
  /\ (forall chain,
        RetrievalQA_from_chain_type store = Val chain ->
        fst r = Val true /\ qa_chain (snd r) = Some chain)
  /\ (forall e,
        RetrievalQA_from_chain_type store = Exc e ->
        fst r = Val false
        /\ qa_chain (snd r) = qa_chain s
        /\ load_session_vector_store session_id (snd r)
           = (Val true, snd r)).
Proof.
  intros H Hc. cbv zeta. rewrite load_session_vector_store_step.
  assert (E : same_session (active_session_id s) (Some session_id)
              && bool_decide (is_Some (vector_store s)) = false).
  { destruct H as [H | ->].
    - destruct (same_session _ _) eqn:E; [|reflexivity].
      now apply same_session_eq in E.
    - rewrite andb_false_r. reflexivity. }
  rewrite E, Hc. cbv zeta.
  destruct (RetrievalQA_from_chain_type store) as [chain|e].
  - split; [reflexivity|]. split.
    + now intros ? [= <-].
    + intros ? [=].
  - split; [reflexivity|]. split; [intros ? [=]|].
    intros ? _. split; [reflexivity|]. split; [reflexivity|].
    rewrite load_session_vector_store_step.
    cbn [active_session_id vector_store set_active_session_id
         set_vector_store].
    now rewrite (proj2 (same_session_eq _ _) eq_refl).
Qed.

Lemma clear_database_request_readable (body : exc (Json bool))
    (now : string) (s : State) :
  clear_readable body = true ->
  clear_database_request body now s
  = clear_database (clear_flag body) now s.
Proof.
  unfold clear_database_request, clear_database. run.
  destruct body as [data|e]; [|discriminate].
  destruct data as [|[|]|n|[|c t]|[|item items]|[[|]|]]; cbn;
    try discriminate; try reflexivity.
  now intros ->.
Qed.

Lemma clear_database_request_unreadable (body : exc (Json bool))
    (now : string) (s : State) :
  clear_readable body = false ->
  exists e,
    clear_database_request body now s
    = (Val (Error ("Failed to clear database: " ++ e), 500), s).
Proof.
  unfold clear_database_request. run.
  destruct body as [data|e]; [|now eexists].
  destruct data as [|[|]|n|[|c t]|[|item items]|[[|]|]]; cbn;
    try discriminate; try (now eexists).
  intros ->. now eexists.
Qed.

(** X10.  [clear_database] never raises.  When [request.get_json()]
    raises, or returns something that is neither falsy nor an object, it
    answers 500 and nothing is cleared: the state is as before.
    Otherwise it answers 200 and leaves no index, no QA chain, an empty
    registry, no chunk and no uploaded file; [session.json] then records
    the empty registry.  The chat sessions are emptied unless the object
    has a falsy ['clear_history'].  The bound session id is not reset.
    Afterwards every question is answered 400 and a restore finds
    nothing. *)
Theorem clear_database_spec (body : exc (Json bool)) (now : string)
    (s : State) :
  let r := clear_database_request body now s in
  (exists response, fst r = Val response)
  /\ (clear_readable body = false ->
      exists e,
        r = (Val (Error ("Failed to clear database: " ++ e), 500), s))
  /\ (forall e,
        body = Exc e ->
        r = (Val (Error ("Failed to clear database: " ++ e), 500), s))
  /\ (clear_readable body = true ->
      fst r
      = Val (Message_
               (if clear_flag body
                then "Database and chat history cleared successfully"
                else "Database cleared successfully. Chat history preserved."),
             200)
      /\ vector_store (snd r) = None
      /\ qa_chain (snd r) = None
      /\ document_metadata (snd r) = ∅
      /\ all_documents (snd r) = []
      /\ uploads (snd r) = ∅
      /\ session_file (snd r)
         = Some {| sf_document_metadata := ∅; last_updated := now |}
      /\ history_file (snd r)
         = (if clear_flag body then Stored no_sessions else history_file s)
      /\ active_session_id (snd r) = active_session_id s
      /\ (forall question,
            fst (chat_request question (snd r))
            = Val (Error
                     "No document uploaded yet. Please upload a document first.",
                   400))
      /\ restore_session (snd r) = (Val false, snd r)).
Proof.
  cbv zeta. split; [|split; [|split]].
  - destruct (clear_readable body) eqn:E.
    + rewrite clear_database_request_readable by exact E.
      unfold clear_database. run.
      destruct (clear_flag body); now eexists.
    + destruct (clear_database_request_unreadable body now s E) as [e ->].
      now eexists.
  - apply clear_database_request_unreadable.
  - now intros e ->.
  - intros E. rewrite clear_database_request_readable by exact E.
    unfold clear_database, chat_request. run.
    destruct (clear_flag body); cbn [fst snd]; repeat split.
Qed.

End MoreIndex.

(** ** Uploads *)

Section Uploads.

Context `{B : Backend}.

Lemma create_vector_store_keeps (chunks : list Document)
    (collection_name : string) (add_to_existing : bool)
    (session_id : option string) (s : State) :
  let s' := snd (create_vector_store chunks collection_name add_to_existing
                   session_id s) in
  qa_chain s' = qa_chain s
  /\ document_metadata s' = document_metadata s
  /\ history_file s' = history_file s
  /\ session_file s' = session_file s
  /\ uploads s' = uploads s.
Proof.
  cbv zeta. rewrite create_vector_store_step.
  destruct (if add_to_existing && _ then vector_store s else None)
    as [store|].
  - unfold extended. cbv zeta. now destruct (add_documents store chunks).
  - unfold rebuilt. cbv zeta. now destruct (Chroma_from_documents chunks _).
Qed.

Lemma initialize_qa_chain_keeps (s : State) :
  let s' := snd (initialize_qa_chain s) in
  document_metadata s' = document_metadata s
  /\ history_file s' = history_file s
  /\ session_file s' = session_file s
  /\ uploads s' = uploads s.
Proof.
  cbv zeta. rewrite initialize_qa_chain_step.
  destruct (vector_store s) as [store|]; [|easy].
  now destruct (RetrievalQA_from_chain_type store).
Qed.

Lemma create_vector_store_uploads (chunks : list Document)
    (collection_name : string) (add_to_existing : bool)
    (session_id : option string) (u : gset string) (s : State) :
  slot (snd (create_vector_store chunks collection_name add_to_existing
               session_id (set_uploads u s)))
  = slot (snd (create_vector_store chunks collection_name add_to_existing
                 session_id s)).
Proof.
  rewrite !create_vector_store_step. unfold extended, rebuilt.
  cbn [active_session_id vector_store set_uploads all_documents].
  destruct (if add_to_existing && _ then vector_store s else None)
    as [store|].
  - now destruct (add_documents store chunks).
  - now destruct (Chroma_from_documents chunks _).
Qed.

(** The course of an upload that passed the checks of the request. *)
Lemma upload_document_step (request : UploadRequest) (file_id now : string)
    (c : ascii) (f : string) (s : State) :
  upload_file request = Some (String c f) ->
  allowed_file (String c f) = true ->
  let name := String c f in
  let s0 := set_uploads ({[ stored_name file_id name ]} ∪ uploads s) s in
  let failed e := Val (Error ("Failed to process document: " ++ e), 500) in
  upload_document request file_id now s =
  match fst (load_document ("uploads/" ++ stored_name file_id name) s) with
  | Exc e => (failed e, s0)
  | Val pages =>
      match create_vector_store (upload_chunks file_id name pages)
              "docuchat" (wants_add request) None s0 with
      | (Exc e, s1) => (failed e, s1)
      | (Val _, s1) =>
          match initialize_qa_chain s1 with
          | (Exc e, s2) => (failed e, s2)
          | (Val _, s2) =>
              let registry :=
                <[file_id := upload_record file_id name pages]>
                  (document_metadata s2) in
              (Val (Uploaded
                      (if wants_add request
                       then "Document added to collection"
                       else "Document uploaded and processed successfully")
                      file_id (secure_filename name)
                      (List.length (upload_chunks file_id name pages))
                      (List.length pages) (size registry), 200),
               set_session_file
                 (Some {| sf_document_metadata := registry;
                          last_updated := now |})
                 (set_document_metadata registry s2))
          end
      end
  end.
Proof.
  intros Hf Ha. cbv zeta. unfold upload_document. rewrite Hf, Ha.
  cbn [negb]. run. fold (wants_add request).
  fold (stored_name file_id (String c f)).
  set (path := "uploads/" ++ _).
  set (s0 := set_uploads _ s).
  pose proof (load_document_state path s0) as Hl.
  rewrite (load_document_value path s s0).
  destruct (load_document path s0) as [[pages|e] s1];
    cbn [fst snd] in *; subst s1; [|reflexivity].
  fold (upload_chunks file_id (String c f) pages).
  destruct (create_vector_store _ "docuchat" _ None s0) as [[store|e] s1];
    [|reflexivity].
  destruct (initialize_qa_chain s1) as [[chain|e] s2]; [|reflexivity].
  unfold upload_record. now rewrite length_map.
Qed.

Lemma acceptable_inv (request : UploadRequest) :
  acceptable request = true ->
  exists c f, upload_file request = Some (String c f)
              /\ allowed_file (String c f) = true.
Proof.
  unfold acceptable. destruct (upload_file request) as [[|c f]|];
    try discriminate. intros H. now exists c, f.
Qed.

(** What an accepted upload leaves, whatever its outcome. *)
Lemma upload_document_trace (request : UploadRequest)
    (file_id now : string) (c : ascii) (f : string) (s : State) :
  upload_file request = Some (String c f) ->
  allowed_file (String c f) = true ->
  let r := upload_document request file_id now s in
  history_file (snd r) = history_file s
  /\ uploads (snd r) = {[ stored_name file_id (String c f) ]} ∪ uploads s
  /\ ((exists e,
         fst r = Val (Error ("Failed to process document: " ++ e), 500)
         /\ document_metadata (snd r) = document_metadata s
         /\ session_file (snd r) = session_file s)
      \/ (exists pages chain,
            fst (load_document
                   ("uploads/" ++ stored_name file_id (String c f)) s)
            = Val pages
            /\ fst r
               = Val (Uploaded
                        (if wants_add request
                         then "Document added to collection"
                         else "Document uploaded and processed successfully")
                        file_id (secure_filename (String c f))
                        (List.length
                           (upload_chunks file_id (String c f) pages))
                        (List.length pages)
                        (size (<[file_id :=
                                  upload_record file_id (String c f) pages]>
                                 (document_metadata s))), 200)
            /\ document_metadata (snd r)
               = <[file_id := upload_record file_id (String c f) pages]>
                   (document_metadata s)
            /\ session_file (snd r)
               = Some {| sf_document_metadata :=
                           <[file_id :=
                               upload_record file_id (String c f) pages]>
                             (document_metadata s);
                         last_updated := now |}
            /\ qa_chain (snd r) = Some chain
            /\ slot (snd r)
               = slot (snd (create_vector_store
                              (upload_chunks file_id (String c f) pages)
                              "docuchat" (wants_add request) None s))
            /\ is_Some (vector_store (snd r)))).
Proof.
  intros Hf Ha. cbv zeta.
  rewrite (upload_document_step request file_id now c f s Hf Ha).
  cbv zeta. set (s0 := set_uploads _ s).
  destruct (fst (load_document _ s)) as [pages|e] eqn:El.
  2:{ split; [reflexivity|]. split; [reflexivity|]. left. now exists e. }
  pose proof (create_vector_store_keeps
                (upload_chunks file_id (String c f) pages) "docuchat"
                (wants_add request) None s0) as (Kq & Kd & Kh & Kf & Ku).
  pose proof (create_vector_store_ungrouped
                (upload_chunks file_id (String c f) pages) "docuchat"
                (wants_add request) s0) as (_ & Kv & _).
  pose proof (create_vector_store_uploads
                (upload_chunks file_id (String c f) pages) "docuchat"
                (wants_add request) None
                ({[stored_name file_id (String c f)]} ∪ uploads s) s)
    as Ks.
  fold s0 in Ks.
  change (history_file s0) with (history_file s) in Kh.
  change (document_metadata s0) with (document_metadata s) in Kd.
  change (session_file s0) with (session_file s) in Kf.
  change (uploads s0)
    with ({[stored_name file_id (String c f)]} ∪ uploads s) in Ku.
  destruct (create_vector_store _ "docuchat" _ None s0) as [[store|e] s1];
    cbn [fst snd] in *.
  2:{ split; [exact Kh|]. split; [exact Ku|]. left. now exists e. }
  pose proof (initialize_qa_chain_keeps s1) as (Id & Ih & If & Iu).
  pose proof (initialize_qa_chain_slot s1) as Is.
  pose proof (initialize_qa_chain_step s1) as It.
  rewrite (Kv store eq_refl) in It.
  destruct (initialize_qa_chain s1) as [[chain|e] s2]; cbn [fst snd] in *.
  2:{ split; [congruence|]. split; [congruence|]. left. exists e.
      split; [reflexivity|]. split; congruence. }
  cbn [history_file uploads document_metadata session_file qa_chain
       set_session_file set_document_metadata].
  split; [congruence|]. split; [congruence|]. right. exists pages, chain.
  rewrite Id, Kd.
  split; [reflexivity|]. split; [reflexivity|]. split; [reflexivity|].
  split; [reflexivity|]. split.
  { destruct (RetrievalQA_from_chain_type store); inversion It.
    reflexivity. }
  split.
  { change (slot (set_session_file _ (set_document_metadata _ s2)))
      with (slot s2). congruence. }
  cbn [vector_store set_session_file set_document_metadata].
  unfold slot in Is. injection Is as -> _ _. rewrite (Kv store eq_refl).
  now eexists.
Qed.

Lemma upload_document_refused (request : UploadRequest)
    (file_id now : string) (s : State) :
  acceptable request = false ->
  exists error,
    upload_document request file_id now s = (Val (Error error, 400), s).
Proof.
  unfold acceptable, upload_document.
  destruct (upload_file request) as [[|c f]|]; [now eexists | |
    now eexists].
  intros ->. now eexists.
Qed.

Lemma upload_document_request_read (content_length : N)
    (request : UploadRequest) (file_id now : string) (s : State) :
  (content_length <= MAX_CONTENT_LENGTH)%N ->
  upload_document_request content_length request file_id now s
  = upload_document request file_id now s.
Proof.
  intros H. unfold upload_document_request.
  now destruct (N.ltb_spec MAX_CONTENT_LENGTH content_length); [lia|].
Qed.

(** X11.  [upload_document] raises when the request announces a body of
    more than [MAX_CONTENT_LENGTH] bytes, and then changes nothing:
    [request.files] is read before the [try].  For a request within the
    limit it answers 400, changing nothing and saving no file, exactly
    when the request has no file part, an empty file name or a name that
    [allowed_file] refuses; every other such request is answered 200 or
    500. *)
Theorem upload_document_outcomes (content_length : N)
    (request : UploadRequest) (file_id now : string) (s : State) :
  let r := upload_document_request content_length request file_id now s in
  ((MAX_CONTENT_LENGTH < content_length)%N -> exists e, r = (Exc e, s))
  /\ ((content_length <= MAX_CONTENT_LENGTH)%N ->
      (acceptable request = false ->
       exists error, r = (Val (Error error, 400), s))
      /\ (acceptable request = true ->
          exists body, fst r = Val (body, 200) \/ fst r = Val (body, 500))).
Proof.
  cbv zeta. split.
  - intros H. unfold upload_document_request.
    destruct (N.ltb_spec MAX_CONTENT_LENGTH content_length); [|lia].
    now eexists.
  - intros H. rewrite (upload_document_request_read _ _ _ _ _ H).
    split; [apply upload_document_refused|]. intros Ha.
    destruct (acceptable_inv request Ha) as (c & f & Hf & Hc).
    destruct (upload_document_trace request file_id now c f s Hf Hc)
      as (_ & _ & [(e & -> & _) | (pages & chain & _ & -> & _)]).
    + eexists. now right.
    + eexists. now left.
Qed.

(** X12.  An accepted upload that is answered 500 leaves the registry,
    [session.json] and the chat sessions as they were: the document is
    not registered.  The uploaded file stays in the uploads folder. *)
Theorem upload_document_failed (request : UploadRequest)
    (file_id now file_name : string) (body : Body) (s : State) :
  upload_file request = Some file_name ->
  fst (upload_document request file_id now s) = Val (body, 500) ->
  let s' := snd (upload_document request file_id now s) in
  document_metadata s' = document_metadata s
  /\ session_file s' = session_file s
  /\ history_file s' = history_file s
  /\ stored_name file_id file_name ∈ uploads s'.
Proof.
  intros Hf Hr. cbv zeta.
  assert (Ha : acceptable request = true).
  { destruct (acceptable request) eqn:E; [reflexivity|].
    destruct (upload_document_refused request file_id now s E)
      as (error & Hx).
    rewrite Hx in Hr. discriminate Hr. }
  destruct (acceptable_inv request Ha) as (c & f & Hf' & Hal).
  assert (file_name = String c f) as -> by congruence.
  destruct (upload_document_trace request file_id now c f s Hf' Hal)
    as (Hh & Hu & [(e & _ & Hd & Hs) | (pages & chain & _ & Hx & _)]).
  - repeat split; try assumption. rewrite Hu.
    apply elem_of_union_l. now apply elem_of_singleton.
  - rewrite Hx in Hr. discriminate Hr.
Qed.

Lemma upload_document_accepted (request : UploadRequest)
    (file_id now : string) (body : Body) (s : State) :
  fst (upload_document request file_id now s) = Val (body, 200) ->
  exists c f, upload_file request = Some (String c f)
              /\ allowed_file (String c f) = true.
Proof.
  intros Hr. apply acceptable_inv.
  destruct (acceptable request) eqn:E; [reflexivity|].
  destruct (upload_document_refused request file_id now s E)
    as (error & Hx).
  rewrite Hx in Hr. discriminate Hr.
Qed.

(** X13.  An upload that is answered 200 has loaded the pages of the
    saved file and registered the document under its id, with the secured
    file name, the number of chunks and the number of pages; the response
    reports these and the size of the registry.  [session.json] records
    the new registry, the file is in the uploads folder, an index and a QA
    chain are in place, the chat sessions are untouched, and no question
    is rejected for want of a document any more. *)
Theorem upload_document_registered (request : UploadRequest)
    (file_id now : string) (body : Body) (s : State) :
  fst (upload_document request file_id now s) = Val (body, 200) ->
  let s' := snd (upload_document request file_id now s) in
  exists file_name pages,
    upload_file request = Some file_name
    /\ fst (load_document ("uploads/" ++ stored_name file_id file_name) s)
       = Val pages
    /\ document_metadata s'
       = <[file_id := upload_record file_id file_name pages]>
           (document_metadata s)
    /\ body
       = Uploaded
           (if wants_add request then "Document added to collection"
            else "Document uploaded and processed successfully")
           file_id (secure_filename file_name)
           (List.length (upload_chunks file_id file_name pages))
           (List.length pages) (size (document_metadata s'))
    /\ session_file s'
       = Some {| sf_document_metadata := document_metadata s';
                 last_updated := now |}
    /\ uploads s' = {[ stored_name file_id file_name ]} ∪ uploads s
    /\ history_file s' = history_file s
    /\ is_Some (vector_store s')
    /\ is_Some (qa_chain s')
    /\ (forall question,
          fst (chat question s')
          <> Val (Error
                    "No document uploaded yet. Please upload a document first.",
                  400)).
Proof.
  intros Hr. cbv zeta.
  destruct (upload_document_accepted request file_id now body s Hr)
    as (c & f & Hf & Ha).
  destruct (upload_document_trace request file_id now c f s Hf Ha)
    as (Hh & Hu & [(e & Hx & _)
                  | (pages & chain & Hl & Hx & Hd & Hs & Hq & _ & Hv)]).
  { rewrite Hx in Hr. discriminate Hr. }
  exists (String c f), pages. rewrite Hd.
  split; [exact Hf|]. split; [exact Hl|]. split; [reflexivity|].
  split; [congruence|]. split; [exact Hs|]. split; [exact Hu|].
  split; [exact Hh|]. split; [exact Hv|]. split; [now rewrite Hq|].
  intros question. unfold chat. run. rewrite Hq.
  destruct question as [q|]; [|discriminate].
  destruct (invoke chain q) as [[answer docs]|e]; discriminate.
Qed.

(** X14.  After an upload that is answered 200, the chunk list is the
    previous one followed by the chunks of the new file when the request
    asked to add, an index existed and the slot was unbound; in every
    other case it holds the chunks of the new file alone.  Either way the
    records of the documents uploaded before stay in the registry. *)
Theorem upload_document_chunks (request : UploadRequest)
    (file_id now file_name : string) (pages : list Document) (body : Body)
    (s : State) :
  fst (upload_document request file_id now s) = Val (body, 200) ->
  upload_file request = Some file_name ->
  fst (load_document ("uploads/" ++ stored_name file_id file_name) s)
  = Val pages ->
  let s' := snd (upload_document request file_id now s) in
  let chunks := upload_chunks file_id file_name pages in
  (wants_add request = true -> is_Some (vector_store s) ->
   active_session_id s = None ->
   all_documents s' = (all_documents s ++ chunks)%list)
  /\ ((wants_add request = false \/ vector_store s = None
       \/ active_session_id s <> None) ->
      all_documents s' = chunks)
  /\ (forall other, other <> file_id ->
        document_metadata s' !! other = document_metadata s !! other).
Proof.
  intros Hr Hn Hp. cbv zeta.
  destruct (upload_document_accepted request file_id now body s Hr)
    as (c & f & Hf & Ha).
  assert (file_name = String c f) as -> by congruence.
  destruct (upload_document_trace request file_id now c f s Hf Ha)
    as (_ & _ & [(e & Hx & _)
                | (pages' & chain & Hl & _ & Hd & _ & _ & Hs & _)]).
  { rewrite Hx in Hr. discriminate Hr. }
  assert (pages' = pages) as -> by congruence.
  assert (Hc : all_documents
                 (snd (upload_document request file_id now s))
               = all_documents
                   (snd (create_vector_store
                           (upload_chunks file_id (String c f) pages)
                           "docuchat" (wants_add request) None s)))
    by (unfold slot in Hs; congruence).
  rewrite Hc, Hd, create_vector_store_step. split; [|split].
  - intros -> [store Hv] ->. rewrite Hv. cbn [andb same_session].
    unfold extended. cbv zeta. now destruct (add_documents store _).
  - intros H.
    assert (E : (if wants_add request
                    && same_session (active_session_id s) None
                 then vector_store s else None) = None).
    { destruct H as [-> | [-> | H]]; [reflexivity | |].
      - now destruct (_ && _).
      - destruct (active_session_id s); [|congruence].
        now rewrite andb_false_r. }
    rewrite E. unfold rebuilt. cbv zeta.
    now destruct (Chroma_from_documents _ _).
  - intros other N. now rewrite lookup_insert_ne.
Qed.

End Uploads.

(** ** Uploading and removing *)

Section RoundTrips.

Context `{B : Backend}.

Lemma remove_document_last (file_id' now : string) (meta : DocMeta)
    (s : State) :
  document_metadata s !! file_id' = Some meta ->
  List.filter (other_document file_id') (all_documents s) = [] ->
  remove_document file_id' now s
  = (Val (Removed ("Document '" ++ filename meta
                   ++ "' removed successfully")
                  (size (delete file_id' (document_metadata s))), 200),
     set_session_file
       (Some {| sf_document_metadata := delete file_id' (document_metadata s);
                last_updated := now |})
       (set_all_documents []
          (set_qa_chain None
             (set_vector_store None
                (set_uploads
                   (filter (fun f => starts_with file_id' f = false)
                           (uploads s))
                   (set_document_metadata
                      (delete file_id' (document_metadata s)) s)))))).
Proof.
  intros H E. unfold remove_document. run. now rewrite H, E.
Qed.

Lemma remove_document_rebuild (file_id' now : string) (meta : DocMeta)
    (store : Store) (chain : Chain) (s : State) :
  document_metadata s !! file_id' = Some meta ->
  let remaining :=
    List.filter (other_document file_id') (all_documents s) in
  remaining <> [] ->
  Chroma_from_documents remaining "docuchat_multi" = Val store ->
  RetrievalQA_from_chain_type store = Val chain ->
  let r := remove_document file_id' now s in
  fst r = Val (Removed ("Document '" ++ filename meta
                        ++ "' removed successfully")
                       (size (delete file_id' (document_metadata s))), 200)
  /\ slot (snd r) = (Some store, remaining, None)
  /\ qa_chain (snd r) = Some chain
  /\ document_metadata (snd r) = delete file_id' (document_metadata s).
Proof.
  intros H remaining N Hc Hq. cbv zeta. unfold remove_document. run.
  rewrite H. fold remaining. destruct remaining as [|d l] eqn:E; [easy|].
  rewrite create_vector_store_rebuild. unfold rebuilt.
  cbn [collection_for]. rewrite Hc, initialize_qa_chain_step.
  cbn [vector_store set_vector_store]. now rewrite Hq.
Qed.

Lemma upload_chunks_file_id (file_id' file_name : string)
    (pages : list Document) :
  splitter_keeps_file_id ->
  List.filter (other_document file_id')
              (upload_chunks file_id' file_name pages) = [].
Proof.
  intros K. unfold upload_chunks, chunk_documents.
  assert (H : forall d,
             In d (split_documents 1000 200
                     (map (tag_document (secure_filename file_name)
                                        file_id') pages)) ->
             other_document file_id' d = false).
  { intros d Hd. destruct (K _ _ _ _ Hd) as (d0 & H0 & E).
    apply in_map_iff in H0 as (p & <- & _).
    unfold other_document. rewrite E. cbn [file_id tag_document].
    now rewrite String.eqb_refl. }
  induction (split_documents 1000 200 _) as [|d l IH]; [reflexivity|].
  cbn [List.filter]. rewrite (H d (or_introl eq_refl)).
  apply IH. intros d' Hd'. apply H. now right.
Qed.

Lemma other_document_kept (a file_id' file_name : string)
    (pages : list Document) :
  splitter_keeps_file_id -> a <> file_id' ->
  List.filter (other_document a) (upload_chunks file_id' file_name pages)
  = upload_chunks file_id' file_name pages.
Proof.
  intros K N. unfold upload_chunks, chunk_documents.
  assert (H : forall d,
             In d (split_documents 1000 200
                     (map (tag_document (secure_filename file_name)
                                        file_id') pages)) ->
             other_document a d = true).
  { intros d Hd. destruct (K _ _ _ _ Hd) as (d0 & H0 & E).
    apply in_map_iff in H0 as (p & <- & _).
    unfold other_document. rewrite E. cbn [file_id tag_document].
    apply negb_true_iff, String.eqb_neq. congruence. }
  induction (split_documents 1000 200 _) as [|d l IH]; [reflexivity|].
  cbn [List.filter]. rewrite (H d (or_introl eq_refl)). f_equal.
  apply IH. intros d' Hd'. apply H. now right.
Qed.

(** X15.  Provided the splitter copies the [file_id] of what it splits:
    after an upload answered 200 that replaced the chunk list, removing
    the uploaded document answers 200 and leaves no index, no QA chain and
    no chunk; the registry is the one from before the upload without that
    id, and no file of the uploads folder starts with the id. *)
Theorem upload_then_remove (request : UploadRequest)
    (file_id now now' : string) (body : Body) (s : State) :
  splitter_keeps_file_id ->
  fst (upload_document request file_id now s) = Val (body, 200) ->
  (wants_add request = false \/ vector_store s = None
   \/ active_session_id s <> None) ->
  let r := remove_document file_id now'
             (snd (upload_document request file_id now s)) in
  (exists message,
     fst r = Val (Removed message
                    (size (delete file_id (document_metadata s))), 200))
  /\ vector_store (snd r) = None
  /\ qa_chain (snd r) = None
  /\ all_documents (snd r) = []
  /\ document_metadata (snd r) = delete file_id (document_metadata s)
  /\ (forall f, f ∈ uploads (snd r) -> starts_with file_id f = false).
Proof.
  intros K Hr Hc. cbv zeta.
  destruct (upload_document_accepted request file_id now body s Hr)
    as (c & f & Hf & Ha).
  destruct (upload_document_trace request file_id now c f s Hf Ha)
    as (_ & _ & [(e & Hx & _)
                | (pages & chain & _ & _ & Hd & _ & _ & Hs & _)]).
  { rewrite Hx in Hr. discriminate Hr. }
  set (s1 := snd (upload_document request file_id now s)) in *.
  assert (Hall : all_documents s1
                 = upload_chunks file_id (String c f) pages).
  { unfold slot in Hs. injection Hs as _ -> _.
    rewrite create_vector_store_step.
    assert (E : (if wants_add request
                    && same_session (active_session_id s) None
                 then vector_store s else None) = None).
    { destruct Hc as [-> | [-> | H]]; [reflexivity | |].
      - now destruct (_ && _).
      - destruct (active_session_id s); [|congruence].
        now rewrite andb_false_r. }
    rewrite E. unfold rebuilt. cbv zeta.
    now destruct (Chroma_from_documents _ _). }
  rewrite (remove_document_last file_id now'
             (upload_record file_id (String c f) pages) s1).
  - cbn [fst snd vector_store qa_chain all_documents document_metadata
         uploads set_session_file set_all_documents set_qa_chain
         set_vector_store set_uploads set_document_metadata].
    rewrite Hd, delete_insert_eq.
    split; [now eexists|]. repeat split.
    intros g Hg. now apply elem_of_filter in Hg as [Hg _].
  - rewrite Hd. apply lookup_insert_eq.
  - rewrite Hall. now apply upload_chunks_file_id.
Qed.

(** X16.  Provided the splitter copies the [file_id] of what it splits:
    after an upload answered 200 that added the chunks of document
    [file_id] to the index, removing another registered document [a]
    rebuilds the slot, when the index and the chain can be built, from the
    earlier chunks that are not of [a] followed by all chunks of the
    uploaded file, and the uploaded document stays registered. *)
Theorem add_then_remove_other (request : UploadRequest)
    (file_id now now' a file_name : string) (pages : list Document)
    (body : Body) (meta : DocMeta) (store : Store) (chain : Chain)
    (s : State) :
  splitter_keeps_file_id ->
  a <> file_id ->
  document_metadata s !! a = Some meta ->
  wants_add request = true ->
  is_Some (vector_store s) ->
  active_session_id s = None ->
  upload_file request = Some file_name ->
  fst (load_document ("uploads/" ++ stored_name file_id file_name) s)
  = Val pages ->
  fst (upload_document request file_id now s) = Val (body, 200) ->
  let remaining :=
    (List.filter (other_document a) (all_documents s)
     ++ upload_chunks file_id file_name pages)%list in
  remaining <> [] ->
  Chroma_from_documents remaining "docuchat_multi" = Val store ->
  RetrievalQA_from_chain_type store = Val chain ->
  let r := remove_document a now'
             (snd (upload_document request file_id now s)) in
  (exists message, fst r = Val (Removed message
                                  (size (document_metadata (snd r))), 200))
  /\ slot (snd r) = (Some store, remaining, None)
  /\ qa_chain (snd r) = Some chain
  /\ document_metadata (snd r)
     = <[file_id := upload_record file_id file_name pages]>
         (delete a (document_metadata s)).
Proof.
  intros K N Hm Hw [st Hv] Hact Hn Hp Hr remaining Hne Hc Hq. cbv zeta.
  destruct (upload_document_accepted request file_id now body s Hr)
    as (c & f & Hf & Ha).
  assert (file_name = String c f) as -> by congruence.
  destruct (upload_document_trace request file_id now c f s Hf Ha)
    as (_ & _ & [(e & Hx & _)
                | (pages' & chain' & Hl & _ & Hd & _ & _ & Hs & _)]).
  { rewrite Hx in Hr. discriminate Hr. }
  assert (pages' = pages) as -> by congruence.
  set (s1 := snd (upload_document request file_id now s)) in *.
  assert (Hall : all_documents s1
                 = (all_documents s
                    ++ upload_chunks file_id (String c f) pages)%list).
  { unfold slot in Hs. injection Hs as _ -> _.
    rewrite create_vector_store_step, Hw, Hact, Hv. cbn [andb same_session].
    unfold extended. cbv zeta. now destruct (add_documents st _). }
  assert (Hrem : List.filter (other_document a) (all_documents s1)
                 = remaining).
  { rewrite Hall, List.filter_app. unfold remaining.
    now rewrite other_document_kept. }
  assert (Hm1 : document_metadata s1 !! a = Some meta)
    by (rewrite Hd, lookup_insert_ne; congruence).
  destruct (remove_document_rebuild a now' meta store chain s1 Hm1)
    as (H1 & H2 & H3 & H4); rewrite ?Hrem; try assumption.
  split; [rewrite H1, H4; now eexists|].
  rewrite H4, Hd, delete_insert_ne by congruence.
  cbv zeta in H2. rewrite Hrem in H2. now repeat split.
Qed.

End RoundTrips.

(** ** Loading *)

Section Loading.

Context `{B : Backend}.

Lemma after_last_append (c : ascii) (p name : string) :
  PyStr.contains_char c name = true ->
  PyStr.after_last c (p ++ name) = PyStr.after_last c name.
Proof.
  intros H. induction p as [|d p IH]; [reflexivity|].
  rewrite append_cons. simpl. rewrite IH.
  destruct (PyStr.after_last c name) eqn:E; [reflexivity|].
  apply after_last_none in E. congruence.
Qed.

Lemma load_document_by_extension (path ext : string) (s : State) :
  PyStr.after_last "." path = Some ext ->
  fst (load_document path s) =
  if String.eqb (PyStr.lower_str ext) "pdf" then PyPDFLoader_load path
  else if str_in (PyStr.lower_str ext) ["docx"; "doc"] then word_pages path
  else Exc ("Unsupported file type: " ++ PyStr.lower_str ext).
Proof.
  intros H. unfold load_document, word_pages. rewrite H. run.
  destruct (String.eqb _ "pdf").
  - now destruct (PyPDFLoader_load path).
  - destruct (str_in _ _); [|reflexivity].
    destruct (UnstructuredWordDocumentLoader_load path); [reflexivity|].
    now destruct (docx_paragraphs path).
Qed.

(** X17.  [load_document] never changes the state.  A path without a dot
    raises; a path whose extension is not "pdf", "docx" or "doc" (in any
    case) raises "Unsupported file type".  A file name that
    [allowed_file] accepts, under any folder and prefix, is never
    unsupported: it is read by the PDF loader or as a Word file, where a
    failure of the unstructured loader falls back to the paragraphs of
    the file. *)
Theorem load_document_spec (folder name : string) (s : State) :
  snd (load_document (folder ++ name) s) = s
  /\ (PyStr.contains_char "." (folder ++ name) = false ->
      fst (load_document (folder ++ name) s)
      = Exc "list index out of range")
  /\ (forall ext,
        PyStr.after_last "." (folder ++ name) = Some ext ->
        ~ In (PyStr.lower_str ext) ALLOWED_EXTENSIONS ->
        fst (load_document (folder ++ name) s)
        = Exc ("Unsupported file type: " ++ PyStr.lower_str ext))
  /\ (allowed_file name = true ->
      fst (load_document (folder ++ name) s)
      = PyPDFLoader_load (folder ++ name)
      \/ fst (load_document (folder ++ name) s)
         = word_pages (folder ++ name)).
Proof.
  split; [apply load_document_state|]. split; [|split].
  - intros H. apply after_last_none in H. unfold load_document.
    now rewrite H.
  - intros ext H N. rewrite (load_document_by_extension _ ext s H).
    destruct (String.eqb_spec (PyStr.lower_str ext) "pdf") as [E|_].
    { exfalso. apply N. rewrite E. now left. }
    destruct (str_in _ _) eqn:E; [|reflexivity].
    exfalso. apply N. apply str_in_In in E. now right.
  - intros H. unfold allowed_file in H. apply andb_prop in H as [Hd H].
    destruct (PyStr.after_last "." name) as [ext|] eqn:E; [|discriminate].
    rewrite <- (after_last_append "." folder name Hd) in E.
    rewrite (load_document_by_extension _ ext s E).
    destruct (String.eqb_spec (PyStr.lower_str ext) "pdf") as [_|N];
      [now left|].
    right. apply str_in_In in H. destruct H as [H|H]; [congruence|].
    apply str_in_In in H. now rewrite H.
Qed.

End Loading.

(** ** Restoring *)

Section Restoring.

Context `{B : Backend}.

Lemma reload_documents_state (items : list (string * DocMeta))
    (listing : list string) (s : State) :
  snd (reload_documents items listing s) = s.
Proof.
  induction items as [|[k m] items IH]; [reflexivity|].
  cbn [reload_documents]. run.
  destruct (find (starts_with k) listing) as [stored|].
  - pose proof (load_document_state ("uploads/" ++ stored) s) as Hl.
    destruct (load_document _ s) as [[pages|e] s1]; cbn [snd] in Hl;
      subst s1; [|reflexivity].
    destruct (reload_documents items listing s) as [[l|e] s1];
      cbn [snd] in IH; now subst s1.
  - destruct (reload_documents items listing s) as [[l|e] s1];
      cbn [snd] in IH; now subst s1.
Qed.

Lemma reload_documents_no_file (items : list (string * DocMeta))
    (listing : list string) (s : State) :
  (forall k m, In (k, m) items -> find (starts_with k) listing = None) ->
  reload_documents items listing s = (Val [], s).
Proof.
  induction items as [|[k m] items IH]; intros H; [reflexivity|].
  cbn [reload_documents]. run.
  rewrite (H k m (or_introl eq_refl)), IH; [reflexivity|].
  intros k' m' Hin. apply (H k' m'). now right.
Qed.

Lemma find_no_match (p : string -> bool) (l : list string) :
  (forall x, In x l -> p x = false) -> find p l = None.
Proof.
  induction l as [|x l IH]; intros H; [reflexivity|]. simpl.
  rewrite (H x (or_introl eq_refl)). apply IH. intros y Hy. apply H.
  now right.
Qed.

Lemma restore_session_step (s : State) :
  restore_session s =
  match session_file s with
  | None => (Val false, s)
  | Some data =>
      let s1 := set_document_metadata (sf_document_metadata data) s in
      if bool_decide (sf_document_metadata data = ∅) then (Val false, s1)
      else
        match fst (reload_documents
                     (map_to_list (sf_document_metadata data))
                     (elements (uploads s)) s1) with
        | Exc _ => (Val false, s1)
        | Val [] => (Val false, s1)
        | Val (d :: l) =>
            match rebuilt (d :: l) "docuchat_multi" None s1 with
            | (Exc _, s2) => (Val false, s2)
            | (Val _, s2) =>
                match initialize_qa_chain s2 with
                | (Val _, s3) => (Val true, s3)
                | (Exc _, s3) => (Val false, s3)
                end
            end
        end
  end.
Proof.
  unfold restore_session, load_session_state. run.
  destruct (session_file s) as [data|]; [|reflexivity].
  destruct (bool_decide _); [reflexivity|]. cbv zeta.
  cbn [document_metadata uploads set_document_metadata].
  set (s1 := set_document_metadata _ s).
  pose proof (reload_documents_state
                (map_to_list (sf_document_metadata data))
                (elements (uploads s)) s1) as Hs.
  destruct (reload_documents _ _ s1) as [[[|d l]|e] s2];
    cbn [fst snd] in *; subst s2; try reflexivity.
  rewrite create_vector_store_rebuild. cbn [collection_for].
  destruct (rebuilt (d :: l) "docuchat_multi" None s1) as [[st|e] s2];
    [|reflexivity].
  now destruct (initialize_qa_chain s2) as [[ch|e] s3].
Qed.

(** X18.  [restore_session] never raises.  Without [session.json] it
    returns [False] and changes nothing.  With it, the registry becomes
    the persisted one whatever the outcome, and the files on disk are not
    touched; when no file of the uploads folder starts with a registered
    id the result is [False] and the index, the chain and the chunk list
    are as before.  It returns [True] only with an index and a QA chain in
    place, a chunk list that is not empty and the slot unbound. *)
Theorem restore_session_spec (s : State) :
  let r := restore_session s in
  (exists b, fst r = Val b)
  /\ (session_file s = None -> r = (Val false, s))
  /\ (forall data,
        session_file s = Some data ->
        document_metadata (snd r) = sf_document_metadata data
        /\ history_file (snd r) = history_file s
        /\ session_file (snd r) = session_file s
        /\ uploads (snd r) = uploads s)
  /\ (forall data,
        session_file s = Some data ->
        (forall k f, is_Some (sf_document_metadata data !! k) ->
                     f ∈ uploads s -> starts_with k f = false) ->
        r = (Val false,
             set_document_metadata (sf_document_metadata data) s))
  /\ (fst r = Val true ->
      is_Some (vector_store (snd r))
      /\ is_Some (qa_chain (snd r))
      /\ active_session_id (snd r) = None
      /\ all_documents (snd r) <> []).
Proof.
  cbv zeta. rewrite restore_session_step.
  destruct (session_file s) as [data|] eqn:Ef.
  2:{ split; [now eexists|]. split; [reflexivity|].
      split; [discriminate|]. split; [discriminate|]. discriminate. }
  cbv zeta. set (s1 := set_document_metadata _ s).
  assert (Hno : (forall k f, is_Some (sf_document_metadata data !! k) ->
                             f ∈ uploads s -> starts_with k f = false) ->
                reload_documents (map_to_list (sf_document_metadata data))
                                 (elements (uploads s)) s1
                = (Val [], s1)).
  { intros H. apply reload_documents_no_file. intros k m Hin.
    apply find_no_match. intros x Hx. apply (H k x).
    - exists m. apply elem_of_map_to_list. now apply list_elem_of_In.
    - apply elem_of_elements. now apply list_elem_of_In. }
  destruct (bool_decide _).
  { split; [now eexists|]. split; [discriminate|].
    split; [now intros ? [= <-]|]. split; [now intros ? [= <-]|].
    discriminate. }
  destruct (fst (reload_documents _ _ s1)) as [[|d l]|e] eqn:Er.
  1,3: (split; [now eexists|]); (split; [discriminate|]);
       (split; [now intros ? [= <-]|]); (split; [now intros ? [= <-]|]);
       discriminate.
  assert (Hne : ~ (forall k f, is_Some (sf_document_metadata data !! k) ->
                               f ∈ uploads s -> starts_with k f = false)).
  { intros H. rewrite (Hno H) in Er. discriminate Er. }
  unfold rebuilt. cbv zeta.
  destruct (Chroma_from_documents (d :: l) "docuchat_multi") as [st|e].
  2:{ split; [now eexists|]. split; [discriminate|].
      split; [now intros ? [= <-]|]. split; [intros ? [= <-] H; destruct (Hne H)|].
      discriminate. }
  rewrite initialize_qa_chain_step. cbn [vector_store set_vector_store].
  destruct (RetrievalQA_from_chain_type st) as [ch|e];
    (split; [now eexists|]); (split; [discriminate|]);
    (split; [now intros ? [= <-]|]); (split; [intros ? [= <-] H; destruct (Hne H)|]).
  - intros _. cbn. split; [now eexists|]. split; [now eexists|].
    split; [reflexivity | discriminate].
  - discriminate.
Qed.

End Restoring.

(** ** Listing the sessions *)

Section Listing.

Context `{B : Backend}.

Lemma ltb_false_le (a b : string) : String.ltb a b = false -> String.le b a.
Proof.
  unfold String.ltb, String.le, String.leb.
  rewrite (String.compare_antisym a b).
  now destruct (String.compare b a).
Qed.

Lemma ltb_true_le (a b : string) : String.ltb a b = true -> String.le a b.
Proof.
  unfold String.ltb, String.le, String.leb.
  now destruct (String.compare a b).
Qed.

Lemma insert_newest_first_perm (x : ChatSession) (l : list ChatSession) :
  insert_newest_first x l ≡ₚ x :: l.
Proof.
  induction l as [|y l IH]; [reflexivity|]. simpl.
  destruct (String.ltb _ _); [|reflexivity].
  rewrite IH. apply Permutation_swap.
Qed.

Lemma sort_newest_first_perm (l : list ChatSession) :
  sort_newest_first l ≡ₚ l.
Proof.
  induction l as [|x l IH]; [reflexivity|].
  unfold sort_newest_first in *. simpl.
  now rewrite insert_newest_first_perm, IH.
Qed.

Lemma insert_newest_first_sorted (x : ChatSession) (l : list ChatSession) :
  Sorted (fun a b => not_older (summary a) (summary b)) l ->
  Sorted (fun a b => not_older (summary a) (summary b))
         (insert_newest_first x l).
Proof.
  induction l as [|y l IH]; intros H; simpl.
  - repeat constructor.
  - destruct (String.ltb _ _) eqn:E.
    + apply Sorted_inv in H as [Hs Hh]. constructor; [now apply IH|].
      destruct l as [|z l]; simpl.
      * constructor. now apply ltb_true_le.
      * destruct (String.ltb (updated_at x) (updated_at z)).
        -- constructor. now apply HdRel_inv in Hh.
        -- constructor. now apply ltb_true_le.
    + constructor; [exact H|]. constructor. now apply ltb_false_le.
Qed.

Lemma sort_newest_first_sorted (l : list ChatSession) :
  Sorted (fun a b => not_older (summary a) (summary b))
         (sort_newest_first l).
Proof.
  induction l as [|x l IH]; [constructor|].
  now apply insert_newest_first_sorted.
Qed.

Lemma sorted_summaries (l : list ChatSession) :
  Sorted (fun a b => not_older (summary a) (summary b)) l ->
  Sorted not_older (map summary l).
Proof.
  induction 1 as [|x r Hs IH Hh]; [constructor|].
  simpl. constructor; [exact IH|].
  destruct Hh; simpl; now constructor.
Qed.

(** X19.  [get_chat_sessions] answers 200 without changing the state.
    The list has one entry for every stored session and no other, with
    the session's id, name, times and number of messages; it is sorted by
    [updated_at], newest first; the count is the number of sessions, and
    the active session is reported as stored. *)
Theorem get_chat_sessions_spec (s : State) :
  exists summaries,
    get_chat_sessions s
    = (Val (SessionList summaries (active_session (read_sessions s))
                        (size (sessions (read_sessions s))), 200), s)
    /\ StronglySorted not_older summaries
    /\ summaries
       ≡ₚ map (fun kc => summary (snd kc))
              (map_to_list (sessions (read_sessions s)))
    /\ (forall c, In (summary c) summaries
                  <-> exists k c', sessions (read_sessions s) !! k = Some c'
                                   /\ summary c' = summary c).
Proof.
  set (l := map snd (map_to_list (sessions (read_sessions s)))).
  exists (map summary (sort_newest_first l)).
  assert (Hp : map summary (sort_newest_first l)
               ≡ₚ map (fun kc => summary (snd kc))
                      (map_to_list (sessions (read_sessions s)))).
  { rewrite sort_newest_first_perm. unfold l.
    now rewrite map_map. }
  split; [|split; [|split; [exact Hp|]]].
  - unfold get_chat_sessions. run. fold l.
    rewrite length_map.
    rewrite (Permutation_length (sort_newest_first_perm l)).
    unfold l. now rewrite length_map, length_map_to_list.
  - apply Sorted_StronglySorted.
    + intros a b c Hab Hbc. unfold not_older in *.
      now transitivity (summary_updated_at b).
    + apply sorted_summaries, sort_newest_first_sorted.
  - intros c. rewrite <- list_elem_of_In, Hp, list_elem_of_In.
    rewrite in_map_iff. split.
    + intros ([k c'] & E & Hin). exists k, c'. split; [|exact E].
      now apply elem_of_map_to_list, list_elem_of_In.
    + intros (k & c' & Hl & E). exists (k, c'). split; [exact E|].
      now apply list_elem_of_In, elem_of_map_to_list.
Qed.

End Listing.

(** ** Invariants of the routes *)

Section Invariants.

Context `{B : Backend}.

Lemma create_vector_store_chain_has_store (chunks : list Document)
    (collection_name : string) (add_to_existing : bool)
    (session_id : option string) (s : State) :
  chain_has_store s ->
  chain_has_store
    (snd (create_vector_store chunks collection_name add_to_existing
            session_id s)).
Proof.
  unfold chain_has_store. rewrite create_vector_store_step.
  destruct (if add_to_existing && _ then vector_store s else None)
    as [store|] eqn:E.
  - unfold extended. cbv zeta.
    destruct (add_documents store chunks); cbn; intros H Hq;
      [now eexists|].
    destruct (add_to_existing && _); [|discriminate]. rewrite E.
    now eexists.
  - unfold rebuilt. cbv zeta.
    destruct (Chroma_from_documents chunks _); cbn; intros H Hq;
      [now eexists | now apply H].
Qed.

Lemma initialize_qa_chain_chain_has_store (s : State) :
  chain_has_store s -> chain_has_store (snd (initialize_qa_chain s)).
Proof.
  unfold chain_has_store. rewrite initialize_qa_chain_step. intros H.
  destruct (vector_store s) as [store|] eqn:E.
  - destruct (RetrievalQA_from_chain_type store); cbn; rewrite ?E; eauto.
  - cbn. now rewrite E.
Qed.

Lemma load_session_vector_store_chain_has_store (session_id : string)
    (s : State) :
  chain_has_store s ->
  chain_has_store (snd (load_session_vector_store session_id s)).
Proof.
  unfold chain_has_store. rewrite load_session_vector_store_step.
  destruct (_ && _); [easy|].
  destruct (Chroma _) as [store|e]; [|easy].
  destruct (RetrievalQA_from_chain_type store); cbn; eauto.
Qed.

Lemma upload_document_chain_has_store (request : UploadRequest)
    (file_id now : string) (s : State) :
  chain_has_store s ->
  chain_has_store (snd (upload_document request file_id now s)).
Proof.
  intros H. destruct (acceptable request) eqn:E.
  - destruct (acceptable_inv request E) as (c & f & Hf & Ha).
    rewrite (upload_document_step request file_id now c f s Hf Ha).
    cbv zeta. set (s0 := set_uploads _ s).
    assert (H0 : chain_has_store s0) by exact H.
    destruct (fst (load_document _ s)) as [pages|e]; [|exact H0].
    pose proof (create_vector_store_chain_has_store
                  (upload_chunks file_id (String c f) pages) "docuchat"
                  (wants_add request) None s0 H0) as H1.
    destruct (create_vector_store _ _ _ _ s0) as [[store|e] s1];
      cbn [snd] in H1; [|exact H1].
    pose proof (initialize_qa_chain_chain_has_store s1 H1) as H2.
    destruct (initialize_qa_chain s1) as [[chain|e] s2];
      cbn [snd] in H2; exact H2.
  - destruct (upload_document_refused request file_id now s E)
      as (error & ->). exact H.
Qed.

Lemma remove_document_chain_has_store (file_id' now : string) (s : State) :
  chain_has_store s ->
  chain_has_store (snd (remove_document file_id' now s)).
Proof.
  intros H. unfold remove_document. run.
  destruct (document_metadata s !! file_id') as [meta|]; [|exact H].
  destruct (List.filter (other_document file_id') (all_documents s))
    as [|d l]; [now intros [? [=]]|].
  set (s0 := set_all_documents _ _).
  assert (H0 : chain_has_store s0) by exact H.
  pose proof (create_vector_store_chain_has_store (d :: l)
                "docuchat_multi" false None s0 H0) as H1.
  destruct (create_vector_store _ _ _ _ s0) as [[store|e] s1];
    cbn [snd] in H1; [|exact H1].
  pose proof (initialize_qa_chain_chain_has_store s1 H1) as H2.
  destruct (initialize_qa_chain s1) as [[chain|e] s2];
    cbn [snd] in H2; exact H2.
Qed.

Lemma restore_session_chain_has_store (s : State) :
  chain_has_store s -> chain_has_store (snd (restore_session s)).
Proof.
  intros H. rewrite restore_session_step.
  destruct (session_file s) as [data|]; [|exact H].
  cbv zeta. set (s1 := set_document_metadata _ s).
  assert (H1 : chain_has_store s1) by exact H.
  destruct (bool_decide _); [exact H1|].
  destruct (fst (reload_documents _ _ s1)) as [[|d l]|e];
    try exact H1.
  pose proof (create_vector_store_chain_has_store (d :: l)
                "docuchat_multi" false None s1 H1) as H2.
  rewrite create_vector_store_rebuild in H2. cbn [collection_for] in H2.
  destruct (rebuilt (d :: l) "docuchat_multi" None s1) as [[store|e] s2];
    cbn [snd] in H2; [|exact H2].
  pose proof (initialize_qa_chain_chain_has_store s2 H2) as H3.
  destruct (initialize_qa_chain s2) as [[chain|e] s3];
    cbn [snd] in H3; exact H3.
Qed.

Lemma get_chat_sessions_state (s : State) : snd (get_chat_sessions s) = s.
Proof. reflexivity. Qed.

Lemma get_session_chain_has_store (session_id : string) (s : State) :
  chain_has_store s -> chain_has_store (snd (get_session session_id s)).
Proof.
  intros H. unfold get_session. run.
  destruct (sessions (read_sessions s) !! session_id) as [session|];
    [|exact H].
  set (s1 := set_history_file _ s).
  assert (H1 : chain_has_store s1) by exact H.
  destruct (bool_decide _); [|exact H1].
  pose proof (load_session_vector_store_chain_has_store session_id s1 H1)
    as H2.
  destruct (load_session_vector_store session_id s1) as [[b|e] s2];
    cbn [snd] in H2; exact H2.
Qed.

(** X20.  No request leaves a QA chain without an index: if the state
    has an index whenever it has a chain, so has the state after any
    request; hence every state that a started process reaches has an
    index whenever it has a chain. *)
Theorem chain_has_store_invariant :
  (forall (r : Request) (s : State),
     chain_has_store s -> chain_has_store (handle r s))
  /\ (forall (rs : list Request) history saved files,
        chain_has_store (handle_all rs (started history saved files))).
Proof.
  assert (Step : forall (r : Request) (s : State),
             chain_has_store s -> chain_has_store (handle r s)).
  { intros r s H. destruct r; cbn [handle].
    - now apply upload_document_chain_has_store.
    - now rewrite chat_state.
    - now apply remove_document_chain_has_store.
    - exact H.
    - now apply get_session_chain_has_store.
    - unfold new_session, create_new_session. run.
      rewrite read_sessions_stored. cbn [sessions].
      rewrite lookup_insert_eq. exact H.
    - unfold rename_session. run.
      destruct name_field as [raw|]; [|exact H].
      destruct (_ || _); [exact H|].
      destruct (sessions (read_sessions s) !! session_id); exact H.
    - unfold delete_session. run.
      destruct (sessions (read_sessions s) !! session_id); exact H.
    - unfold clear_database. run.
      destruct clear_history; now intros [? [=]].
    - now apply restore_session_chain_has_store. }
  split; [exact Step|].
  intros rs history saved files. unfold handle_all.
  assert (H : chain_has_store (started history saved files))
    by now intros [? [=]].
  revert H. generalize (started history saved files).
  induction rs as [|r rs IH]; intros s H; [exact H|].
  simpl. apply IH. now apply Step.
Qed.

End Invariants.

Section SessionInvariant.

Context `{B : Backend}.

Lemma read_sessions_history (s s' : State) :
  history_file s' = history_file s -> read_sessions s' = read_sessions s.
Proof. unfold read_sessions. now intros ->. Qed.

Lemma upload_document_history (request : UploadRequest)
    (file_id now : string) (s : State) :
  history_file (snd (upload_document request file_id now s))
  = history_file s.
Proof.
  destruct (acceptable request) eqn:E.
  - destruct (acceptable_inv request E) as (c & f & Hf & Ha).
    now destruct (upload_document_trace request file_id now c f s Hf Ha).
  - now destruct (upload_document_refused request file_id now s E)
      as (error & ->).
Qed.

Lemma remove_document_history (file_id' now : string) (s : State) :
  history_file (snd (remove_document file_id' now s)) = history_file s.
Proof.
  unfold remove_document. run.
  destruct (document_metadata s !! file_id') as [meta|]; [|reflexivity].
  destruct (List.filter (other_document file_id') (all_documents s))
    as [|d l]; [reflexivity|].
  set (s0 := set_all_documents _ _).
  pose proof (create_vector_store_keeps (d :: l) "docuchat_multi" false
                None s0) as (_ & _ & H1 & _).
  change (history_file s0) with (history_file s) in H1.
  destruct (create_vector_store _ _ _ _ s0) as [[store|e] s1];
    cbn [snd] in H1; [|exact H1].
  pose proof (initialize_qa_chain_keeps s1) as (_ & H2 & _).
  destruct (initialize_qa_chain s1) as [[chain|e] s2];
    cbn [snd] in H2; cbn; congruence.
Qed.

Lemma restore_session_history (s : State) :
  history_file (snd (restore_session s)) = history_file s.
Proof.
  rewrite restore_session_step.
  destruct (session_file s) as [data|]; [|reflexivity].
  cbv zeta. set (s1 := set_document_metadata _ s).
  destruct (bool_decide _); [reflexivity|].
  destruct (fst (reload_documents _ _ s1)) as [[|d l]|e];
    try reflexivity.
  pose proof (create_vector_store_keeps (d :: l) "docuchat_multi" false
                None s1) as (_ & _ & H1 & _).
  rewrite create_vector_store_rebuild in H1. cbn [collection_for] in H1.
  change (history_file s1) with (history_file s) in H1.
  destruct (rebuilt (d :: l) "docuchat_multi" None s1) as [[store|e] s2];
    cbn [snd] in H1; [|exact H1].
  pose proof (initialize_qa_chain_keeps s2) as (_ & H2 & _).
  destruct (initialize_qa_chain s2) as [[chain|e] s3];
    cbn [snd] in H2; cbn; congruence.
Qed.

(** X21.  No request breaks the shape of the session store: if every
    session is stored under its own id and the active session, if any, is
    a stored one, the same holds after any request, and so in every state
    that a process started on such a store reaches. *)
Theorem sessions_well_formed_invariant :
  (forall (r : Request) (s : State),
     sessions_well_formed (read_sessions s) ->
     sessions_well_formed (read_sessions (handle r s)))
  /\ (forall (rs : list Request) history saved files,
        sessions_well_formed
          (read_sessions (started history saved files)) ->
        sessions_well_formed
          (read_sessions (handle_all rs (started history saved files)))).
Proof.
  assert (Step : forall (r : Request) (s : State),
             sessions_well_formed (read_sessions s) ->
             sessions_well_formed (read_sessions (handle r s))).
  { intros r s [Hid Hact]. destruct r; cbn [handle].
    - rewrite (read_sessions_history s); [now split|].
      apply upload_document_history.
    - rewrite chat_state. now split.
    - rewrite (read_sessions_history s); [now split|].
      apply remove_document_history.
    - now split.
    - unfold get_session. run.
      destruct (sessions (read_sessions s) !! session_id) as [c|] eqn:E;
        [|now split].
      set (s1 := set_history_file _ s).
      assert (W : sessions_well_formed (read_sessions s1)).
      { unfold s1. rewrite read_sessions_stored. split; [exact Hid|].
        cbn [active_session sessions]. intros k [= <-]. now rewrite E. }
      destruct (bool_decide _); [|exact W].
      pose proof (load_session_vector_store_keeps session_id s1)
        as (_ & _ & Hh & _).
      destruct (load_session_vector_store session_id s1) as [[b|e] s2];
        cbn [snd] in *; now rewrite (read_sessions_history s1).
    - unfold new_session, create_new_session. run.
      rewrite read_sessions_stored. cbn [sessions].
      rewrite lookup_insert_eq. cbn [snd].
      rewrite read_sessions_stored. split; cbn [sessions active_session].
      + intros k c. rewrite lookup_insert.
        destruct (decide (session_id = k)) as [<-|N];
          [now intros [= <-] | apply Hid].
      + intros k [= <-]. rewrite lookup_insert_eq. now eexists.
    - unfold rename_session. run.
      destruct name_field as [raw|]; [|now split].
      destruct (_ || _); [now split|].
      destruct (sessions (read_sessions s) !! session_id) as [c|] eqn:E;
        [|now split].
      cbn [snd]. rewrite read_sessions_stored.
      split; cbn [sessions active_session].
      + intros k c'. rewrite lookup_insert.
        destruct (decide (session_id = k)) as [<-|N]; [|apply Hid].
        intros [= <-]. cbn. now apply Hid.
      + intros k Hk. rewrite lookup_insert.
        destruct (decide (session_id = k)); [now eexists | now apply Hact].
    - unfold delete_session. run.
      destruct (sessions (read_sessions s) !! session_id) as [c|] eqn:E;
        [|now split].
      cbn [snd]. rewrite read_sessions_stored.
      split; cbn [sessions active_session].
      + intros k c'. rewrite lookup_delete.
        destruct (decide (session_id = k)); [discriminate | apply Hid].
      + intros k. destruct (same_session _ _) eqn:S; [discriminate|].
        intros Hk. rewrite lookup_delete.
        destruct (decide (session_id = k)) as [<-|N]; [|now apply Hact].
        rewrite Hk, (proj2 (same_session_eq _ _) eq_refl) in S.
        discriminate S.
    - unfold clear_database. run.
      destruct clear_history; cbn [snd]; [|now split].
      rewrite read_sessions_stored. split; [|discriminate].
      intros k c. cbn. now rewrite lookup_empty.
    - rewrite (read_sessions_history s); [now split|].
      apply restore_session_history. }
  split; [exact Step|].
  intros rs history saved files. unfold handle_all.
  generalize (started history saved files).
  induction rs as [|r rs IH]; intros s H; [exact H|].
  simpl. apply IH. now apply Step.
Qed.

End SessionInvariant.

(** * More concrete runs *)

Lemma clear_database_spec_witness :
  (exists e,
     clear_database_request (B := Sim.backend true)
       (Val (JArray [JString "clear_history"])) "t9" Sim.session_created
     = (Val (Error ("Failed to clear database: " ++ e), 500),
        Sim.session_created))
  /\ vector_store
       (snd (clear_database_request (B := Sim.backend true)
               (Val (JObject (Some false))) "t9" Sim.session_created))
     = None
  /\ history_file
       (snd (clear_database_request (B := Sim.backend true)
               (Val (JObject (Some false))) "t9" Sim.session_created))
     = history_file Sim.session_created.
Proof.
  split; [|split].
  - destruct (clear_database_spec (B := Sim.backend true)
                (Val (JArray [JString "clear_history"])) "t9"
                Sim.session_created) as (_ & H & _).
    exact (H eq_refl).
  - destruct (clear_database_spec (B := Sim.backend true)
                (Val (JObject (Some false))) "t9" Sim.session_created)
      as (_ & _ & _ & H).
    destruct (H eq_refl) as (_ & E & _). exact E.
  - destruct (clear_database_spec (B := Sim.backend true)
                (Val (JObject (Some false))) "t9" Sim.session_created)
      as (_ & _ & _ & H).
    destruct (H eq_refl) as (_ & _ & _ & _ & _ & _ & _ & E & _). exact E.
Defined.

Lemma upload_document_outcomes_witness :
  (exists e,
     upload_document_request (B := Sim.backend true) 60000000
       Sim.upload_a "d1" "t1" (Sim.fresh true)
     = (Exc e, Sim.fresh true))
  /\ (exists error,
        upload_document_request (B := Sim.backend true) 2048
          {| upload_file := Some "notes.txt"; add_to_existing_field := None |}
          "d1" "t1" (Sim.fresh true)
        = (Val (Error error, 400), Sim.fresh true))
  /\ exists body,
       fst (upload_document_request (B := Sim.backend true) 2048
              Sim.upload_a "d1" "t1" (Sim.fresh true)) = Val (body, 200)
       \/ fst (upload_document_request (B := Sim.backend true) 2048
                 Sim.upload_a "d1" "t1" (Sim.fresh true)) = Val (body, 500).
Proof.
  split; [|split].
  - apply (upload_document_outcomes (B := Sim.backend true) 60000000
             Sim.upload_a "d1" "t1" (Sim.fresh true)).
    reflexivity.
  - destruct (upload_document_outcomes (B := Sim.backend true) 2048
                {| upload_file := Some "notes.txt";
                   add_to_existing_field := None |}
                "d1" "t1" (Sim.fresh true)) as (_ & H).
    apply H; [vm_compute; discriminate | reflexivity].
  - destruct (upload_document_outcomes (B := Sim.backend true) 2048
                Sim.upload_a "d1" "t1" (Sim.fresh true)) as (_ & H).
    apply H; [vm_compute; discriminate | reflexivity].
Defined.

Lemma load_session_vector_store_opened_witness :
  active_session_id Sim2.chainless_indexed <> Some "s1"
  /\ fst (load_session_vector_store (B := Sim2.chainless) "s1"
            Sim2.chainless_indexed) = Val false
  /\ slot (snd (load_session_vector_store (B := Sim2.chainless) "s1"
                  Sim2.chainless_indexed))
     = (Some [], all_documents Sim2.chainless_indexed, Some "s1").
Proof.
  assert (N : active_session_id Sim2.chainless_indexed <> Some "s1")
    by discriminate.
  split; [exact N|].
  destruct (load_session_vector_store_opened (B := Sim2.chainless) "s1" []
              Sim2.chainless_indexed (or_introl N) eq_refl)
    as (Hs & _ & Hf).
  destruct (Hf "connection refused" eq_refl) as (Hr & _).
  split; [exact Hr | exact Hs].
Defined.

Lemma upload_document_failed_witness :
  fst (upload_document (B := Sim.backend false) Sim.upload_b "d2" "t2"
         (Sim.indexed false))
  = Val (Error "Failed to process document: connection refused", 500)
  /\ document_metadata
       (snd (upload_document (B := Sim.backend false) Sim.upload_b "d2"
               "t2" (Sim.indexed false)))
     = document_metadata (Sim.indexed false)
  /\ "d2_b.pdf"
     ∈ uploads (snd (upload_document (B := Sim.backend false) Sim.upload_b
                       "d2" "t2" (Sim.indexed false))).
Proof.
  split; [reflexivity|].
  destruct (upload_document_failed (B := Sim.backend false) Sim.upload_b
              "d2" "t2" "b.pdf"
              (Error "Failed to process document: connection refused")
              (Sim.indexed false) eq_refl eq_refl) as (Hd & _ & _ & Hu).
  split; [exact Hd | exact Hu].
Defined.

Lemma upload_document_registered_witness :
  fst (upload_document (B := Sim.backend true) Sim.upload_a "d1" "t1"
         (Sim.fresh true))
  = Val (Uploaded "Document uploaded and processed successfully" "d1"
           "a.pdf" 1 1 1, 200)
  /\ is_Some (qa_chain
                (snd (upload_document (B := Sim.backend true) Sim.upload_a
                        "d1" "t1" (Sim.fresh true)))).
Proof.
  split; [reflexivity|].
  destruct (upload_document_registered (B := Sim.backend true) Sim.upload_a
              "d1" "t1"
              (Uploaded "Document uploaded and processed successfully" "d1"
                        "a.pdf" 1 1 1)
              (Sim.fresh true) eq_refl)
    as (name & pages & _ & _ & _ & _ & _ & _ & _ & _ & Hq & _).
  exact Hq.
Defined.

Lemma upload_document_chunks_witness :
  let s := snd (upload_document (B := Sim.backend true) Sim.upload_a "d1"
                  "t1" (Sim.fresh true)) in
  fst (upload_document Sim.upload_b "d2" "t2" s)
  = Val (Uploaded "Document added to collection" "d2" "b.pdf" 1 1 2, 200)
  /\ all_documents (snd (upload_document Sim.upload_b "d2" "t2" s))
     = (all_documents s
        ++ upload_chunks (B := Sim.backend true) "d2" "b.pdf"
             (Sim.one_page "uploads/d2_b.pdf"))%list.
Proof.
  cbv zeta. split; [reflexivity|].
  destruct (upload_document_chunks (B := Sim.backend true) Sim.upload_b
              "d2" "t2" "b.pdf" (Sim.one_page "uploads/d2_b.pdf")
              (Uploaded "Document added to collection" "d2" "b.pdf" 1 1 2)
              (snd (upload_document (B := Sim.backend true) Sim.upload_a
                      "d1" "t1" (Sim.fresh true)))
              eq_refl eq_refl eq_refl) as (H & _).
  apply H; [reflexivity | now eexists | reflexivity].
Defined.

Lemma sim_splitter_keeps_file_id (up : bool) :
  splitter_keeps_file_id (B := Sim.backend up).
Proof. intros size overlap documents chunk H. now exists chunk. Qed.

Lemma upload_then_remove_witness :
  splitter_keeps_file_id (B := Sim.backend true)
  /\ vector_store
       (snd (remove_document (B := Sim.backend true) "d1" "t2"
               (snd (upload_document Sim.upload_a "d1" "t1"
                       (Sim.fresh true)))))
     = None
  /\ document_metadata
       (snd (remove_document (B := Sim.backend true) "d1" "t2"
               (snd (upload_document Sim.upload_a "d1" "t1"
                       (Sim.fresh true)))))
     = delete "d1" (document_metadata (Sim.fresh true)).
Proof.
  split; [apply sim_splitter_keeps_file_id|].
  destruct (upload_then_remove (B := Sim.backend true) Sim.upload_a "d1"
              "t1" "t2"
              (Uploaded "Document uploaded and processed successfully" "d1"
                        "a.pdf" 1 1 1)
              (Sim.fresh true) (sim_splitter_keeps_file_id true) eq_refl
              (or_introl eq_refl))
    as (_ & Hv & _ & _ & Hd & _).
  split; [exact Hv | exact Hd].
Defined.

Lemma add_then_remove_other_witness :
  let s := snd (upload_document (B := Sim.backend true) Sim.upload_a "d1"
                  "t1" (Sim.fresh true)) in
  let b := upload_chunks (B := Sim.backend true) "d2" "b.pdf"
             (Sim.one_page "uploads/d2_b.pdf") in
  fst (upload_document Sim.upload_b "d2" "t2" s)
  = Val (Uploaded "Document added to collection" "d2" "b.pdf" 1 1 2, 200)
  /\ slot (snd (remove_document "d1" "t3"
                  (snd (upload_document Sim.upload_b "d2" "t2" s))))
     = (Some b, b, None).
Proof.
  cbv zeta. split; [reflexivity|].
  assert (N : (List.filter (other_document "d1")
                 (all_documents
                    (snd (upload_document (B := Sim.backend true)
                            Sim.upload_a "d1" "t1" (Sim.fresh true))))
               ++ upload_chunks (B := Sim.backend true) "d2" "b.pdf"
                    (Sim.one_page "uploads/d2_b.pdf"))%list <> [])
    by discriminate.
  assert (D : "d1" <> "d2") by discriminate.
  destruct (add_then_remove_other (B := Sim.backend true) Sim.upload_b
              "d2" "t2" "t3" "d1" "b.pdf" (Sim.one_page "uploads/d2_b.pdf")
              (Uploaded "Document added to collection" "d2" "b.pdf" 1 1 2)
              {| filename := "a.pdf"; chunks := 1; pages := 1 |}
              (upload_chunks (B := Sim.backend true) "d2" "b.pdf"
                 (Sim.one_page "uploads/d2_b.pdf"))
              (upload_chunks (B := Sim.backend true) "d2" "b.pdf"
                 (Sim.one_page "uploads/d2_b.pdf"))
              (snd (upload_document (B := Sim.backend true) Sim.upload_a
                      "d1" "t1" (Sim.fresh true)))
              (sim_splitter_keeps_file_id true) D eq_refl eq_refl
              (ex_intro _ _ eq_refl) eq_refl eq_refl eq_refl eq_refl N
              eq_refl eq_refl)
    as (_ & Hs & _).
  exact Hs.
Defined.

(** ** Failed removals and restarts *)

Section Persistence.

Context `{B : Backend}.

(** X22.  [remove_document] answers 404 and changes nothing for an id
    that is not registered.  A removal that is answered 500 has
    nevertheless deleted the record and the files of the document and
    replaced the chunk list by the remaining chunks, while [session.json]
    still holds what it held. *)
Theorem remove_document_failed (file_id' now : string) (s : State) :
  let r := remove_document file_id' now s in
  (document_metadata s !! file_id' = None ->
   r = (Val (Error "Document not found", 404), s))
  /\ (forall body,
        is_Some (document_metadata s !! file_id') ->
        fst r = Val (body, 500) ->
        document_metadata (snd r) = delete file_id' (document_metadata s)
        /\ all_documents (snd r)
           = List.filter (other_document file_id') (all_documents s)
        /\ uploads (snd r)
           = filter (fun f => starts_with file_id' f = false) (uploads s)
        /\ session_file (snd r) = session_file s).
Proof.
  cbv zeta. unfold remove_document. run. split.
  - now intros ->.
  - intros body [meta Hm]. rewrite Hm.
    destruct (List.filter (other_document file_id') (all_documents s))
      as [|d l]; [discriminate|].
    rewrite create_vector_store_rebuild. unfold rebuilt.
    cbn [collection_for].
    destruct (Chroma_from_documents (d :: l) "docuchat_multi")
      as [store|e]; [|now intros _].
    rewrite initialize_qa_chain_step. cbn [vector_store set_vector_store].
    destruct (RetrievalQA_from_chain_type store) as [chain|e];
      [discriminate | now intros _].
Qed.

(** X23.  What an upload answered 200 registers survives a restart: in
    a process started on the files that the upload left, [restore_session]
    makes the registry the one the upload left. *)
Theorem restore_after_restart (request : UploadRequest)
    (file_id now : string) (body : Body) (s : State) :
  fst (upload_document request file_id now s) = Val (body, 200) ->
  let s' := snd (upload_document request file_id now s) in
  document_metadata
    (snd (restore_session
            (started (history_file s') (session_file s') (uploads s'))))
  = document_metadata s'.
Proof.
  intros Hr. cbv zeta.
  destruct (upload_document_accepted request file_id now body s Hr)
    as (c & f & Hf & Ha).
  destruct (upload_document_trace request file_id now c f s Hf Ha)
    as (_ & _ & [(e & Hx & _)
                | (pages & chain & _ & _ & Hd & Hs & _)]).
  { rewrite Hx in Hr. discriminate Hr. }
  set (s1 := snd (upload_document request file_id now s)) in *.
  rewrite restore_session_step.
  cbn [session_file started]. rewrite Hs, Hd. cbv zeta.
  cbn [sf_document_metadata].
  set (m := <[file_id := _]> (document_metadata s)).
  set (s2 := set_document_metadata m _).
  destruct (bool_decide _); [reflexivity|].
  destruct (fst (reload_documents _ _ s2)) as [[|d l]|e];
    try reflexivity.
  pose proof (create_vector_store_keeps (d :: l) "docuchat_multi" false
                None s2) as (_ & K & _).
  rewrite create_vector_store_rebuild in K. cbn [collection_for] in K.
  change (document_metadata s2) with m in K.
  destruct (rebuilt (d :: l) "docuchat_multi" None s2) as [[st|e] s3];
    cbn [snd] in K; [|exact K].
  pose proof (initialize_qa_chain_keeps s3) as (K2 & _).
  destruct (initialize_qa_chain s3) as [[ch|e] s4];
    cbn [snd] in *; congruence.
Qed.

End Persistence.

Lemma restore_after_restart_witness :
  let s' := snd (upload_document (B := Sim.backend true) Sim.upload_a "d1"
                   "t1" (Sim.fresh true)) in
  fst (upload_document (B := Sim.backend true) Sim.upload_a "d1" "t1"
         (Sim.fresh true))
  = Val (Uploaded "Document uploaded and processed successfully" "d1"
           "a.pdf" 1 1 1, 200)
  /\ document_metadata
       (snd (restore_session
               (started (B := Sim.backend true) (history_file s')
                        (session_file s') (uploads s'))))
     = document_metadata s'.
Proof.
  cbv zeta. split; [reflexivity|].
  exact (restore_after_restart (B := Sim.backend true) Sim.upload_a "d1"
           "t1"
           (Uploaded "Document uploaded and processed successfully" "d1"
                     "a.pdf" 1 1 1)
           (Sim.fresh true) eq_refl).
Defined.
